(** * Story generator from images: the audio container encoder and its callers

    A shallow embedding of [Story_Generation.py] and of the driver script
    [app.py], together with the parts of the Python standard library they
    call ([struct], [io.BytesIO], [wave]).

    Layout: the model comes first (modules [Py], [Struct], [Io], [Wave],
    [Story_Generation], [App]); the properties follow in the second half
    of the file. *)

From Stdlib Require Import ZArith List String Ascii Bool Lia.
From stdpp Require Import base option list strings gmap.
From coqutil Require Import Byte Word.LittleEndianList.

Abbreviation bytes := (list Init.Byte.byte).

#[export] Instance byte_eq_decision : EqDecision Init.Byte.byte :=
  Stdlib.Strings.Byte.byte_eq_dec.

(** ** Python outcomes: a value or a raised exception *)

Module Py.

(** The part of the exception hierarchy that the [except] clauses of the
    program can tell apart: [except Exception] catches every class that
    derives from [Exception], and lets the three classes that derive from
    [BaseException] alone go through. *)
Inductive exn_class : Type :=
| Exception_subclass (name : string)
| KeyboardInterrupt
| SystemExit
| GeneratorExit.

Record exn : Type := mk_exn { exn_cls : exn_class; exn_str : string }.

Definition is_Exception (e : exn) : bool :=
  match exn_cls e with
  | Exception_subclass _ => true
  | _ => false
  end.

Definition ValueError (msg : string) : exn := mk_exn (Exception_subclass "ValueError") msg.
Definition TypeError (msg : string) : exn := mk_exn (Exception_subclass "TypeError") msg.
Definition AttributeError (msg : string) : exn := mk_exn (Exception_subclass "AttributeError") msg.
Definition IndexError (msg : string) : exn := mk_exn (Exception_subclass "IndexError") msg.
Definition EOFError : exn := mk_exn (Exception_subclass "EOFError") "".
Definition RuntimeError : exn := mk_exn (Exception_subclass "RuntimeError") "".
Definition OSError (msg : string) : exn := mk_exn (Exception_subclass "OSError") msg.
Definition struct_error (msg : string) : exn := mk_exn (Exception_subclass "struct.error") msg.
Definition wave_Error (msg : string) : exn := mk_exn (Exception_subclass "wave.Error") msg.

Inductive outcome (A : Type) : Type :=
| Returned (a : A)
| Raised (e : exn).
Arguments Returned {A} a.
Arguments Raised {A} e.

#[export] Instance outcome_ret : MRet outcome := fun A a => Returned a.
#[export] Instance outcome_bind : MBind outcome := fun A B k o =>
  match o with
  | Returned a => k a
  | Raised e => Raised e
  end.

#[export] Instance outcome_fmap : FMap outcome := fun A B f o =>
  match o with
  | Returned a => Returned (f a)
  | Raised e => Raised e
  end.

(** Stateful code that may raise: the state is kept when an exception
    goes through, as a half-written file is. *)
Definition M (S A : Type) : Type := S -> outcome A * S.

#[export] Instance M_ret {S} : MRet (M S) := fun A a s => (Returned a, s).
#[export] Instance M_bind {S} : MBind (M S) := fun A B k m s =>
  match m s with
  | (Returned a, s') => k a s'
  | (Raised e, s') => (Raised e, s')
  end.

Definition raise {S A} (e : exn) : M S A := fun s => (Raised e, s).
Definition get {S} : M S S := fun s => (Returned s, s).
Definition gets {S A} (f : S -> A) : M S A := fun s => (Returned (f s), s).
Definition modify {S} (f : S -> S) : M S unit := fun s => (Returned tt, f s).
Definition lift {S A} (o : outcome A) : M S A := fun s => (o, s).

(** [try: body / except Exception as e: handler e] *)
Definition try_except_Exception {S A} (body : M S A) (handler : exn -> M S A) : M S A :=
  fun s =>
    match body s with
    | (Returned a, s') => (Returned a, s')
    | (Raised e, s') => if is_Exception e then handler e s' else (Raised e, s')
    end.

(** [try: body / except: handler], the bare clause, which catches every
    exception. *)
Definition try_except_all {S A} (body : M S A) (handler : M S A) : M S A :=
  fun s =>
    match body s with
    | (Returned a, s') => (Returned a, s')
    | (Raised _, s') => handler s'
    end.

(** Truthiness of a [str]-or-[None] value: [None] and the empty string are
    falsy. *)
Definition truthy (v : option string) : bool :=
  match v with
  | Some s => negb (String.eqb s "")
  | None => false
  end.

End Py.
Export Py.

(** ** [struct]: the little-endian codes used by [wave] *)

Module Struct.

(** [struct.pack('<L', x)] *)
Definition pack_L (x : Z) : outcome bytes :=
  if decide (0 <= x <= 4294967295)%Z
  then Returned (le_split 4 x)
  else Raised (struct_error "'L' format requires 0 <= number <= 4294967295").

(** [struct.pack('<H', x)] *)
Definition pack_H (x : Z) : outcome bytes :=
  if decide (0 <= x <= 65535)%Z
  then Returned (le_split 2 x)
  else Raised (struct_error "'H' format requires 0 <= number <= 65535").

(** [struct.pack('<4s', s)]: exactly four bytes, cut or padded with
    zeros. *)
Definition pack_4s (s : bytes) : bytes :=
  take 4 (s ++ replicate 4 Byte.x00).

(** [struct.unpack_from('<L', b)[0]] and [struct.unpack_from('<H', b)[0]]:
    the buffer may be longer than the format, never shorter. *)
Definition unpack_from_L (b : bytes) : outcome Z :=
  if decide (4 <= length b)%nat
  then Returned (le_combine (take 4 b))
  else Raised (struct_error "unpack_from requires a buffer of at least 4 bytes").

Definition unpack_from_H (b : bytes) : outcome Z :=
  if decide (2 <= length b)%nat
  then Returned (le_combine (take 2 b))
  else Raised (struct_error "unpack_from requires a buffer of at least 2 bytes").

(** [struct.unpack_from('<HHLLH', b)] *)
Definition unpack_from_HHLLH (b : bytes) : outcome (Z * Z * Z * Z * Z) :=
  if decide (14 <= length b)%nat
  then Returned (le_combine (take 2 b),
                 le_combine (take 2 (drop 2 b)),
                 le_combine (take 4 (drop 4 b)),
                 le_combine (take 4 (drop 8 b)),
                 le_combine (take 2 (drop 12 b)))
  else Raised (struct_error "unpack_from requires a buffer of at least 14 bytes").

End Struct.

(** ** [io.BytesIO]: a growable byte buffer with a position *)

Module Io.

Record BytesIO : Type := mk_BytesIO { getvalue : bytes; tell : nat }.

Definition BytesIO_new : BytesIO := mk_BytesIO [] 0.

(** [f.write(data)]: overwrites from the position on and grows the buffer
    when needed; a position past the end is first filled with zero
    bytes. Writing nothing changes nothing. *)
Definition write (data : bytes) (f : BytesIO) : BytesIO :=
  match data with
  | [] => f
  | _ =>
      let padded := getvalue f ++ replicate (tell f - length (getvalue f)) Byte.x00 in
      mk_BytesIO (take (tell f) padded ++ data ++ drop (tell f + length data) padded)
                 (tell f + length data)
  end.

(** [f.read(n)] *)
Definition read (n : nat) (f : BytesIO) : bytes * BytesIO :=
  let data := take n (drop (tell f) (getvalue f)) in
  (data, mk_BytesIO (getvalue f) (tell f + length data)).

(** [f.seek(pos, 0)] *)
Definition seek (pos : nat) (f : BytesIO) : BytesIO :=
  mk_BytesIO (getvalue f) pos.

End Io.

(** ** [wave]: the standard library's reader and writer of WAV files

    Transcribed from CPython's [Lib/wave.py] ([Wave_write], [Wave_read] and
    the RIFF [_Chunk] reader). Only the compression type ['NONE'] exists
    there, and [_convert] is always [None]. *)

Module Wave.
Import Io Struct.

Definition WAVE_FORMAT_PCM : Z := 1.

Definition b (s : string) : bytes := list_byte_of_string s.

(** [sys.byteorder]. The hosts on which the application runs are
    little-endian, where [wave] writes and reads the samples as they
    are; the byte-swapping branch of the big-endian hosts is kept below
    for comparison with the library. *)
Inductive byteorder : Type := little | big.
Definition sys_byteorder : byteorder := little.

Definition is_big (o : byteorder) : bool :=
  match o with big => true | little => false end.

(** [range(0, stop, step)] for a positive step. *)
Definition py_range (stop step : nat) : list nat :=
  (fun k => k * step)%nat <$> seq 0 ((stop + step - 1) / step)%nat.

(** [_byteswap(data, width)]: writes each sample back to front into a
    zeroed [bytearray] of the same length; an index past the end raises
    [IndexError], which is what a trailing partial sample does. *)
Definition _byteswap (data : bytes) (width : nat) : outcome bytes :=
  foldl (fun acc i =>
           foldl (fun acc j =>
                    swapped_data ← acc;
                    match data !! (i + j)%nat with
                    | None => Raised (IndexError "index out of range")
                    | Some x =>
                        if decide (i + width - 1 - j < length swapped_data)%nat
                        then Returned (<[(i + width - 1 - j)%nat := x]> swapped_data)
                        else Raised (IndexError "bytearray index out of range")
                    end)
                 acc (seq 0 width))
        (Returned (replicate (length data) Byte.x00))
        (py_range (length data) width).

(** *** Writing *)
Module Write.

(** The attributes of a [Wave_write] object. [_file] is [true] while
    the object refers to its file and [false] once [close] has set it
    to [None]; the file object itself is shared with the caller and is
    kept next to the writer in [writer_state]. *)
Record Wave_write : Type := mk_Wave_write {
  _file : bool;
  _nchannels : Z;
  _sampwidth : Z;
  _framerate : Z;
  _nframes : Z;
  _nframeswritten : Z;
  _datawritten : Z;
  _datalength : Z;
  _headerwritten : bool;
  _form_length_pos : nat;
  _data_length_pos : nat
}.

Record writer_state : Type := mk_writer_state {
  file_obj : BytesIO;
  self : Wave_write
}.

Definition set_file v (w : Wave_write) :=
  mk_Wave_write v (_nchannels w) (_sampwidth w) (_framerate w) (_nframes w)
    (_nframeswritten w) (_datawritten w) (_datalength w) (_headerwritten w)
    (_form_length_pos w) (_data_length_pos w).
Definition set_nchannels v (w : Wave_write) :=
  mk_Wave_write (_file w) v (_sampwidth w) (_framerate w) (_nframes w)
    (_nframeswritten w) (_datawritten w) (_datalength w) (_headerwritten w)
    (_form_length_pos w) (_data_length_pos w).
Definition set_sampwidth v (w : Wave_write) :=
  mk_Wave_write (_file w) (_nchannels w) v (_framerate w) (_nframes w)
    (_nframeswritten w) (_datawritten w) (_datalength w) (_headerwritten w)
    (_form_length_pos w) (_data_length_pos w).
Definition set_framerate v (w : Wave_write) :=
  mk_Wave_write (_file w) (_nchannels w) (_sampwidth w) v (_nframes w)
    (_nframeswritten w) (_datawritten w) (_datalength w) (_headerwritten w)
    (_form_length_pos w) (_data_length_pos w).
Definition set_nframes v (w : Wave_write) :=
  mk_Wave_write (_file w) (_nchannels w) (_sampwidth w) (_framerate w) v
    (_nframeswritten w) (_datawritten w) (_datalength w) (_headerwritten w)
    (_form_length_pos w) (_data_length_pos w).
Definition set_nframeswritten v (w : Wave_write) :=
  mk_Wave_write (_file w) (_nchannels w) (_sampwidth w) (_framerate w) (_nframes w)
    v (_datawritten w) (_datalength w) (_headerwritten w)
    (_form_length_pos w) (_data_length_pos w).
Definition set_datawritten v (w : Wave_write) :=
  mk_Wave_write (_file w) (_nchannels w) (_sampwidth w) (_framerate w) (_nframes w)
    (_nframeswritten w) v (_datalength w) (_headerwritten w)
    (_form_length_pos w) (_data_length_pos w).
Definition set_datalength v (w : Wave_write) :=
  mk_Wave_write (_file w) (_nchannels w) (_sampwidth w) (_framerate w) (_nframes w)
    (_nframeswritten w) (_datawritten w) v (_headerwritten w)
    (_form_length_pos w) (_data_length_pos w).
Definition set_headerwritten v (w : Wave_write) :=
  mk_Wave_write (_file w) (_nchannels w) (_sampwidth w) (_framerate w) (_nframes w)
    (_nframeswritten w) (_datawritten w) (_datalength w) v
    (_form_length_pos w) (_data_length_pos w).
Definition set_form_length_pos v (w : Wave_write) :=
  mk_Wave_write (_file w) (_nchannels w) (_sampwidth w) (_framerate w) (_nframes w)
    (_nframeswritten w) (_datawritten w) (_datalength w) (_headerwritten w)
    v (_data_length_pos w).
Definition set_data_length_pos v (w : Wave_write) :=
  mk_Wave_write (_file w) (_nchannels w) (_sampwidth w) (_framerate w) (_nframes w)
    (_nframeswritten w) (_datawritten w) (_datalength w) (_headerwritten w)
    (_form_length_pos w) v.

Abbreviation W := (M writer_state).

Definition attr {A} (field : Wave_write -> A) : W A :=
  gets (fun s => field (self s)).
Definition assign (setter : Wave_write -> Wave_write) : W unit :=
  modify (fun s => mk_writer_state (file_obj s) (setter (self s))).
Definition file_write (data : bytes) : W unit :=
  modify (fun s => mk_writer_state (write data (file_obj s)) (self s)).
Definition file_tell : W nat :=
  gets (fun s => tell (file_obj s)).
Definition file_seek (pos : nat) : W unit :=
  modify (fun s => mk_writer_state (seek pos (file_obj s)) (self s)).

(** [Wave_write(f)] for a file object [f], through [initfp]. *)
Definition initfp (file : BytesIO) : writer_state :=
  mk_writer_state file (mk_Wave_write true 0 0 0 0 0 0 0 false 0 0).

Definition setnchannels (nchannels : Z) : W unit :=
  datawritten ← attr _datawritten;
  if negb (datawritten =? 0)%Z
  then raise (wave_Error "cannot change parameters after starting to write")
  else if (nchannels <? 1)%Z
  then raise (wave_Error "bad # of channels")
  else assign (set_nchannels nchannels).

Definition setsampwidth (sampwidth : Z) : W unit :=
  datawritten ← attr _datawritten;
  if negb (datawritten =? 0)%Z
  then raise (wave_Error "cannot change parameters after starting to write")
  else if ((sampwidth <? 1) || (4 <? sampwidth))%Z
  then raise (wave_Error "bad sample width")
  else assign (set_sampwidth sampwidth).

Definition setframerate (framerate : Z) : W unit :=
  datawritten ← attr _datawritten;
  if negb (datawritten =? 0)%Z
  then raise (wave_Error "cannot change parameters after starting to write")
  else if (framerate <=? 0)%Z
  then raise (wave_Error "bad frame rate")
  else assign (set_framerate framerate).

(** The arguments of
    [struct.pack('<L4s4sLHHLLHH4s', ...)] in [_write_header]. *)
Definition pack_header (datalength nchannels framerate sampwidth : Z) : outcome bytes :=
  form_length ← pack_L (36 + datalength);
  fmt_length ← pack_L 16;
  format_tag ← pack_H WAVE_FORMAT_PCM;
  channels ← pack_H nchannels;
  rate ← pack_L framerate;
  byte_rate ← pack_L (nchannels * framerate * sampwidth);
  block_align ← pack_H (nchannels * sampwidth);
  bits ← pack_H (sampwidth * 8);
  mret (form_length ++ pack_4s (b "WAVE") ++ pack_4s (b "fmt ") ++ fmt_length
          ++ format_tag ++ channels ++ rate ++ byte_rate ++ block_align ++ bits
          ++ pack_4s (b "data")).

Definition _write_header (initlength : Z) : W unit :=
  file_write (b "RIFF");;
  nframes ← attr _nframes;
  (if (nframes =? 0)%Z
   then nchannels ← attr _nchannels;
        sampwidth ← attr _sampwidth;
        assign (set_nframes (initlength / (nchannels * sampwidth))%Z)
   else mret tt);;
  nframes ← attr _nframes;
  nchannels ← attr _nchannels;
  sampwidth ← attr _sampwidth;
  framerate ← attr _framerate;
  assign (set_datalength (nframes * nchannels * sampwidth)%Z);;
  pos ← file_tell;
  assign (set_form_length_pos pos);;
  datalength ← attr _datalength;
  header ← lift (pack_header datalength nchannels framerate sampwidth);
  file_write header;;
  pos ← file_tell;
  assign (set_data_length_pos pos);;
  length_field ← lift (pack_L datalength);
  file_write length_field;;
  assign (set_headerwritten true).

Definition _ensure_header_written (datasize : Z) : W unit :=
  headerwritten ← attr _headerwritten;
  if headerwritten : bool then mret tt
  else
    nchannels ← attr _nchannels;
    sampwidth ← attr _sampwidth;
    framerate ← attr _framerate;
    if (nchannels =? 0)%Z then raise (wave_Error "# channels not specified")
    else if (sampwidth =? 0)%Z then raise (wave_Error "sample width not specified")
    else if (framerate =? 0)%Z then raise (wave_Error "sampling rate not specified")
    else _write_header datasize.

Definition _patchheader : W unit :=
  datawritten ← attr _datawritten;
  datalength ← attr _datalength;
  if (datawritten =? datalength)%Z then mret tt
  else
    curpos ← file_tell;
    form_length_pos ← attr _form_length_pos;
    file_seek form_length_pos;;
    form_length ← lift (pack_L (36 + datawritten));
    file_write form_length;;
    data_length_pos ← attr _data_length_pos;
    file_seek data_length_pos;;
    length_field ← lift (pack_L datawritten);
    file_write length_field;;
    file_seek curpos;;
    assign (set_datalength datawritten).

Definition writeframesraw (data : bytes) : W unit :=
  _ensure_header_written (Z.of_nat (length data));;
  sampwidth ← attr _sampwidth;
  nchannels ← attr _nchannels;
  let nframes := (Z.of_nat (length data) / (sampwidth * nchannels))%Z in
  data ← (if negb (sampwidth =? 1)%Z && is_big sys_byteorder
          then lift (_byteswap data (Z.to_nat sampwidth))
          else mret data);
  file_write data;;
  datawritten ← attr _datawritten;
  assign (set_datawritten (datawritten + Z.of_nat (length data))%Z);;
  nframeswritten ← attr _nframeswritten;
  assign (set_nframeswritten (nframeswritten + nframes)%Z).

Definition writeframes (data : bytes) : W unit :=
  writeframesraw data;;
  datalength ← attr _datalength;
  datawritten ← attr _datawritten;
  if negb (datalength =? datawritten)%Z then _patchheader else mret tt.

(** [close]: the [finally] clause drops the file whatever happened. *)
Definition close : W unit :=
  fun s =>
    let '(r, s') :=
      (file ← attr _file;
       if file : bool
       then _ensure_header_written 0;;
            datalength ← attr _datalength;
            datawritten ← attr _datawritten;
            if negb (datalength =? datawritten)%Z then _patchheader else mret tt
       else mret tt) s in
    (r, mk_writer_state (file_obj s') (set_file false (self s'))).

(** [with wave.open(f, 'wb') as wav_file: body]. [__exit__] calls
    [close] on every way out of the body and returns [None], so an
    exception of the body goes on, unless [close] raises one of its
    own. *)
Definition with_open (file : BytesIO) (body : W unit) : outcome unit * writer_state :=
  match body (initfp file) with
  | (Returned _, s) => close s
  | (Raised e, s) =>
      match close s with
      | (Returned _, s') => (Raised e, s')
      | (Raised e', s') => (Raised e', s')
      end
  end.

End Write.

(** *** Reading *)
Module Read.

(** What [_Chunk] asks of the object it reads from: [read(size)],
    [tell()] and [seek(pos, whence)]. [BytesIO] provides them, and so
    does a [_Chunk] itself, which is how the chunks of a RIFF file
    nest. *)
Class FileLike (F : Type) : Type := {
  f_read : Z -> M F bytes;
  f_tell : M F Z;
  f_seek : Z -> Z -> M F unit
}.

#[export] Instance BytesIO_FileLike : FileLike BytesIO := {
  f_read size := fun f =>
    let n := if (size <? 0)%Z then length (getvalue f) else Z.to_nat size in
    let '(data, f') := read n f in (Returned data, f');
  f_tell := fun f => (Returned (Z.of_nat (tell f)), f);
  f_seek pos whence := fun f =>
    let base := if (whence =? 1)%Z then Z.of_nat (tell f)
                else if (whence =? 2)%Z then Z.of_nat (length (getvalue f))
                else 0%Z in
    if ((whence =? 0) && (pos <? 0))%Z
    then (Raised (ValueError "negative seek value"), f)
    else (Returned tt, seek (Z.to_nat (Z.max 0 (base + pos))) f)
}.

(** A [_Chunk] object together with the file object it refers to: the
    file is reached through the chunk only while the chunk is in use,
    and is handed back by [file] afterwards. A file that can [tell] is
    seekable, which both kinds of file here are. *)
Record _Chunk (F : Type) : Type := mk_Chunk {
  file : F;
  chunkname : bytes;
  chunksize : Z;
  size_read : Z;
  offset : Z
}.
Arguments mk_Chunk {F}.
Arguments file {F}.
Arguments chunkname {F}.
Arguments chunksize {F}.
Arguments size_read {F}.
Arguments offset {F}.

Definition on_file {F A} (m : M F A) : M (_Chunk F) A :=
  fun c =>
    let '(r, f) := m (file c) in
    (r, mk_Chunk f (chunkname c) (chunksize c) (size_read c) (offset c)).

Definition set_size_read {F} (v : Z) : M (_Chunk F) unit :=
  modify (fun c => mk_Chunk (file c) (chunkname c) (chunksize c) v (offset c)).

Definition is_EOFError (e : exn) : bool :=
  match exn_cls e with
  | Exception_subclass name => String.eqb name "EOFError"
  | _ => false
  end.

Definition is_struct_error (e : exn) : bool :=
  match exn_cls e with
  | Exception_subclass name => String.eqb name "struct.error"
  | _ => false
  end.

(** [struct.error] becomes [EOFError], as in
    [try: ... except struct.error: raise EOFError from None]. *)
Definition struct_error_to_EOFError {A} (o : outcome A) : outcome A :=
  match o with
  | Raised e => if is_struct_error e then Raised EOFError else Raised e
  | r => r
  end.

(** [_Chunk(file, bigendian=0)]: reads the four bytes of the name and
    the four of the size. On [EOFError] the file keeps what was read
    from it. *)
Definition Chunk_init {F} `{FileLike F} : M F (_Chunk F) :=
  name ← f_read 4;
  if decide (length name < 4)%nat then raise EOFError
  else
    size_bytes ← f_read 4;
    size ← lift (struct_error_to_EOFError (unpack_from_L size_bytes));
    pos ← f_tell;
    gets (fun f => mk_Chunk f name size 0 pos).

(** [chunk.read(size)], with the padding byte that follows a chunk of
    odd size. *)
Definition Chunk_read {F} `{FileLike F} (size : Z) : M (_Chunk F) bytes :=
  c ← get;
  if (chunksize c <=? size_read c)%Z then mret []
  else
    let size := if (size <? 0)%Z then (chunksize c - size_read c)%Z else size in
    let size := if (chunksize c - size_read c <? size)%Z
                then (chunksize c - size_read c)%Z else size in
    data ← on_file (f_read size);
    set_size_read (size_read c + Z.of_nat (length data));;
    c ← get;
    (if ((size_read c =? chunksize c) && Z.odd (chunksize c))%Z
     then dummy ← on_file (f_read 1);
          set_size_read (size_read c + Z.of_nat (length dummy))
     else mret tt);;
    mret data.

(** [chunk.seek(pos, whence)] *)
Definition Chunk_seek {F} `{FileLike F} (pos whence : Z) : M (_Chunk F) unit :=
  c ← get;
  let pos := if (whence =? 1)%Z then (pos + size_read c)%Z
             else if (whence =? 2)%Z then (pos + chunksize c)%Z
             else pos in
  if ((pos <? 0) || (chunksize c <? pos))%Z then raise RuntimeError
  else
    on_file (f_seek (offset c + pos) 0);;
    set_size_read pos.

#[export] Instance Chunk_FileLike {F} `{FileLike F} : FileLike (_Chunk F) := {
  f_read := Chunk_read;
  f_tell := fun c => (Returned (size_read c), c);
  f_seek := Chunk_seek
}.

(** [chunk.skip()] on a seekable file. The [except OSError] around the
    seek has nothing to catch here: the file objects of this model
    raise [RuntimeError] or [ValueError] from [seek], which go
    through. *)
Definition Chunk_skip {F} `{FileLike F} : M (_Chunk F) unit :=
  c ← get;
  let n := (chunksize c - size_read c)%Z in
  let n := if Z.odd (chunksize c) then (n + 1)%Z else n in
  on_file (f_seek n 1);;
  set_size_read (size_read c + n).

(** The attributes of a [Wave_read] object. While [_data_chunk] is set,
    the RIFF chunk that [_file] names is the one inside it. *)
Record Wave_read : Type := mk_Wave_read {
  _file : _Chunk BytesIO;
  _fmt_chunk_read : bool;
  _data_chunk : option (_Chunk (_Chunk BytesIO));
  _nchannels : Z;
  _framerate : Z;
  _sampwidth : Z;
  _framesize : Z;
  _nframes : Z;
  _data_seek_needed : bool;
  _soundpos : Z
}.

(** [_read_fmt_chunk(chunk)]: the channel count, the frame rate, the
    sample width in bytes and the frame size. *)
Definition _read_fmt_chunk {F} `{FileLike F} : M (_Chunk F) (Z * Z * Z * Z) :=
  head ← Chunk_read 14;
  '(wFormatTag, nchannels, framerate, dwAvgBytesPerSec, wBlockAlign) ←
    lift (struct_error_to_EOFError (unpack_from_HHLLH head));
  if (wFormatTag =? WAVE_FORMAT_PCM)%Z
  then
    bits ← Chunk_read 2;
    sampwidth ← lift (struct_error_to_EOFError (unpack_from_H bits));
    let sampwidth := ((sampwidth + 7) / 8)%Z in
    if (sampwidth =? 0)%Z then raise (wave_Error "bad sample width")
    else if (nchannels =? 0)%Z then raise (wave_Error "bad # of channels")
    else mret (nchannels, framerate, sampwidth, (nchannels * sampwidth)%Z)
  else raise (wave_Error "unknown format").

(** The [while 1] loop of [initfp] over the chunks inside the RIFF
    chunk. Every turn that does not leave the loop reads the eight
    bytes of a chunk header from the file, so the loop is driven by a
    counter that [initfp] sets past the length of the file; [None]
    stands for a counter that ran out. *)
Fixpoint initfp_loop (fuel : nat) (r : Wave_read) : option (outcome Wave_read) :=
  match fuel with
  | O => None
  | S fuel =>
      let r := mk_Wave_read (_file r) (_fmt_chunk_read r) (_data_chunk r) (_nchannels r)
                 (_framerate r) (_sampwidth r) (_framesize r) (_nframes r) true (_soundpos r) in
      match Chunk_init (_file r) with
      | (Raised e, riff) =>
          if is_EOFError e
          then Some (Returned (mk_Wave_read riff (_fmt_chunk_read r) (_data_chunk r)
                                 (_nchannels r) (_framerate r) (_sampwidth r)
                                 (_framesize r) (_nframes r) true (_soundpos r)))
          else Some (Raised e)
      | (Returned chunk, _) =>
          if decide (chunkname chunk = b "fmt ")
          then
            match _read_fmt_chunk chunk with
            | (Raised e, _) => Some (Raised e)
            | (Returned (nchannels, framerate, sampwidth, framesize), chunk) =>
                match Chunk_skip chunk with
                | (Raised e, _) => Some (Raised e)
                | (Returned _, chunk) =>
                    initfp_loop fuel
                      (mk_Wave_read (file chunk) true (_data_chunk r) nchannels framerate
                         sampwidth framesize (_nframes r) true (_soundpos r))
                end
            end
          else if decide (chunkname chunk = b "data")
          then
            if _fmt_chunk_read r
            then Some (Returned (mk_Wave_read (file chunk) true (Some chunk)
                                   (_nchannels r) (_framerate r) (_sampwidth r) (_framesize r)
                                   (chunksize chunk / _framesize r)%Z false (_soundpos r)))
            else Some (Raised (wave_Error "data chunk before fmt chunk"))
          else
            match Chunk_skip chunk with
            | (Raised e, _) => Some (Raised e)
            | (Returned _, chunk) =>
                initfp_loop fuel
                  (mk_Wave_read (file chunk) (_fmt_chunk_read r) (_data_chunk r)
                     (_nchannels r) (_framerate r) (_sampwidth r) (_framesize r)
                     (_nframes r) true (_soundpos r))
            end
      end
  end.

(** [Wave_read(f)] for a file object [f], through [initfp]. *)
Definition initfp (f : BytesIO) : option (outcome Wave_read) :=
  match Chunk_init f with
  | (Raised e, _) => Some (Raised e)
  | (Returned riff, _) =>
      if decide (chunkname riff = b "RIFF")
      then
        match Chunk_read 4 riff with
        | (Raised e, _) => Some (Raised e)
        | (Returned form, riff) =>
            if decide (form = b "WAVE")
            then
              match initfp_loop (S (length (getvalue f)))
                      (mk_Wave_read riff false None 0 0 0 0 0 true 0) with
              | Some (Returned r) =>
                  if _fmt_chunk_read r && bool_decide (is_Some (_data_chunk r))
                  then Some (Returned r)
                  else Some (Raised (wave_Error "fmt chunk and/or data chunk missing"))
              | other => other
              end
            else Some (Raised (wave_Error "not a WAVE file"))
        end
      else Some (Raised (wave_Error "file does not start with RIFF id"))
  end.

(** [getparams()] without the two constant compression fields:
    [(nchannels, sampwidth, framerate, nframes)]. *)
Definition getparams (r : Wave_read) : Z * Z * Z * Z :=
  (_nchannels r, _sampwidth r, _framerate r, _nframes r).

Definition getnframes (r : Wave_read) : Z := _nframes r.

(** [readframes(nframes)] *)
Definition readframes (nframes : Z) : M Wave_read bytes :=
  fun r =>
    match _data_chunk r with
    | None => (Raised (AttributeError "'NoneType' object has no attribute 'seek'"), r)
    | Some chunk =>
        let seeked :=
          if _data_seek_needed r
          then (Chunk_seek 0 0;;
                if negb (_soundpos r * _framesize r =? 0)%Z
                then Chunk_seek (_soundpos r * _framesize r) 0
                else mret tt) chunk
          else (Returned tt, chunk) in
        match seeked with
        | (Raised e, chunk) =>
            (Raised e, mk_Wave_read (file chunk) (_fmt_chunk_read r) (Some chunk)
                         (_nchannels r) (_framerate r) (_sampwidth r) (_framesize r)
                         (_nframes r) (_data_seek_needed r) (_soundpos r))
        | (Returned _, chunk) =>
            if (nframes =? 0)%Z
            then (Returned [],
                  mk_Wave_read (file chunk) (_fmt_chunk_read r) (Some chunk)
                    (_nchannels r) (_framerate r) (_sampwidth r) (_framesize r)
                    (_nframes r) false (_soundpos r))
            else
              match Chunk_read (nframes * _framesize r) chunk with
              | (Raised e, chunk) =>
                  (Raised e, mk_Wave_read (file chunk) (_fmt_chunk_read r) (Some chunk)
                               (_nchannels r) (_framerate r) (_sampwidth r) (_framesize r)
                               (_nframes r) false (_soundpos r))
              | (Returned data, chunk) =>
                  let swapped :=
                    if negb (_sampwidth r =? 1)%Z && is_big sys_byteorder
                    then _byteswap data (Z.to_nat (_sampwidth r))
                    else Returned data in
                  let r' soundpos :=
                    mk_Wave_read (file chunk) (_fmt_chunk_read r) (Some chunk)
                      (_nchannels r) (_framerate r) (_sampwidth r) (_framesize r)
                      (_nframes r) false soundpos in
                  match swapped with
                  | Raised e => (Raised e, r' (_soundpos r))
                  | Returned data =>
                      (Returned data,
                       r' (_soundpos r
                           + Z.of_nat (length data) / (_nchannels r * _sampwidth r))%Z)
                  end
              end
        end
    end.

End Read.

(** What a caller gets from reading a WAV file back:
    [with wave.open(BytesIO(container), 'rb') as r:
       return r.getparams(), r.readframes(r.getnframes())]. *)
Definition decode (container : bytes) : option (outcome ((Z * Z * Z * Z) * bytes)) :=
  match Read.initfp (mk_BytesIO container 0) with
  | None => None
  | Some (Raised e) => Some (Raised e)
  | Some (Returned r) =>
      match Read.readframes (Read.getnframes r) r with
      | (Raised e, _) => Some (Raised e)
      | (Returned data, _) => Some (Returned (Read.getparams r, data))
      end
  end.

End Wave.

(** ** The process and what surrounds it *)

Module World.

(** An uploaded file and the image that [PIL.Image.open] makes of it. *)
Record upload : Type := mk_upload { upload_name : string; upload_bytes : bytes }.
Record image : Type := mk_image { image_of : upload }.

(** Requests to the generation service:
    [client.models.generate_content(model=..., contents=..., config=...)]. *)
Inductive content_item : Type :=
| Images (images : list image)
| Text (text : string).

Record GenerateContentConfig : Type := mk_config {
  response_modalities : list string;
  voice_name : string
}.

Record request : Type := mk_request {
  api_key_used : string;
  model : string;
  contents : list content_item;
  config : option GenerateContentConfig
}.

(** Responses. An attribute that [hasattr] may find absent is
    [Missing]; one that is there may still hold [None]. *)
Inductive attribute (A : Type) : Type :=
| Missing
| Present (v : A).
Arguments Missing {A}.
Arguments Present {A} v.

Record Blob : Type := mk_Blob { data : option bytes }.
Record Part : Type := mk_Part { inline_data : attribute (option Blob) }.
Record Content : Type := mk_Content { parts : option (list Part) }.
Record Candidate : Type := mk_Candidate { content : option Content }.
Record GenerateContentResponse : Type := mk_response {
  candidates : option (list Candidate);
  text : option string
}.

Record Client : Type := mk_Client { client_api_key : string }.

Inductive console_line : Type :=
| print (line : string)
| print_exc (e : exn).

Inductive ui_event : Type :=
| st_sidebar_warning (body : string)
| st_warning (body : string)
| st_error (body : string)
| st_success (body : string)
| st_code (body : string)
| st_audio (audio_bytes : bytes) (format : string).

(** The state that the program reads and changes. *)
Record world : Type := mk_world {
  environ : gmap string string;
  files : gmap string bytes;
  console : list console_line;
  clients : list Client;
  requests : list request;
  session_state : gmap string string;
  ui : list ui_event
}.

Definition set_environ v (w : world) :=
  mk_world v (files w) (console w) (clients w) (requests w) (session_state w) (ui w).
Definition set_files v (w : world) :=
  mk_world (environ w) v (console w) (clients w) (requests w) (session_state w) (ui w).
Definition set_console v (w : world) :=
  mk_world (environ w) (files w) v (clients w) (requests w) (session_state w) (ui w).
Definition set_clients v (w : world) :=
  mk_world (environ w) (files w) (console w) v (requests w) (session_state w) (ui w).
Definition set_requests v (w : world) :=
  mk_world (environ w) (files w) (console w) (clients w) v (session_state w) (ui w).
Definition set_session_state v (w : world) :=
  mk_world (environ w) (files w) (console w) (clients w) (requests w) v (ui w).
Definition set_ui v (w : world) :=
  mk_world (environ w) (files w) (console w) (clients w) (requests w) (session_state w) v.

(** What the program cannot decide: the content of the [.env] file, the
    answers of the remote service, which image files decode, and which
    calls to the operating system or to the user interface fail. *)
Record environment : Type := mk_environment {
  dotenv : gmap string string;
  service : request -> outcome GenerateContentResponse;
  Image_open : upload -> outcome image;
  (** [tempfile.NamedTemporaryFile(delete=False, suffix='.wav')]: the name
      of the file it creates, without the suffix, or its failure *)
  NamedTemporaryFile : outcome string;
  write_exn : option exn;
  flush_exn : option exn;
  close_exn : option exn;
  (** how many bytes reached the file when writing or flushing failed *)
  flushed_before_exn : nat;
  getsize_exn : option exn;
  read_exn : option exn;
  st_audio_exn : option exn;
  unlink_exn : option exn
}.

Definition say (line : string) : M world unit :=
  modify (fun w => set_console (console w ++ [print line]) w).
Definition traceback_print_exc (e : exn) : M world unit :=
  modify (fun w => set_console (console w ++ [print_exc e]) w).
Definition show (ev : ui_event) : M world unit :=
  modify (fun w => set_ui (ui w ++ [ev]) w).

(** A call that fails when the environment says so. *)
Definition may_raise (fault : option exn) : M world unit :=
  match fault with
  | Some e => raise e
  | None => mret tt
  end.

End World.

(** ** Story_Generation.py *)

Module Story_Generation.
Import Io Wave World.

(** [load_dotenv()]: the assignments of the [.env] file go into
    [os.environ], where a variable that is already set keeps its
    value. *)
Definition load_dotenv (env : environment) : M world unit :=
  modify (fun w => set_environ (environ w ∪ dotenv env) w).

(** [os.getenv(name)] *)
Definition os_getenv (name : string) : M world (option string) :=
  gets (fun w => environ w !! name).

(** [genai.Client(api_key=api_key)] *)
Definition genai_Client (api_key : string) : M world Client :=
  modify (fun w => set_clients (clients w ++ [mk_Client api_key]) w);;
  mret (mk_Client api_key).

Definition model_name_1 : string := "gemini-2.5-pro".
Definition model_name_2 : string := "gemini-2.5-flash-preview-tts".

(** The statements of the module, which run when it is imported:
    the value of the import is the module's [client]. *)
Definition import_module (env : environment) : M world Client :=
  load_dotenv env;;
  api_key ← os_getenv "GOOGLE_API_KEY";
  match api_key with
  | Some key =>
      if truthy api_key then genai_Client key
      else raise (ValueError "!!!API KEY NOT FOUND!!!")
  | None => raise (ValueError "!!!API KEY NOT FOUND!!!")
  end.

(** [client.models.generate_content(...)]: the request leaves the
    process, and the service answers or the call raises. *)
Definition generate_content (env : environment) (client : Client)
    (model : string) (contents : list content_item)
    (config : option GenerateContentConfig) : M world GenerateContentResponse :=
  let req := mk_request (client_api_key client) model contents config in
  modify (fun w => set_requests (requests w ++ [req]) w);;
  lift (service env req).

Definition prompt_head : string := "
        You are a professional and skilled storyteller. Your job is to write a **".

Definition prompt_tail : string := " story** using the uploaded images as your inspiration.
        Use simple and easy to understand english
        **Instructions:**
        1. Look carefully at all the uploaded images. Imagine what could be happening in each one.  
        2. Write a story that connects all the images **in order**. Each image should feel like one scene in the story.  
        3. The story must have **at least 7 clear paragraphs**:
        - **Paragraph 1:** Begin the story — set the place, time, and main character(s).  
        - **Paragraphs 2-5:** Build the story using ideas from each image. Keep the flow natural and smooth.  
        - **Paragraph 6:** Add an important or surprising moment (the climax).  
        - **Paragraph 7:** End with a meaningful or emotional ending.  
        4. Match the **tone and feeling** to the selected story type:  
        - Horror → spooky and mysterious  
        - Comedy → light and funny  
        - Adventure → exciting and bold  
        - Emotional → touching and heartfelt  
        - Thriller → full of suspense  
        - Moral → gives a life lesson  
        - Fantasy → magical and creative  
        - Fairy Tale → simple and dreamlike  
        - Action → fast and powerful  
        - Mystery → curious and clever  
        5. Don't describe the images directly. Instead, **turn what you see into a smooth story** that feels natural and human.  
        6. Write in **simple, clear, and beautiful English** that anyone can enjoy reading.  
        7. The story should be **500-700 words** long and **feel complete**.

        Now write the full story using these images as inspiration.
        ".

Definition story_prompt (story_type : string) : string :=
  (prompt_head ++ story_type ++ prompt_tail)%string.

Definition generate_story_from_images (env : environment) (client : Client)
    (images : list image) (story_type : string) : M world (option string) :=
  response ← generate_content env client model_name_1
               [Images images; Text (story_prompt story_type)] None;
  mret (text response).

(** [xs[0]] on a list-or-[None] value. *)
Definition first_item {S A} (xs : option (list A)) : M S A :=
  match xs with
  | None => raise (TypeError "'NoneType' object is not subscriptable")
  | Some [] => raise (IndexError "list index out of range")
  | Some (x :: _) => mret x
  end.

(** The lines that wrap the samples in a WAV container:
    [audio_buffer = BytesIO()], the [with wave.open(audio_buffer, 'wb')]
    block and [audio_buffer.seek(0)]. [writeframes] takes the buffer
    view of what it is given, which [None] does not have. *)
Definition wrap_in_wav (audio_data : option bytes) : outcome BytesIO :=
  let audio_buffer := BytesIO_new in
  let '(r, s) :=
    Write.with_open audio_buffer
      (Write.setnchannels 1;;
       Write.setsampwidth 2;;
       Write.setframerate 24000;;
       match audio_data with
       | Some pcm => Write.writeframes pcm
       | None =>
           raise (TypeError "memoryview: a bytes-like object is required, not 'NoneType'")
       end) in
  match r with
  | Returned _ => Returned (seek 0 (Write.file_obj s))
  | Raised e => Raised e
  end.

(** The container that the wrapping makes of a buffer of samples. *)
Definition encode (pcm : bytes) : outcome bytes :=
  getvalue <$> wrap_in_wav (Some pcm).

(** The lines that save the container:
    [tempfile.NamedTemporaryFile(delete=False, suffix='.wav')], [write],
    [flush], [close]; the value is [temp_file.name]. The file exists from
    its creation on, and nothing here removes it. *)
Definition save_to_temp_file (env : environment) (container : bytes) : M world string :=
  stem ← lift (NamedTemporaryFile env);
  let name := (stem ++ ".wav")%string in
  modify (fun w => set_files (<[name := []]> (files w)) w);;
  let partial := take (flushed_before_exn env) container in
  match write_exn env with
  | Some e => modify (fun w => set_files (<[name := partial]> (files w)) w);; raise e
  | None =>
      match flush_exn env with
      | Some e => modify (fun w => set_files (<[name := partial]> (files w)) w);; raise e
      | None =>
          modify (fun w => set_files (<[name := container]> (files w)) w);;
          may_raise (close_exn env);;
          mret name
      end
  end.

Definition generate_audio_from_generated_story (env : environment) (client : Client)
    (story_text : string) : M world (option string) :=
  try_except_Exception
    (response ← generate_content env client model_name_2 [Text story_text]
                  (Some (mk_config ["AUDIO"] "Kore"));
     candidate ← first_item (candidates response);
     content ← match content candidate with
               | Some c => mret c
               | None => raise (AttributeError "'NoneType' object has no attribute 'parts'")
               end;
     audio_part ← first_item (parts content);
     match inline_data audio_part with
     | Present inline =>
         audio_data ← match inline with
                      | Some blob => mret (data blob)
                      | None => raise (AttributeError "'NoneType' object has no attribute 'data'")
                      end;
         audio_buffer ← lift (wrap_in_wav audio_data);
         name ← save_to_temp_file env (getvalue audio_buffer);
         mret (Some name)
     | Missing =>
         say "❌ No inline_data found in response";;
         mret None
     end)
    (fun e =>
       say ("❌ Error generating audio: " ++ exn_str e)%string;;
       traceback_print_exc e;;
       mret None).

End Story_Generation.

(** ** app.py *)

Module App.
Import World Story_Generation.

(** What the widgets of the sidebar return in one run of the script. *)
Record widgets : Type := mk_widgets {
  uploaded_images : list upload;
  story_type : string;
  generate_button : bool;
  generate_audio_button : bool
}.

(** The options of the [selectbox] that gives [story_type]. *)
Definition story_types : list string :=
  ["Comedy"; "Thriller"; "Moral"; "Horror"; "Emotional"; "Adventurous";
   "Action"; "Mysterious"; "Fantasy"; "Fairy Tale"].

Definition nl : string := String (ascii_of_nat 10) "".

(** [traceback.format_exc()] *)
Definition format_exc (e : exn) : string :=
  ("Traceback (most recent call last):" ++ nl ++ exn_str e)%string.

Definition is_empty {A} (l : list A) : bool :=
  match l with [] => true | _ => false end.

(** [s.endswith(suffix)] *)
Definition endswith (s suffix : string) : bool :=
  (String.length suffix <=? String.length s)%nat
  && String.eqb (substring (String.length s - String.length suffix)
                   (String.length suffix) s) suffix.

(** The statements that limit the number of uploaded images. *)
Definition limit_uploaded_images (uploaded_images : list upload) : M world (list upload) :=
  if negb (is_empty uploaded_images) && (10 <? length uploaded_images)%nat
  then show (st_sidebar_warning "⚠️ You can upload a maximum of 10 images only!");;
       mret (take 10 uploaded_images)
  else mret uploaded_images.

(** [[Image.open(uploaded_image) for uploaded_image in uploaded_images]] *)
Fixpoint open_all (env : environment) (uploaded_images : list upload) : M world (list image) :=
  match uploaded_images with
  | [] => mret []
  | uploaded_image :: rest =>
      pil_image ← lift (Image_open env uploaded_image);
      pil_images ← open_all env rest;
      mret (pil_image :: pil_images)
  end.

(** The block under [if generate_button:]. The spinner only draws. *)
Definition story_generation (env : environment) (client : Client)
    (uploaded_images : list upload) (story_type : string) (generate_button : bool)
    : M world unit :=
  if generate_button
  then
    if is_empty uploaded_images
    then show (st_warning "Please upload at least one image before generating the story.")
    else
      try_except_Exception
        (pil_images ← open_all env uploaded_images;
         generated_story ← generate_story_from_images env client pil_images story_type;
         match generated_story with
         | Some story =>
             if truthy generated_story
             then modify (fun w =>
                            set_session_state
                              (<["generated_story" := story]> (session_state w)) w)
             else show (st_error "⚠️ No story generated. Please try again.")
         | None => show (st_error "⚠️ No story generated. Please try again.")
         end)
        (fun e =>
           show (st_error ("❌ An error occurred during story generation:" ++ nl ++ nl
                             ++ "**" ++ exn_str e ++ "**")%string))
  else mret tt.

(** [os.path.exists], [os.path.getsize], reading a file whole and
    [os.unlink]. *)
Definition os_path_exists (path : string) : M world bool :=
  gets (fun w => bool_decide (is_Some (files w !! path))).

Definition os_path_getsize (env : environment) (path : string) : M world nat :=
  may_raise (getsize_exn env);;
  w ← get;
  match files w !! path with
  | Some content => mret (length content)
  | None => raise (OSError "No such file or directory")
  end.

Definition read_file (env : environment) (path : string) : M world bytes :=
  may_raise (read_exn env);;
  w ← get;
  match files w !! path with
  | Some content => mret content
  | None => raise (OSError "No such file or directory")
  end.

Definition os_unlink (env : environment) (path : string) : M world unit :=
  may_raise (unlink_exn env);;
  w ← get;
  match files w !! path with
  | Some _ => modify (fun w => set_files (delete path (files w)) w)
  | None => raise (OSError "No such file or directory")
  end.

(** [st.audio(audio_bytes, format=audio_format)] *)
Definition play (env : environment) (audio_bytes : bytes) (audio_format : string)
    : M world unit :=
  may_raise (st_audio_exn env);;
  show (st_audio audio_bytes audio_format).

(** The block under [if generate_audio_button:]. *)
Definition audio_generation (env : environment) (client : Client)
    (generate_audio_button : bool) : M world unit :=
  if generate_audio_button
  then
    w ← get;
    match session_state w !! "generated_story" with
    | None => show (st_warning "⚠️ Please generate a story first before creating audio.")
    | Some generated_story =>
        try_except_Exception
          (audio_path ← generate_audio_from_generated_story env client generated_story;
           found ← match audio_path with
                   | Some path => if truthy audio_path then os_path_exists path else mret false
                   | None => mret false
                   end;
           match audio_path with
           | Some path =>
               if found : bool
               then
                 file_size ← os_path_getsize env path;
                 audio_bytes ← read_file env path;
                 let audio_format :=
                   if endswith path ".mp3" then "audio/mp3"
                   else if endswith path ".wav" then "audio/wav"
                   else "audio/wav" in
                 play env audio_bytes audio_format;;
                 show (st_success "✅ Audio narration generated successfully!");;
                 try_except_all (os_unlink env path) (mret tt)
               else show (st_error "⚠️ Failed to generate audio. Check the console for details.")
           | None =>
               show (st_error "⚠️ Failed to generate audio. Check the console for details.")
           end)
          (fun e =>
             show (st_error ("❌ An unexpected error occurred while generating audio:"
                               ++ nl ++ nl ++ "**" ++ exn_str e ++ "**")%string);;
             show (st_code (format_exc e)))
    end
  else mret tt.

(** One run of the script: the import of [Story_Generation], the limit
    on the uploads and the two blocks behind the buttons. The
    statements that only draw the page are left out. *)
Definition script (env : environment) (input : widgets) : M world unit :=
  client ← import_module env;
  uploaded_images ← limit_uploaded_images (uploaded_images input);
  story_generation env client uploaded_images (story_type input) (generate_button input);;
  audio_generation env client (generate_audio_button input).

End App.

(** ** Vocabulary of the properties

    The words in which the properties below are stated, each defined from
    the model above. *)

Module Notions.
Import Io Struct Wave World Story_Generation App.

(** *** The container *)

(** The size of the header: the length of the container of no samples. *)
Definition header_size : nat :=
  match encode [] with
  | Returned container => length container
  | Raised _ => 0
  end.

(** The data length that a container declares: the size of the [data]
    chunk that [wave] finds when it opens the container. *)
Definition declared_data_length (container : bytes) : option Z :=
  match Read.initfp (mk_BytesIO container 0) with
  | Some (Returned r) => Read.chunksize <$> Read._data_chunk r
  | _ => None
  end.

(** The bytes that follow the header. *)
Definition payload (container : bytes) : bytes := drop header_size container.

(** The header that [wave] writes for mono samples of two bytes at
    24000 Hz and a given data length. *)
Definition wav_header (data_length : Z) : bytes :=
  b "RIFF" ++ le_split 4 (36 + data_length) ++ b "WAVE" ++ b "fmt "
    ++ le_split 4 16 ++ le_split 2 1 ++ le_split 2 1 ++ le_split 4 24000
    ++ le_split 4 48000 ++ le_split 2 2 ++ le_split 2 16 ++ b "data"
    ++ le_split 4 data_length.

(** The same layout with the two length fields left open. *)
Definition canonical (a1 a2 a3 a4 c1 c2 c3 c4 : Init.Byte.byte) (p : bytes) : bytes :=
  b "RIFF" ++ [a1; a2; a3; a4] ++ b "WAVE" ++ b "fmt "
    ++ le_split 4 16 ++ le_split 2 1 ++ le_split 2 1 ++ le_split 4 24000
    ++ le_split 4 48000 ++ le_split 2 2 ++ le_split 2 16 ++ b "data"
    ++ [c1; c2; c3; c4] ++ p.

(** The writer after the three setters, and after the samples [p] went
    out under a header that declares [datalength] bytes. *)
Definition configured : Write.writer_state :=
  Write.mk_writer_state BytesIO_new
    (Write.mk_Wave_write true 1 2 24000 0 0 0 0 false 0 0).

Definition written (p : bytes) (datalength : Z) : Write.writer_state :=
  Write.mk_writer_state
    (mk_BytesIO (wav_header datalength ++ p) (44 + length p))
    (Write.mk_Wave_write true 1 2 24000 (Z.of_nat (length p) / 2)
       (Z.of_nat (length p) / 2) (Z.of_nat (length p)) datalength true 4 40).

(** Encoding [p] gives a container, and decoding that container gives
    [p] back with the format (1 channel, 2 bytes a sample, 24000 Hz). *)
Definition round_trip (p : bytes) : Prop :=
  exists container nframes,
    encode p = Returned container
    /\ decode container = Some (Returned ((1, 2, 24000, nframes)%Z, p)).

(** Encoding [p] gives a container that declares the length of [p]. *)
Definition declares_its_length (p : bytes) : Prop :=
  exists container,
    encode p = Returned container
    /\ declared_data_length container = Some (Z.of_nat (length p)).

(** [p] cut at the last whole sample of two bytes. *)
Definition whole_frames (p : bytes) : bytes := take (length p / 2 * 2) p.

(** Encoding [p] raises, or the container holds [p] cut at the last
    whole sample. *)
Definition fails_or_truncates (p : bytes) : Prop :=
  (exists e, encode p = Raised e)
  \/ (exists container, encode p = Returned container
                        /\ payload container = whole_frames p).

(** The longest buffer of samples whose container has lengths that fit
    the 32-bit fields of the header. *)
Definition max_pcm_length : Z := 4294967295 - 36.

Definition struct_L_range : exn :=
  struct_error "'L' format requires 0 <= number <= 4294967295".

(** *** The prompt *)

(** [sub] occurs in [s]. *)
Definition contains (s sub : string) : Prop :=
  exists before after, s = (before ++ sub ++ after)%string.

Fixpoint starts_with (sub s : string) : bool :=
  match sub, s with
  | EmptyString, _ => true
  | String a sub', String c s' => Ascii.eqb a c && starts_with sub' s'
  | String _ _, EmptyString => false
  end.

Fixpoint occurs_in (sub s : string) : bool :=
  starts_with sub s
  || match s with
     | EmptyString => false
     | String _ s' => occurs_in sub s'
     end.

(** The genres that the prompt names, each with the words that the
    prompt gives for its tone. *)
Definition tones : list (string * string) :=
  [("Horror", "spooky and mysterious");
   ("Comedy", "light and funny");
   ("Adventure", "exciting and bold");
   ("Emotional", "touching and heartfelt");
   ("Thriller", "full of suspense");
   ("Moral", "gives a life lesson");
   ("Fantasy", "magical and creative");
   ("Fairy Tale", "simple and dreamlike");
   ("Action", "fast and powerful");
   ("Mystery", "curious and clever")].

(** The line of the prompt that sets the tone of a genre. *)
Definition tone_line (genre tone : string) : string :=
  ("- " ++ genre ++ " → " ++ tone)%string.

(** A call of [story_prompt] as a step of the program. *)
Definition call_story_prompt (story_type : string) : M world string :=
  mret (story_prompt story_type).

Definition InvalidGenre (msg : string) : exn :=
  mk_exn (Exception_subclass "InvalidGenre") msg.

(** *** The service *)

(** The inline audio of a response: the bytes in the first part of the
    first candidate, when every step on the way is there. *)
Definition audio_payload (response : GenerateContentResponse) : option bytes :=
  match candidates response with
  | Some (candidate :: _) =>
      match content candidate with
      | Some c =>
          match parts c with
          | Some (part :: _) =>
              match inline_data part with
              | Present (Some blob) => data blob
              | _ => None
              end
          | _ => None
          end
      | None => None
      end
  | _ => None
  end.

(** The request for speech that [generate_audio_from_generated_story]
    sends. *)
Definition speech_request (client : Client) (story_text : string) : request :=
  mk_request (client_api_key client) model_name_2 [Text story_text]
    (Some (mk_config ["AUDIO"] "Kore")).

(** The images that a request carries. *)
Definition images_of (req : request) : list image :=
  concat (omap (fun item => match item with
                            | Images images => Some images
                            | Text _ => None
                            end) (contents req)).

(** A step of the program sends only requests that satisfy [P], and a
    value that it returns satisfies [Q]. *)
Definition sends {A} (P : request -> Prop) (m : M world A) (Q : A -> Prop) : Prop :=
  forall w, exists new,
    requests (snd (m w)) = requests w ++ new
    /\ Forall P new
    /\ forall a, fst (m w) = Returned a -> Q a.

(** The images of a request, if any, are the first ten uploads, opened
    in their order. *)
Definition forwards_first_ten (env : environment) (uploads : list upload)
    (req : request) : Prop :=
  images_of req = []
  \/ Forall2 (fun u i => Image_open env u = Returned i) (take 10 uploads) (images_of req).

(** Every exception that the environment raises derives from
    [Exception]. *)
Definition raises_only_Exception (o : option exn) : Prop :=
  match o with
  | Some e => is_Exception e = true
  | None => True
  end.

Definition outcome_exn {A} (o : outcome A) : option exn :=
  match o with
  | Raised e => Some e
  | Returned _ => None
  end.

Definition only_Exceptions (env : environment) : Prop :=
  (forall req, raises_only_Exception (outcome_exn (service env req)))
  /\ raises_only_Exception (outcome_exn (NamedTemporaryFile env))
  /\ raises_only_Exception (write_exn env)
  /\ raises_only_Exception (flush_exn env)
  /\ raises_only_Exception (close_exn env).

(** *** Worlds and environments of the examples *)

Definition empty_world : world := mk_world ∅ ∅ [] [] [] ∅ [].

(** A world with an API key in the environment, and one that has a
    story in the session as well. *)
Definition keyed_world : world :=
  mk_world {["GOOGLE_API_KEY" := "key"]} ∅ [] [] [] ∅ [].

Definition world_with_story : world :=
  mk_world {["GOOGLE_API_KEY" := "key"]} ∅ [] [] []
    {["generated_story" := "Hello world"]} [].

Definition a_client : Client := mk_Client "key".

(** A response that carries the samples [pcm]. *)
Definition audio_response (pcm : bytes) : GenerateContentResponse :=
  mk_response
    (Some [mk_Candidate (Some (mk_Content (Some [mk_Part (Present (Some (mk_Blob (Some pcm))))])))])
    None.

(** A response that carries text only. *)
Definition text_only_response : GenerateContentResponse :=
  mk_response (Some [mk_Candidate (Some (mk_Content (Some [mk_Part Missing])))])
    (Some "Once upon a time...").

(** An environment where nothing fails and the service answers every
    request with [response]. *)
Definition calm (response : GenerateContentResponse) : environment :=
  mk_environment ∅ (fun _ => Returned response) (fun u => Returned (mk_image u))
    (Returned "/tmp/tmpa1b2c3") None None None 0 None None None None.

Definition with_service (env : environment)
    (answer : request -> outcome GenerateContentResponse) : environment :=
  mk_environment (dotenv env) answer (Image_open env) (NamedTemporaryFile env)
    (write_exn env) (flush_exn env) (close_exn env) (flushed_before_exn env)
    (getsize_exn env) (read_exn env) (st_audio_exn env) (unlink_exn env).

(** The disk fills up while the container is written. *)
Definition disk_full (env : environment) : environment :=
  mk_environment (dotenv env) (service env) (Image_open env) (NamedTemporaryFile env)
    (Some (OSError "[Errno 28] No space left on device")) (flush_exn env) (close_exn env)
    0 (getsize_exn env) (read_exn env) (st_audio_exn env) (unlink_exn env).

(** The page fails to take the audio. *)
Definition player_fails (env : environment) : environment :=
  mk_environment (dotenv env) (service env) (Image_open env) (NamedTemporaryFile env)
    (write_exn env) (flush_exn env) (close_exn env) (flushed_before_exn env)
    (getsize_exn env) (read_exn env)
    (Some (mk_exn (Exception_subclass "RuntimeError") "media storage is not available"))
    (unlink_exn env).

Definition connection_error : exn :=
  mk_exn (Exception_subclass "httpx.ConnectError") "[Errno 111] Connection refused".

Definition interrupt : exn := mk_exn KeyboardInterrupt "".

Definition silence (n : Z) : bytes := replicate (Z.to_nat n) Byte.x00.

(** One sample, the path of the temporary file in the examples, and a
    run of the script in which only the audio button is pressed. *)
Definition one_sample : bytes := [Byte.x34; Byte.x12].

Definition temp_path : string := "/tmp/tmpa1b2c3.wav".

Definition audio_run (env : environment) : outcome unit * world :=
  script env (mk_widgets [] "Comedy" false true) world_with_story.

Definition eleven_uploads : list upload :=
  (fun k => mk_upload (String (ascii_of_nat (97 + k)) ".png") []) <$> seq 0 11.

End Notions.

(** ** app.py: what the page draws *)

Module Page.
Import World App.

(** The grid of the uploaded images: [cols = st.columns(5)] and, for each
    [idx, img] of [enumerate(uploaded_images)], [st.image(img)] inside
    [cols[idx % 5]]. A column is the list of the images drawn in it, from
    top to bottom; indexing the list of columns past its end raises
    [IndexError]. *)
Definition draw_in_column (cols : list (list upload)) (idx : nat) (img : upload)
    : outcome (list (list upload)) :=
  match cols !! (idx mod 5) with
  | Some col => Returned (<[idx mod 5 := col ++ [img]]> cols)
  | None => Raised (IndexError "list index out of range")
  end.

Fixpoint draw_from (idx : nat) (cols : list (list upload)) (uploaded_images : list upload)
    : outcome (list (list upload)) :=
  match uploaded_images with
  | [] => Returned cols
  | img :: rest =>
      cols ← draw_in_column cols idx img;
      draw_from (S idx) cols rest
  end.

(** The block under [if uploaded_images:]; nothing is drawn for no
    upload. *)
Definition show_uploaded_images (uploaded_images : list upload)
    : outcome (option (list (list upload))) :=
  if is_empty uploaded_images then Returned None
  else Some <$> draw_from 0 (replicate 5 []) uploaded_images.

(** [s.replace('\n', '<br>')] *)
Fixpoint replace_newlines (s : string) : string :=
  match s with
  | EmptyString => EmptyString
  | String c rest =>
      if Ascii.eqb c (ascii_of_nat 10)
      then ("<br>" ++ replace_newlines rest)%string
      else String c (replace_newlines rest)
  end.

Definition dq : string := String (ascii_of_nat 34) "".

Definition card_head : string :=
  ("
        <div style=" ++ dq ++ "
            background-color:#1e1e2f;
            color:#f5f5f5;
            padding:2rem;
            border-radius:15px;
            box-shadow:0 4px 20px rgba(0, 0, 0, 0.3);
            line-height:1.7;
            font-size:1.05rem;
            font-family:'Segoe UI', 'Helvetica Neue', sans-serif;
            border-left:6px solid #8b5cf6;" ++ dq ++ ">
            <h3 style=" ++ dq ++ "color:#8b5cf6; margin-top:0;" ++ dq ++ ">📜 ")%string.

Definition card_mid : string := " Story</h3>
            <p>".

Definition card_tail : string := "</p>
        </div>
        ".

(** The HTML that [st.markdown(..., unsafe_allow_html=True)] gets for a
    story: the f-string with [story_type] and the story. (The expression
    with a backslash inside the f-string needs Python 3.12.) *)
Definition story_card (story_type generated_story : string) : string :=
  (card_head ++ story_type ++ card_mid ++ replace_newlines generated_story
     ++ card_tail)%string.

(** The block under [if "generated_story" in st.session_state:]: the
    card that is drawn, if any. *)
Definition show_story (story_type : string) (w : world) : option string :=
  story_card story_type <$> session_state w !! "generated_story".

End Page.

(** ** More vocabulary *)

Module MoreNotions.
Import Io Struct Wave World Story_Generation App Notions Page.

(** The request for a story that [generate_story_from_images] sends. *)
Definition story_request (client : Client) (images : list image) (story_type : string)
    : request :=
  mk_request (client_api_key client) model_name_1
    [Images images; Text (story_prompt story_type)] None.

(** Every upload opens, and [images] are the images, in the order of
    the uploads. *)
Definition opens (env : environment) (uploads : list upload) (images : list image)
    : Prop :=
  Forall2 (fun u i => Image_open env u = Returned i) uploads images.

(** The world once a request is sent. *)
Definition sent (req : request) (w : world) : world :=
  set_requests (requests w ++ [req]) w.

(** No upload opens. *)
Definition no_image_opens (env : environment) : environment :=
  mk_environment (dotenv env) (service env)
    (fun u => Raised (mk_exn (Exception_subclass "UnidentifiedImageError")
                       "cannot identify image file"))
    (NamedTemporaryFile env) (write_exn env) (flush_exn env) (close_exn env)
    (flushed_before_exn env) (getsize_exn env) (read_exn env) (st_audio_exn env)
    (unlink_exn env).

(** A step of the program keeps what [I] says of the world. *)
Definition keeps {A} (I : world -> Prop) (m : M world A) : Prop :=
  forall w, I w -> I (snd (m w)).

(** The name of the temporary file made from what [NamedTemporaryFile]
    chose. *)
Definition temp_name (stem : string) : string := (stem ++ ".wav")%string.

(** Nothing fails while the container is saved under [temp_name stem],
    and nothing fails while the page reads and plays it. *)
Definition saves_cleanly (env : environment) (stem : string) : Prop :=
  NamedTemporaryFile env = Returned stem
  /\ write_exn env = None /\ flush_exn env = None /\ close_exn env = None.

Definition plays_cleanly (env : environment) : Prop :=
  getsize_exn env = None /\ read_exn env = None /\ st_audio_exn env = None.

(** Whatever fails in the environment fails with an exception that
    derives from [Exception]. *)
Definition page_raises_only_Exception (env : environment) : Prop :=
  only_Exceptions env
  /\ (forall u, raises_only_Exception (outcome_exn (Image_open env u)))
  /\ raises_only_Exception (getsize_exn env)
  /\ raises_only_Exception (read_exn env)
  /\ raises_only_Exception (st_audio_exn env).

(** The API key that the import finds once the [.env] file is loaded. *)
Definition configured_key (env : environment) (w : world) : option string :=
  (environ w ∪ dotenv env) !! "GOOGLE_API_KEY".

(** The client that the import makes of the value of the variable, or
    its failure. *)
Definition client_for (value : option string) : outcome Client :=
  match value with
  | Some key =>
      if String.eqb key "" then Raised (ValueError "!!!API KEY NOT FOUND!!!")
      else Returned (mk_Client key)
  | None => Raised (ValueError "!!!API KEY NOT FOUND!!!")
  end.

(** The session holds no empty story. *)
Definition stored_story_is_nonempty (w : world) : Prop :=
  session_state w !! "generated_story" <> Some ""%string.

(** An audio player, if the event is one, is given the format
    ["audio/wav"]. *)
Definition plays_as_wav (ev : ui_event) : Prop :=
  match ev with
  | st_audio _ format => format = "audio/wav"%string
  | _ => True
  end.

(** The text has no newline. *)
Fixpoint newline_free (s : string) : bool :=
  match s with
  | EmptyString => true
  | String c rest => negb (Ascii.eqb c (ascii_of_nat 10)) && newline_free rest
  end.

(** The start of the line of the prompt that sets the tone of a genre. *)
Definition tone_line_start (genre : string) : string :=
  ("- " ++ genre ++ " → ")%string.

(** The items of a list whose index, counted from [idx], is [k] modulo
    5, in their order. *)
Fixpoint every_fifth (idx k : nat) (uploads : list upload) : list upload :=
  match uploads with
  | [] => []
  | u :: rest =>
      if decide (idx mod 5 = k) then u :: every_fifth (S idx) k rest
      else every_fifth (S idx) k rest
  end.

(** A run of the script with the story button, and one with the audio
    button. *)
Definition story_run (env : environment) (uploads : list upload) (story_type : string)
    : M world unit :=
  script env (mk_widgets uploads story_type true false).

Definition audio_rerun (env : environment) (uploads : list upload) (story_type : string)
    : M world unit :=
  script env (mk_widgets uploads story_type false true).

(** [os.unlink] is refused. *)
Definition unlink_refused (env : environment) : environment :=
  mk_environment (dotenv env) (service env) (Image_open env) (NamedTemporaryFile env)
    (write_exn env) (flush_exn env) (close_exn env) (flushed_before_exn env)
    (getsize_exn env) (read_exn env) (st_audio_exn env)
    (Some (OSError "[Errno 13] Permission denied")).

Definition three_uploads : list upload :=
  [mk_upload "a.png" []; mk_upload "b.png" []; mk_upload "c.png" []].

End MoreNotions.

(** * Properties *)

Import Io Struct Wave Wave.Write World Story_Generation App Notions.

(** ** The writer *)

Lemma pack_L_ok x : (0 <= x <= 4294967295)%Z -> pack_L x = Returned (le_split 4 x).
Proof. intros H. unfold pack_L. by rewrite decide_True. Qed.

Lemma pack_header_ok d :
  (0 <= d <= 4294967259)%Z ->
  pack_header d 1 24000 2 = Returned (drop 4 (take 40 (wav_header d))).
Proof.
  intros H. unfold pack_header. rewrite (pack_L_ok (36 + d)) by lia.
  reflexivity.
Qed.

Local Arguments Z.eqb : simpl nomatch.
Local Arguments Z.ltb : simpl nomatch.
Local Arguments Z.leb : simpl nomatch.
Ltac run_M :=
  unfold mbind, M_bind, mret, M_ret, attr, assign, file_write, file_tell, file_seek,
    gets, modify, lift, raise;
  cbn -[Z.div Z.mul Z.add Z.of_nat pack_header pack_L le_split wav_header].

Lemma write_header_ok n :
  (0 <= n)%Z -> (36 + n / 2 * 2 <= 4294967295)%Z ->
  _write_header n (mk_writer_state BytesIO_new (mk_Wave_write true 1 2 24000 0 0 0 0 false 0 0))
  = (Returned tt,
     mk_writer_state (mk_BytesIO (wav_header (n / 2 * 2)) 44)
       (mk_Wave_write true 1 2 24000 (n / 2) 0 0 (n / 2 * 2) true 4 40)).
Proof.
  intros Hn Hb.
  assert (0 <= n / 2)%Z by (apply Z.div_pos; lia).
  unfold _write_header. run_M.
  replace (n / (1 * 2) * 1 * 2)%Z with (n / 2 * 2)%Z by (change (1 * 2)%Z with 2%Z; lia).
  change (1 * 2)%Z with 2%Z.
  rewrite pack_header_ok by lia. rewrite pack_L_ok by lia.
  reflexivity.
Qed.

Lemma write_at_end data f :
  tell f = length (getvalue f) ->
  write data f = mk_BytesIO (getvalue f ++ data) (tell f + length data).
Proof.
  intros Hpos. destruct f as [buf pos]; simpl in *; subst pos.
  destruct data as [|x data]; simpl.
  - by rewrite app_nil_r, Nat.add_0_r.
  - rewrite Nat.sub_diag; simpl. rewrite app_nil_r, take_ge by lia.
    rewrite drop_ge by lia. by rewrite app_nil_r.
Qed.


Lemma length_wav_header d : length (wav_header d) = 44%nat.
Proof. reflexivity. Qed.

Lemma write_inside data buf pos :
  (pos + length data <= length buf)%nat ->
  write data (mk_BytesIO buf pos)
  = mk_BytesIO (take pos buf ++ data ++ drop (pos + length data) buf) (pos + length data).
Proof.
  intros Hle. destruct data as [|x data].
  - simpl. rewrite Nat.add_0_r, take_drop. reflexivity.
  - unfold write. cbn [getvalue tell].
    replace (pos - length buf)%nat with 0%nat by lia.
    cbn [replicate]. rewrite app_nil_r. reflexivity.
Qed.



Lemma writeframesraw_ok p :
  (36 + Z.of_nat (length p) <= 4294967295)%Z ->
  writeframesraw p configured
  = (Returned tt, written p (Z.of_nat (length p) / 2 * 2)).
Proof.
  intros Hb. set (n := Z.of_nat (length p)) in *.
  assert (0 <= n / 2 * 2 <= n)%Z
    by (pose proof (Z.mul_div_le n 2); pose proof (Z.div_pos n 2); lia).
  unfold writeframesraw, _ensure_header_written, configured. run_M. fold n.
  rewrite write_header_ok by lia. run_M.
  rewrite write_at_end by reflexivity.
  unfold set_nframeswritten, set_datawritten, written. run_M. fold n.
  change (2 * 1)%Z with 2%Z. rewrite !Z.add_0_l. reflexivity.
Qed.

Lemma patchheader_ok p d :
  (0 <= d)%Z ->
  (36 + Z.of_nat (length p) <= 4294967295)%Z ->
  _patchheader (written p d) = (Returned tt, written p (Z.of_nat (length p))).
Proof.
  intros Hd Hb. set (n := Z.of_nat (length p)) in *.
  unfold _patchheader, written. run_M. fold n.
  destruct (Z.eqb_spec n d) as [->|Hne]; [reflexivity|].
  run_M. rewrite !pack_L_ok by lia. run_M.
  unfold seek. cbn [getvalue tell].
  rewrite (write_inside (le_split 4 (36 + n)))
    by (rewrite length_app, length_wav_header, length_le_split; lia).
  cbn [getvalue tell].
  rewrite write_inside.
  2:{ rewrite !length_app, !length_le_split, length_take, length_drop, length_app, length_wav_header. lia. }
  reflexivity.
Qed.

Lemma writeframes_ok p :
  (36 + Z.of_nat (length p) <= 4294967295)%Z ->
  writeframes p configured = (Returned tt, written p (Z.of_nat (length p))).
Proof.
  intros Hb. set (n := Z.of_nat (length p)) in *.
  assert (0 <= n / 2 * 2)%Z by (pose proof (Z.div_pos n 2); lia).
  unfold writeframes.
  unfold mbind at 1. unfold M_bind. rewrite writeframesraw_ok by assumption.
  fold n. run_M. fold n.
  destruct (Z.eqb_spec (n / 2 * 2) n) as [->|Hne]; [reflexivity|].
  cbn [negb]. by apply patchheader_ok.
Qed.

Lemma close_ok p :
  close (written p (Z.of_nat (length p)))
  = (Returned tt,
     mk_writer_state (file_obj (written p (Z.of_nat (length p))))
       (set_file false (self (written p (Z.of_nat (length p)))))).
Proof.
  unfold close, _ensure_header_written, written. run_M.
  rewrite Z.eqb_refl. reflexivity.
Qed.

Lemma wrap_in_wav_ok p :
  (36 + Z.of_nat (length p) <= 4294967295)%Z ->
  wrap_in_wav (Some p) = Returned (mk_BytesIO (wav_header (Z.of_nat (length p)) ++ p) 0).
Proof.
  intros Hb. unfold wrap_in_wav, with_open.
  change (initfp BytesIO_new) with (mk_writer_state BytesIO_new (mk_Wave_write true 0 0 0 0 0 0 0 false 0 0)).
  unfold mbind at 1 2 3. unfold M_bind.
  change (setnchannels 1 _) with (Returned tt, mk_writer_state BytesIO_new (mk_Wave_write true 1 0 0 0 0 0 0 false 0 0)).
  cbv iota beta.
  change (setsampwidth 2 _) with (Returned tt, mk_writer_state BytesIO_new (mk_Wave_write true 1 2 0 0 0 0 0 false 0 0)).
  cbv iota beta.
  change (setframerate 24000 _) with (Returned tt, configured).
  cbv iota beta.
  rewrite writeframes_ok by assumption.
  rewrite close_ok. reflexivity.
Qed.

(** ** The reader *)

Import Wave.Read.

Lemma BytesIO_read_ok size buf pos :
  (0 <= size)%Z ->
  f_read size (mk_BytesIO buf pos)
  = (Returned (take (Z.to_nat size) (drop pos buf)),
     mk_BytesIO buf (pos + length (take (Z.to_nat size) (drop pos buf)))).
Proof.
  intros Hs. cbn [f_read BytesIO_FileLike].
  destruct (Z.ltb_spec size 0) as [?|_]; [lia|]. reflexivity.
Qed.

Lemma no_padding_read a c : a <> c \/ Z.odd c = false -> ((a =? c)%Z && Z.odd c) = false.
Proof.
  intros [Hne| ->]; [|apply andb_false_r].
  destruct (Z.eqb_spec a c); [contradiction|reflexivity].
Qed.

Lemma Chunk_read_ok {F} `{FileLike F} size (c : _Chunk F) data f' :
  (0 <= size)%Z ->
  (size_read c < chunksize c)%Z ->
  (size <= chunksize c - size_read c)%Z ->
  f_read size (file c) = (Returned data, f') ->
  (size_read c + Z.of_nat (length data))%Z <> chunksize c \/ Z.odd (chunksize c) = false ->
  Chunk_read size c
  = (Returned data,
     mk_Chunk f' (chunkname c) (chunksize c)
       (size_read c + Z.of_nat (length data)) (offset c)).
Proof.
  intros Hs Hlt Hle Hread Hpad. unfold Chunk_read.
  unfold mbind, M_bind, get, on_file, set_size_read, modify, mret, M_ret.
  destruct (Z.leb_spec (chunksize c) (size_read c)) as [?|_]; [lia|].
  destruct (Z.ltb_spec size 0) as [?|_]; [lia|].
  destruct (Z.ltb_spec (chunksize c - size_read c) size) as [?|_]; [lia|].
  rewrite Hread. cbn [file chunkname chunksize size_read offset].
  rewrite no_padding_read by assumption. reflexivity.
Qed.


Ltac run_R :=
  unfold mbind, M_bind, mret, M_ret, gets, modify, lift, raise, get, on_file, set_size_read;
  cbn -[Z.div Z.mul Z.add Z.sub Z.of_nat Z.to_nat le_combine Chunk_read decide].

Lemma Chunk_init_BytesIO buf pos n1 n2 n3 n4 s1 s2 s3 s4 rest :
  drop pos buf = n1 :: n2 :: n3 :: n4 :: s1 :: s2 :: s3 :: s4 :: rest ->
  Chunk_init (mk_BytesIO buf pos)
  = (Returned (mk_Chunk (mk_BytesIO buf (pos + 8)) [n1; n2; n3; n4]
                 (le_combine [s1; s2; s3; s4]) 0 (Z.of_nat (pos + 8))),
     mk_BytesIO buf (pos + 8)).
Proof.
  intros Hbuf. unfold Chunk_init.
  unfold mbind at 1. unfold M_bind. rewrite BytesIO_read_ok by lia. rewrite Hbuf.
  change (Z.to_nat 4) with 4%nat. cbn [firstn length].
  rewrite decide_False by lia.
  unfold mbind at 1. unfold M_bind. rewrite BytesIO_read_ok by lia.
  replace (drop (pos + 4) buf) with (s1 :: s2 :: s3 :: s4 :: rest)
    by (rewrite <- drop_drop, Hbuf; reflexivity).
  change (Z.to_nat 4) with 4%nat. cbn [firstn length].
  unfold Struct.unpack_from_L. rewrite decide_True by (cbn; lia).
  run_R. rewrite !take_0. cbn [length]. replace (pos + 4 + 4)%nat with (pos + 8)%nat by lia.
  reflexivity.
Qed.

Lemma riff_read_ok k buf pos name csize sread off :
  (sread + Z.of_nat k <= csize)%Z -> (0 < k)%nat -> (0 <= sread)%Z ->
  (pos + k <= length buf)%nat ->
  (sread + Z.of_nat k)%Z <> csize \/ Z.odd csize = false ->
  Chunk_read (Z.of_nat k) (mk_Chunk (mk_BytesIO buf pos) name csize sread off)
  = (Returned (take k (drop pos buf)),
     mk_Chunk (mk_BytesIO buf (pos + k)) name csize (sread + Z.of_nat k) off).
Proof.
  intros Hle Hk Hs Hlen Hpad.
  assert (Hdata : length (take k (drop pos buf)) = k)
    by (rewrite length_take, length_drop; lia).
  erewrite Chunk_read_ok; cbn [file chunkname chunksize size_read offset].
  - rewrite Hdata. reflexivity.
  - lia.
  - lia.
  - lia.
  - rewrite BytesIO_read_ok by lia. rewrite Nat2Z.id, Hdata. reflexivity.
  - rewrite Hdata. assumption.
Qed.

Lemma nested_read_ok k buf pos name csize sread off iname isize isread ioff :
  (isread + Z.of_nat k <= isize)%Z -> (sread + Z.of_nat k <= csize)%Z ->
  (0 < k)%nat -> (0 <= sread)%Z -> (0 <= isread)%Z ->
  (pos + k <= length buf)%nat ->
  (isread + Z.of_nat k)%Z <> isize \/ Z.odd isize = false ->
  (sread + Z.of_nat k)%Z <> csize \/ Z.odd csize = false ->
  Chunk_read (Z.of_nat k)
    (mk_Chunk (mk_Chunk (mk_BytesIO buf pos) name csize sread off) iname isize isread ioff)
  = (Returned (take k (drop pos buf)),
     mk_Chunk (mk_Chunk (mk_BytesIO buf (pos + k)) name csize (sread + Z.of_nat k) off)
       iname isize (isread + Z.of_nat k) ioff).
Proof.
  intros Hile Hle Hk Hs His Hlen Hipad Hpad.
  assert (Hdata : length (take k (drop pos buf)) = k)
    by (rewrite length_take, length_drop; lia).
  erewrite Chunk_read_ok; cbn [file chunkname chunksize size_read offset].
  - rewrite Hdata. reflexivity.
  - lia.
  - lia.
  - lia.
  - cbn [f_read Chunk_FileLike]. apply riff_read_ok; assumption.
  - rewrite Hdata. assumption.
Qed.

Lemma Chunk_init_riff buf pos name csize sread off n1 n2 n3 n4 s1 s2 s3 s4 rest :
  drop pos buf = n1 :: n2 :: n3 :: n4 :: s1 :: s2 :: s3 :: s4 :: rest ->
  (0 <= sread)%Z -> (sread + 8 <= csize)%Z ->
  (sread + 8 < csize)%Z \/ Z.odd csize = false ->
  Chunk_init (mk_Chunk (mk_BytesIO buf pos) name csize sread off)
  = (Returned (mk_Chunk (mk_Chunk (mk_BytesIO buf (pos + 8)) name csize (sread + 8) off)
                 [n1; n2; n3; n4] (le_combine [s1; s2; s3; s4]) 0 (sread + 8)),
     mk_Chunk (mk_BytesIO buf (pos + 8)) name csize (sread + 8) off).
Proof.
  intros Hbuf Hs Hle Hpad.
  assert (Hlen : (pos + 8 <= length buf)%nat).
  { apply (f_equal length) in Hbuf. rewrite length_drop in Hbuf. cbn [length] in Hbuf. lia. }
  unfold Chunk_init.
  unfold mbind at 1. unfold M_bind. cbn [f_read Chunk_FileLike].
  rewrite (riff_read_ok 4) by first [lia | destruct Hpad; [left; lia | by right]].
  rewrite Hbuf. rewrite decide_False by (cbn; lia).
  unfold mbind at 1. unfold M_bind. cbn [f_read Chunk_FileLike].
  rewrite (riff_read_ok 4) by first [lia | destruct Hpad; [left; lia | by right]].
  replace (drop (pos + 4) buf) with (s1 :: s2 :: s3 :: s4 :: rest)
    by (rewrite <- drop_drop, Hbuf; reflexivity).
  unfold Struct.unpack_from_L. rewrite decide_True by (cbn; lia).
  run_R. rewrite !take_0.
  replace (pos + 4 + 4)%nat with (pos + 8)%nat by lia.
  replace (sread + Z.of_nat 4 + Z.of_nat 4)%Z with (sread + 8)%Z by lia.
  reflexivity.
Qed.

Lemma Chunk_skip_at_end buf pos name csize sread off iname isize ioff :
  Z.odd isize = false -> (0 <= sread <= csize)%Z -> (off + sread)%Z = Z.of_nat pos ->
  Chunk_skip
    (mk_Chunk (mk_Chunk (mk_BytesIO buf pos) name csize sread off) iname isize isize ioff)
  = (Returned tt,
     mk_Chunk (mk_Chunk (mk_BytesIO buf pos) name csize sread off) iname isize isize ioff).
Proof.
  intros Hodd Hs Hpos. unfold Chunk_skip. run_R. rewrite Hodd.
  rewrite Z.sub_diag. unfold Chunk_seek. run_R.
  change (1 =? 1)%Z with true. cbn match. rewrite Z.add_0_l.
  destruct (Z.ltb_spec sread 0) as [?|_]; [lia|].
  destruct (Z.ltb_spec csize sread) as [?|_]; [lia|].
  run_R. rewrite Hpos.
  destruct (Z.ltb_spec (Z.of_nat pos) 0) as [?|_]; [lia|].
  cbn match. rewrite Z.add_0_l, Z.max_r by lia. rewrite Nat2Z.id, Z.add_0_r.
  reflexivity.
Qed.

Lemma initfp_loop_S fuel r :
  initfp_loop (S fuel) r
  = let r := mk_Wave_read (_file r) (_fmt_chunk_read r) (_data_chunk r) (_nchannels r)
               (_framerate r) (_sampwidth r) (_framesize r) (_nframes r) true (_soundpos r) in
    match Chunk_init (_file r) with
    | (Raised e, riff) =>
        if is_EOFError e
        then Some (Returned (mk_Wave_read riff (_fmt_chunk_read r) (_data_chunk r)
                               (_nchannels r) (_framerate r) (_sampwidth r)
                               (_framesize r) (_nframes r) true (_soundpos r)))
        else Some (Raised e)
    | (Returned chunk, _) =>
        if decide (chunkname chunk = b "fmt ")
        then
          match _read_fmt_chunk chunk with
          | (Raised e, _) => Some (Raised e)
          | (Returned (nchannels, framerate, sampwidth, framesize), chunk) =>
              match Chunk_skip chunk with
              | (Raised e, _) => Some (Raised e)
              | (Returned _, chunk) =>
                  initfp_loop fuel
                    (mk_Wave_read (file chunk) true (_data_chunk r) nchannels framerate
                       sampwidth framesize (_nframes r) true (_soundpos r))
              end
          end
        else if decide (chunkname chunk = b "data")
        then
          if _fmt_chunk_read r
          then Some (Returned (mk_Wave_read (file chunk) true (Some chunk)
                                 (_nchannels r) (_framerate r) (_sampwidth r) (_framesize r)
                                 (chunksize chunk / _framesize r)%Z false (_soundpos r)))
          else Some (Raised (wave_Error "data chunk before fmt chunk"))
        else
          match Chunk_skip chunk with
          | (Raised e, _) => Some (Raised e)
          | (Returned _, chunk) =>
              initfp_loop fuel
                (mk_Wave_read (file chunk) (_fmt_chunk_read r) (_data_chunk r)
                   (_nchannels r) (_framerate r) (_sampwidth r) (_framesize r)
                   (_nframes r) true (_soundpos r))
          end
    end.
Proof. reflexivity. Qed.

Lemma odd_twice m : Z.odd (m * 2) = false.
Proof. rewrite Z.odd_mul. apply andb_false_r. Qed.

Section Canonical.
Variables a1 a2 a3 a4 c1 c2 c3 c4 : Init.Byte.byte.
Variable p : bytes.
Variable N : Z.
Hypothesis Hform : le_combine [a1; a2; a3; a4] = (36 + N)%Z.
Hypothesis Hdata : le_combine [c1; c2; c3; c4] = N.
Hypothesis HN : N = Z.of_nat (length p).

Let buf := canonical a1 a2 a3 a4 c1 c2 c3 c4 p.
Let riff pos sread := mk_Chunk (mk_BytesIO buf pos) (b "RIFF") (36 + N)%Z sread 8.

Lemma canonical_length : length buf = (44 + length p)%nat.
Proof. reflexivity. Qed.

Lemma riff_chunk : Chunk_init (mk_BytesIO buf 0) = (Returned (riff 8 0), mk_BytesIO buf 8).
Proof.
  erewrite Chunk_init_BytesIO by reflexivity.
  unfold riff. rewrite Hform. reflexivity.
Qed.

Lemma riff_form : Chunk_read 4 (riff 8 0) = (Returned (b "WAVE"), riff 12 4).
Proof.
  unfold riff.
  rewrite (riff_read_ok 4);
    [reflexivity | first [lia | rewrite canonical_length; lia | left; lia] ..].
Qed.

Lemma fmt_chunk :
  _read_fmt_chunk (mk_Chunk (riff 20 12) (b "fmt ") 16 0 12)
  = (Returned (1, 24000, 2, 2)%Z, mk_Chunk (riff 36 28) (b "fmt ") 16 16 12).
Proof.
  unfold _read_fmt_chunk, riff.
  unfold mbind at 1. unfold M_bind.
  rewrite (nested_read_ok 14);
    [| first [lia | rewrite canonical_length; lia | left; lia] ..].
  change (take 14 (drop 20 buf))
    with (le_split 2 1 ++ le_split 2 1 ++ le_split 4 24000 ++ le_split 4 48000
            ++ le_split 2 2).
  unfold mbind at 1. unfold M_bind.
  change (lift _ _) with
    (@Returned (Z * Z * Z * Z * Z) (1, 1, 24000, 48000, 2)%Z,
     mk_Chunk (mk_Chunk (mk_BytesIO buf (20 + 14)) (b "RIFF") (36 + N)%Z
                 (12 + Z.of_nat 14)%Z 8) (b "fmt ") 16 (0 + Z.of_nat 14)%Z 12).
  cbv iota beta. change (1 =? WAVE_FORMAT_PCM)%Z with true. cbv iota.
  unfold mbind at 1. unfold M_bind.
  rewrite (nested_read_ok 2);
    [| first [lia | rewrite canonical_length; lia | left; lia | right; reflexivity] ..].
  change (take 2 (drop (20 + 14) buf)) with (le_split 2 16).
  unfold mbind at 1. unfold M_bind.
  reflexivity.
Qed.

Lemma fmt_turn fuel :
  initfp_loop (S fuel) (mk_Wave_read (riff 12 4) false None 0 0 0 0 0 true 0)
  = initfp_loop fuel (mk_Wave_read (riff 36 28) true None 1 24000 2 2 0 true 0).
Proof.
  rewrite initfp_loop_S. cbn zeta.
  cbn [_file _fmt_chunk_read _data_chunk _nchannels _framerate _sampwidth _framesize
         _nframes _soundpos].
  unfold riff at 1.
  erewrite Chunk_init_riff; [|reflexivity|lia|lia|left; lia].
  cbn [chunkname].
  rewrite decide_True by reflexivity.
  change (mk_Chunk _ _ _ 0%Z (4 + 8)%Z) with (mk_Chunk (riff 20 12) (b "fmt ") 16%Z 0%Z 12%Z).
  rewrite fmt_chunk.
  unfold riff at 1. rewrite Chunk_skip_at_end by first [reflexivity | lia].
  reflexivity.
Qed.

Lemma data_turn fuel :
  initfp_loop (S fuel) (mk_Wave_read (riff 36 28) true None 1 24000 2 2 0 true 0)
  = Some (Returned (mk_Wave_read (riff 44 36) true
                      (Some (mk_Chunk (riff 44 36) (b "data") N 0 36))
                      1 24000 2 2 (N / 2) false 0)).
Proof.
  rewrite initfp_loop_S. cbn zeta.
  cbn [_file _fmt_chunk_read _data_chunk _nchannels _framerate _sampwidth _framesize
         _nframes _soundpos].
  unfold riff at 1.
  erewrite Chunk_init_riff; [|reflexivity|lia|lia|].
  2:{ destruct (decide (N = 0%Z)) as [->|]; [right; reflexivity|left; lia]. }
  cbn [chunkname chunksize file].
  rewrite decide_False by discriminate.
  rewrite decide_True by reflexivity.
  rewrite Hdata. reflexivity.
Qed.

Lemma open_canonical :
  initfp (mk_BytesIO buf 0)
  = Some (Returned (mk_Wave_read (riff 44 36) true
                      (Some (mk_Chunk (riff 44 36) (b "data") N 0 36))
                      1 24000 2 2 (N / 2) false 0)).
Proof.
  unfold initfp. rewrite riff_chunk.
  rewrite decide_True by reflexivity.
  rewrite riff_form. rewrite decide_True by reflexivity.
  cbn [getvalue]. rewrite canonical_length.
  change (44 + length p)%nat with (S (43 + length p)).
  rewrite fmt_turn, data_turn. reflexivity.
Qed.

Lemma decode_canonical :
  decode buf = Some (Returned ((1, 2, 24000, N / 2)%Z, take (Z.to_nat (N / 2 * 2)) p)).
Proof.
  assert (0 <= N / 2 * 2 <= N)%Z
    by (pose proof (Z.mul_div_le N 2); pose proof (Z.div_pos N 2); lia).
  unfold decode. rewrite open_canonical.
  unfold readframes, getnframes, getparams.
  cbn [_data_chunk _data_seek_needed _nframes _framesize _sampwidth _nchannels _framerate].
  destruct (Z.eqb_spec (N / 2) 0) as [Hz|Hnz].
  - rewrite Hz. reflexivity.
  - rewrite <- (Z2Nat.id (N / 2 * 2)) at 1 by lia.
    unfold riff.
    rewrite nested_read_ok; [| first [lia | rewrite canonical_length; lia | idtac] ..].
    + reflexivity.
    + destruct (decide (0 + Z.of_nat (Z.to_nat (N / 2 * 2)) = N)%Z) as [E|];
        [right | by left].
      rewrite <- E, Z2Nat.id by lia. apply odd_twice.
    + destruct (decide (36 + Z.of_nat (Z.to_nat (N / 2 * 2)) = 36 + N)%Z) as [E|];
        [right | by left].
      rewrite Z2Nat.id in E by lia. replace N with (N / 2 * 2)%Z at 1 by lia.
      replace (36 + N / 2 * 2)%Z with ((18 + N / 2) * 2)%Z by lia. apply odd_twice.
Qed.
End Canonical.

(** ** The container of a buffer of samples *)

Lemma encode_ok p :
  (Z.of_nat (length p) <= max_pcm_length)%Z ->
  encode p = Returned (wav_header (Z.of_nat (length p)) ++ p).
Proof.
  unfold max_pcm_length. intros Hb. unfold encode.
  rewrite wrap_in_wav_ok by lia. reflexivity.
Qed.

Lemma pack_header_overflow d :
  (4294967295 < 36 + d)%Z -> pack_header d 1 24000 2 = Raised struct_L_range.
Proof.
  intros Hd. unfold pack_header.
  assert (Hform : pack_L (36 + d) = Raised struct_L_range)
    by (unfold pack_L; rewrite decide_False by lia; reflexivity).
  rewrite Hform. reflexivity.
Qed.

Lemma wrap_in_wav_too_long p :
  (max_pcm_length < Z.of_nat (length p))%Z -> wrap_in_wav (Some p) = Raised struct_L_range.
Proof.
  unfold max_pcm_length. intros Hb. set (n := Z.of_nat (length p)) in *.
  assert (Hd : (4294967295 < 36 + n / 2 * 2)%Z).
  { assert (2147483630 <= n / 2)%Z by (apply Z.div_le_lower_bound; lia). lia. }
  assert (Hnz : (n / 2)%Z <> 0%Z) by lia.
  unfold wrap_in_wav, with_open.
  change (initfp BytesIO_new)
    with (mk_writer_state BytesIO_new (mk_Wave_write true 0 0 0 0 0 0 0 false 0 0)).
  unfold mbind at 1 2 3. unfold M_bind.
  change (setnchannels 1 _)
    with (Returned tt, mk_writer_state BytesIO_new (mk_Wave_write true 1 0 0 0 0 0 0 false 0 0)).
  cbv iota beta.
  change (setsampwidth 2 _)
    with (Returned tt, mk_writer_state BytesIO_new (mk_Wave_write true 1 2 0 0 0 0 0 false 0 0)).
  cbv iota beta.
  change (setframerate 24000 _) with (Returned tt, configured).
  cbv iota beta.
  unfold writeframes, writeframesraw, _ensure_header_written, _write_header, configured.
  run_M. fold n.
  replace (n / (1 * 2) * 1 * 2)%Z with (n / 2 * 2)%Z by (change (1 * 2)%Z with 2%Z; lia).
  rewrite pack_header_overflow by assumption.
  unfold close, _ensure_header_written, _write_header. run_M.
  change (1 * 2)%Z with 2%Z.
  destruct (Z.eqb_spec (n / 2) 0) as [?|_]; [contradiction|].
  run_M.
  replace (n / 2 * 1 * 2)%Z with (n / 2 * 2)%Z by lia.
  rewrite pack_header_overflow by assumption. reflexivity.
Qed.

Lemma encode_too_long p :
  (max_pcm_length < Z.of_nat (length p))%Z -> encode p = Raised struct_L_range.
Proof. intros Hb. unfold encode. by rewrite wrap_in_wav_too_long. Qed.

Lemma le_combine_split_4 x :
  (0 <= x <= 4294967295)%Z ->
  le_combine [byte.of_Z x; byte.of_Z (Z.shiftr x 8); byte.of_Z (Z.shiftr (Z.shiftr x 8) 8);
              byte.of_Z (Z.shiftr (Z.shiftr (Z.shiftr x 8) 8) 8)] = x.
Proof.
  intros Hx. change (le_combine (le_split 4 x) = x).
  rewrite le_combine_split. apply Z.mod_small.
  change (2 ^ (Z.of_nat 4 * 8))%Z with 4294967296%Z. lia.
Qed.

Lemma open_encoded p :
  (Z.of_nat (length p) <= max_pcm_length)%Z ->
  initfp (mk_BytesIO (wav_header (Z.of_nat (length p)) ++ p) 0)
  = Some (Returned
            (mk_Wave_read
               (mk_Chunk (mk_BytesIO (wav_header (Z.of_nat (length p)) ++ p) 44)
                  (b "RIFF") (36 + Z.of_nat (length p)) 36 8)
               true
               (Some (mk_Chunk
                        (mk_Chunk (mk_BytesIO (wav_header (Z.of_nat (length p)) ++ p) 44)
                           (b "RIFF") (36 + Z.of_nat (length p)) 36 8)
                        (b "data") (Z.of_nat (length p)) 0 36))
               1 24000 2 2 (Z.of_nat (length p) / 2) false 0)).
Proof.
  unfold max_pcm_length. intros Hb.
  apply (open_canonical _ _ _ _ _ _ _ _ p (Z.of_nat (length p)));
    [apply le_combine_split_4; lia | apply le_combine_split_4; lia | reflexivity].
Qed.

Lemma decode_encoded p :
  (Z.of_nat (length p) <= max_pcm_length)%Z ->
  decode (wav_header (Z.of_nat (length p)) ++ p)
  = Some (Returned ((1, 2, 24000, Z.of_nat (length p) / 2)%Z, whole_frames p)).
Proof.
  unfold max_pcm_length. intros Hb.
  replace (whole_frames p)
    with (take (Z.to_nat (Z.of_nat (length p) / 2 * 2)) p).
  - apply (decode_canonical _ _ _ _ _ _ _ _ p (Z.of_nat (length p)));
      [apply le_combine_split_4; lia | apply le_combine_split_4; lia | reflexivity].
  - unfold whole_frames. f_equal.
    rewrite Z2Nat.inj_mul by (try apply Z.div_pos; lia).
    rewrite Z2Nat.inj_div, Nat2Z.id by lia. reflexivity.
Qed.

Lemma whole_frames_even p : (Z.of_nat (length p) mod 2 = 0)%Z -> whole_frames p = p.
Proof.
  intros Heven. unfold whole_frames. apply take_ge.
  assert (length p mod 2 = 0)%nat.
  { apply Nat2Z.inj. rewrite Nat2Z.inj_mod. exact Heven. }
  pose proof (Nat.div_mod_eq (length p) 2). lia.
Qed.

Lemma header_size_is_44 : header_size = 44%nat.
Proof. reflexivity. Qed.

Lemma declared_data_length_encoded p :
  (Z.of_nat (length p) <= max_pcm_length)%Z ->
  declared_data_length (wav_header (Z.of_nat (length p)) ++ p) = Some (Z.of_nat (length p)).
Proof.
  intros Hb. unfold declared_data_length. rewrite open_encoded by assumption. reflexivity.
Qed.

Lemma length_silence n : (0 <= n)%Z -> Z.of_nat (length (silence n)) = n.
Proof. intros Hn. unfold silence. rewrite length_replicate. apply Z2Nat.id. exact Hn. Qed.

Lemma payload_encoded p : payload (wav_header (Z.of_nat (length p)) ++ p) = p.
Proof. reflexivity. Qed.

Lemma silence_too_long : encode (silence 4294967260) = Raised struct_L_range.
Proof.
  apply encode_too_long. rewrite length_silence by lia.
  unfold max_pcm_length. lia.
Qed.

(** C1, as amended: for every buffer of samples [p] whose length is a
    multiple of 2 and at most 4294967259 bytes, encoding [p] as
    [generate_audio_from_generated_story] does (mono, 2 bytes a sample,
    24000 Hz) gives a container, and decoding that container gives back
    exactly [p], with the format (1 channel, 2 bytes a sample, 24000 Hz). *)
Theorem round_trip_of_whole_frames (p : bytes) :
  (Z.of_nat (length p) mod 2 = 0)%Z ->
  (Z.of_nat (length p) <= max_pcm_length)%Z ->
  round_trip p.
Proof.
  intros Heven Hb.
  exists (wav_header (Z.of_nat (length p)) ++ p), (Z.of_nat (length p) / 2)%Z.
  split; [by apply encode_ok|].
  rewrite decode_encoded by assumption.
  by rewrite whole_frames_even.
Qed.

Lemma round_trip_of_whole_frames_witness :
  (Z.of_nat (length [Byte.x34; Byte.x12; Byte.xff; Byte.x7f]) mod 2 = 0)%Z
  /\ (Z.of_nat (length [Byte.x34; Byte.x12; Byte.xff; Byte.x7f]) <= max_pcm_length)%Z
  /\ round_trip [Byte.x34; Byte.x12; Byte.xff; Byte.x7f].
Proof.
  split; [reflexivity|]. split; [vm_compute; discriminate|].
  apply (round_trip_of_whole_frames [Byte.x34; Byte.x12; Byte.xff; Byte.x7f]);
    [reflexivity | vm_compute; discriminate].
Defined.

(** C1 as stated fails: a buffer of 4294967260 zero bytes has an even
    length, and encoding it raises [struct.error], because the length
    fields of the header hold 32 bits. *)
Lemma round_trip_fails_on_long_buffer :
  (Z.of_nat (length (silence 4294967260)) mod 2 = 0)%Z
  /\ ~ round_trip (silence 4294967260).
Proof.
  split.
  - rewrite length_silence by lia. reflexivity.
  - intros (container & nframes & Hencode & _).
    rewrite silence_too_long in Hencode. discriminate.
Qed.

(** C2, as amended: for every buffer [p] whose length is a multiple of 2
    and at most 4294967259 bytes, the empty buffer included, the
    container of [p] declares a data length equal to the length of [p]
    and is as long as the header and [p] together; the container of
    48000 zero bytes is as long as the header plus 48000 and declares
    48000. *)
Theorem header_declares_payload_length :
  (forall p : bytes,
      (Z.of_nat (length p) mod 2 = 0)%Z ->
      (Z.of_nat (length p) <= max_pcm_length)%Z ->
      exists container,
        encode p = Returned container
        /\ declared_data_length container = Some (Z.of_nat (length p))
        /\ length container = (header_size + length p)%nat)
  /\ (exists container,
        encode [] = Returned container
        /\ declared_data_length container = Some 0%Z)
  /\ (exists container,
        encode (silence 48000) = Returned container
        /\ Z.of_nat (length container) = (Z.of_nat header_size + 48000)%Z
        /\ declared_data_length container = Some 48000%Z).
Proof.
  assert (Hany : forall p : bytes,
             (Z.of_nat (length p) <= max_pcm_length)%Z ->
             exists container,
               encode p = Returned container
               /\ declared_data_length container = Some (Z.of_nat (length p))
               /\ length container = (header_size + length p)%nat).
  { intros p Hb. exists (wav_header (Z.of_nat (length p)) ++ p).
    split; [by apply encode_ok|]. split; [by apply declared_data_length_encoded|].
    rewrite length_app, length_wav_header, header_size_is_44. reflexivity. }
  split; [intros p _ Hb; by apply Hany|]. split.
  - destruct (Hany []) as (container & Hencode & Hdeclared & _);
      [vm_compute; discriminate|].
    exists container. by split.
  - destruct (Hany (silence 48000)) as (container & Hencode & Hdeclared & Hlength).
    { rewrite length_silence by lia. vm_compute. discriminate. }
    exists container. rewrite length_silence in Hdeclared by lia.
    split; [assumption|]. split; [|assumption].
    rewrite Hlength, Nat2Z.inj_add, length_silence by lia. reflexivity.
Qed.

Lemma header_declares_payload_length_witness :
  (Z.of_nat (length [Byte.x34; Byte.x12]) mod 2 = 0)%Z
  /\ (Z.of_nat (length [Byte.x34; Byte.x12]) <= max_pcm_length)%Z
  /\ exists container,
       encode [Byte.x34; Byte.x12] = Returned container
       /\ declared_data_length container = Some (Z.of_nat (length [Byte.x34; Byte.x12]))
       /\ length container = (header_size + length [Byte.x34; Byte.x12])%nat.
Proof.
  split; [reflexivity|]. split; [vm_compute; discriminate|].
  apply (proj1 header_declares_payload_length [Byte.x34; Byte.x12]);
    [reflexivity | vm_compute; discriminate].
Defined.

(** C2 as stated fails: a buffer of 4294967260 zero bytes has an even
    length and gets no container at all, so none that declares its
    length. *)
Lemma no_header_for_long_buffer :
  (Z.of_nat (length (silence 4294967260)) mod 2 = 0)%Z
  /\ ~ declares_its_length (silence 4294967260).
Proof.
  split.
  - rewrite length_silence by lia. reflexivity.
  - intros (container & Hencode & _).
    rewrite silence_too_long in Hencode. discriminate.
Qed.

(** C3, as amended: for every buffer [p] of odd length, at most
    4294967259 bytes, encoding neither fails nor cuts [p]: the container
    holds all of [p] after the header, and the data length that it
    declares is the length of [p], which is the length of the payload
    written. *)
Theorem odd_buffer_is_written_whole (p : bytes) :
  (Z.of_nat (length p) mod 2 = 1)%Z ->
  (Z.of_nat (length p) <= max_pcm_length)%Z ->
  exists container,
    encode p = Returned container
    /\ payload container = p
    /\ declared_data_length container = Some (Z.of_nat (length (payload container))).
Proof.
  intros _ Hb. exists (wav_header (Z.of_nat (length p)) ++ p).
  split; [by apply encode_ok|]. rewrite payload_encoded.
  split; [reflexivity|]. by apply declared_data_length_encoded.
Qed.

Lemma odd_buffer_is_written_whole_witness :
  (Z.of_nat (length [Byte.x34; Byte.x12; Byte.xff]) mod 2 = 1)%Z
  /\ (Z.of_nat (length [Byte.x34; Byte.x12; Byte.xff]) <= max_pcm_length)%Z
  /\ exists container,
       encode [Byte.x34; Byte.x12; Byte.xff] = Returned container
       /\ payload container = [Byte.x34; Byte.x12; Byte.xff]
       /\ declared_data_length container
          = Some (Z.of_nat (length (payload container))).
Proof.
  split; [reflexivity|]. split; [vm_compute; discriminate|].
  apply (odd_buffer_is_written_whole [Byte.x34; Byte.x12; Byte.xff]);
    [reflexivity | vm_compute; discriminate].
Defined.

(** C3 as stated fails: encoding the one byte [0x01] raises nothing and
    cuts nothing. *)
Lemma odd_buffer_neither_fails_nor_truncates :
  (Z.of_nat (length [Byte.x01]) mod 2 = 1)%Z
  /\ ~ fails_or_truncates [Byte.x01].
Proof.
  split; [reflexivity|].
  intros [[e Hraised] | (container & Hencode & Hcut)].
  - vm_compute in Hraised. discriminate.
  - vm_compute in Hencode. injection Hencode as <-.
    vm_compute in Hcut. discriminate.
Qed.

(** What the reader of the same library makes of such a container: the
    samples without the odd last byte. *)
Lemma odd_buffer_is_read_short (p : bytes) :
  (Z.of_nat (length p) <= max_pcm_length)%Z ->
  exists container,
    encode p = Returned container
    /\ decode container
       = Some (Returned ((1, 2, 24000, Z.of_nat (length p) / 2)%Z, whole_frames p)).
Proof.
  intros Hb. exists (wav_header (Z.of_nat (length p)) ++ p).
  split; [by apply encode_ok | by apply decode_encoded].
Qed.

(** ** The prompt *)

Lemma contains_refl_app before sub after : contains (before ++ sub ++ after)%string sub.
Proof. by exists before, after. Qed.

Lemma string_app_assoc (s1 s2 s3 : string) :
  ((s1 ++ s2) ++ s3 = s1 ++ s2 ++ s3)%string.
Proof.
  induction s1 as [|a s1 IH]; [reflexivity|].
  change (String a ((s1 ++ s2) ++ s3) = String a (s1 ++ s2 ++ s3))%string.
  by rewrite IH.
Qed.

Lemma contains_app_l s sub before : contains s sub -> contains (before ++ s)%string sub.
Proof.
  intros (x & y & ->). exists (before ++ x)%string, y.
  symmetry. apply string_app_assoc.
Qed.

Lemma starts_with_sound sub s :
  starts_with sub s = true -> exists after, s = (sub ++ after)%string.
Proof.
  revert s. induction sub as [|a sub IH]; intros s Hs.
  - by exists s.
  - destruct s as [|c s]; [discriminate|]. simpl in Hs.
    apply andb_prop in Hs as [Hac Hrest].
    apply Ascii.eqb_eq in Hac as ->.
    destruct (IH _ Hrest) as [after ->]. by exists after.
Qed.

Lemma occurs_in_sound sub s : occurs_in sub s = true -> contains s sub.
Proof.
  induction s as [|c s IH]; simpl; intros Hs.
  - rewrite orb_false_r in Hs. destruct (starts_with_sound _ _ Hs) as [after ->].
    by exists ""%string, after.
  - apply orb_prop in Hs as [Hhere|Hlater].
    + destruct (starts_with_sound _ _ Hhere) as [after ->]. by exists ""%string, after.
    + destruct (IH Hlater) as (x & y & ->). by exists (String c x), y.
Qed.

Lemma story_prompt_names_its_genre story_type :
  contains (story_prompt story_type) story_type.
Proof. apply contains_refl_app. Qed.

Lemma story_prompt_has_tail story_type sub :
  occurs_in sub prompt_tail = true -> contains (story_prompt story_type) sub.
Proof.
  intros Hsub. unfold story_prompt.
  apply contains_app_l, contains_app_l. by apply occurs_in_sound.
Qed.

Lemma tone_lines_in_prompt :
  Forall (fun '(genre, tone) =>
            occurs_in tone prompt_tail = true
            /\ occurs_in (tone_line genre tone) prompt_tail = true) tones.
Proof. repeat constructor. Qed.

(** C5: [story_prompt] gives the same prompt whenever it is called with
    the same genre and changes nothing; for each of the ten genres that
    the prompt names, the prompt for that genre contains the name of the
    genre and the words for its tone, and so does the prompt for each of
    the ten labels that the page offers. *)
Theorem story_prompt_deterministic_with_genre_and_tone :
  (forall story_type w1 w2,
      fst (call_story_prompt story_type w1) = fst (call_story_prompt story_type w2)
      /\ snd (call_story_prompt story_type w1) = w1)
  /\ length tones = 10%nat
  /\ Forall (fun '(genre, tone) =>
               contains (story_prompt genre) genre
               /\ contains (story_prompt genre) tone
               /\ contains (story_prompt genre) (tone_line genre tone)) tones
  /\ length story_types = 10%nat
  /\ Forall (fun label =>
               contains (story_prompt label) label
               /\ Forall (fun '(_, tone) => contains (story_prompt label) tone) tones)
            story_types.
Proof.
  assert (Htones : forall story_type,
             Forall (fun '(genre, tone) =>
                       contains (story_prompt story_type) tone
                       /\ contains (story_prompt story_type) (tone_line genre tone)) tones).
  { intros story_type. eapply Forall_impl; [apply tone_lines_in_prompt|].
    intros [genre tone] [Htone Hline].
    split; by apply story_prompt_has_tail. }
  split; [intros; split; reflexivity|].
  split; [reflexivity|]. split.
  - apply Forall_forall. intros [genre tone] Hin.
    split; [apply story_prompt_names_its_genre|].
    pose proof (Htones genre) as Hall. rewrite Forall_forall in Hall.
    exact (Hall (genre, tone) Hin).
  - split; [reflexivity|]. apply Forall_forall. intros label _.
    split; [apply story_prompt_names_its_genre|].
    eapply Forall_impl; [apply (Htones label)|].
    by intros [genre tone] [Htone _].
Qed.

(** C6, as amended: for every value of [story_type], one of the genre
    labels or not, [story_prompt] raises nothing and returns a prompt
    that contains the value as it was given. *)
Theorem story_prompt_accepts_any_genre (story_type : string) (w : world) :
  call_story_prompt story_type w = (Returned (story_prompt story_type), w)
  /\ contains (story_prompt story_type) story_type.
Proof. split; [reflexivity | apply story_prompt_names_its_genre]. Qed.

(** C6 as stated fails: ["Western"] is none of the labels that the page
    offers and none of the genres that the prompt names, and
    [story_prompt] returns a prompt for it. *)
Lemma unknown_genre_gets_a_prompt :
  ("Western" ∉ story_types)
  /\ ("Western" ∉ tones.*1)
  /\ ~ (exists msg, fst (call_story_prompt "Western" empty_world) = Raised (InvalidGenre msg))
  /\ fst (call_story_prompt "Western" empty_world) = Returned (story_prompt "Western").
Proof.
  split; [|split; [|split]].
  - apply (bool_decide_unpack _). reflexivity.
  - apply (bool_decide_unpack _). reflexivity.
  - intros [msg Hraised]. discriminate.
  - reflexivity.
Qed.

(** ** Speech synthesis *)

Ltac run_W :=
  repeat (progress unfold mbind, M_bind, mret, M_ret, modify, gets, get, lift, raise, say,
            show, traceback_print_exc, may_raise, try_except_Exception, try_except_all,
            first_item, generate_content);
  cbn [fst snd environ files console clients requests session_state ui
         set_environ set_files set_console set_clients set_requests set_session_state
         set_ui candidates content parts inline_data data].

Lemma wrap_in_wav_None :
  wrap_in_wav None
  = Raised (TypeError "memoryview: a bytes-like object is required, not 'NoneType'").
Proof. reflexivity. Qed.

Lemma wrap_in_wav_raises_Exception audio_data e :
  wrap_in_wav audio_data = Raised e -> is_Exception e = true.
Proof.
  destruct audio_data as [p|].
  - destruct (Z_le_gt_dec (Z.of_nat (length p)) max_pcm_length) as [Hb|Hb].
    + unfold max_pcm_length in Hb. rewrite wrap_in_wav_ok by lia. discriminate.
    + rewrite wrap_in_wav_too_long by lia. by intros [= <-].
  - rewrite wrap_in_wav_None. by intros [= <-].
Qed.

Lemma wrap_in_wav_encode audio_data audio_buffer :
  wrap_in_wav audio_data = Returned audio_buffer ->
  exists pcm, audio_data = Some pcm /\ encode pcm = Returned (getvalue audio_buffer).
Proof.
  destruct audio_data as [pcm|]; [|rewrite wrap_in_wav_None; discriminate].
  intros Hwrap. exists pcm. split; [reflexivity|].
  unfold encode. by rewrite Hwrap.
Qed.

Lemma save_to_temp_file_cases env container w :
  only_Exceptions env ->
  (exists name, save_to_temp_file env container w
                = (Returned name, set_files (<[name := container]> (<[name := []]> (files w))) w))
  \/ (exists e w', save_to_temp_file env container w = (Raised e, w')
                   /\ is_Exception e = true
                   /\ console w' = console w /\ requests w' = requests w).
Proof.
  intros (_ & Hcreate & Hwrite & Hflush & Hclose).
  unfold save_to_temp_file. run_W.
  destruct (NamedTemporaryFile env) as [stem|e]; cbn in Hcreate.
  - destruct (write_exn env) as [e|]; cbn in Hwrite; run_W.
    { right. eexists _, _. split; [reflexivity|]. by split. }
    destruct (flush_exn env) as [e|]; cbn in Hflush; run_W.
    { right. eexists _, _. split; [reflexivity|]. by split. }
    destruct (close_exn env) as [e|]; cbn in Hclose; run_W.
    { right. eexists _, _. split; [reflexivity|]. by split. }
    left. eexists. reflexivity.
  - right. eexists _, _. split; [reflexivity|]. by split.
Qed.

(** The result of a call in terms of what the service answered. *)
Lemma generate_audio_result env client story_text w :
  fst (generate_audio_from_generated_story env client story_text w)
  = match service env (speech_request client story_text) with
    | Raised e => if is_Exception e then Returned None else Raised e
    | Returned response =>
        match candidates response with
        | Some (candidate :: _) =>
            match content candidate with
            | Some c =>
                match parts c with
                | Some (part :: _) =>
                    match inline_data part with
                    | Present (Some blob) =>
                        match wrap_in_wav (data blob) with
                        | Returned audio_buffer =>
                            match fst (save_to_temp_file env (getvalue audio_buffer)
                                         (set_requests
                                            (requests w ++ [speech_request client story_text])
                                            w)) with
                            | Returned name => Returned (Some name)
                            | Raised e => if is_Exception e then Returned None else Raised e
                            end
                        | Raised e => Returned None
                        end
                    | _ => Returned None
                    end
                | _ => Returned None
                end
            | None => Returned None
            end
        | _ => Returned None
        end
    end.
Proof.
  unfold generate_audio_from_generated_story. run_W.
  fold (speech_request client story_text).
  destruct (service env (speech_request client story_text)) as [response|e]; run_W.
  2:{ by destruct (is_Exception e). }
  destruct (candidates response) as [[|candidate ?]|]; run_W; [reflexivity| |reflexivity].
  destruct (content candidate) as [c|]; run_W; [|reflexivity].
  destruct (parts c) as [[|part ?]|]; run_W; [reflexivity| |reflexivity].
  destruct (inline_data part) as [|[blob|]]; run_W; [reflexivity| |reflexivity].
  destruct (wrap_in_wav (data blob)) as [audio_buffer|e] eqn:Hwrap; run_W.
  2:{ by rewrite (wrap_in_wav_raises_Exception _ _ Hwrap). }
  destruct (save_to_temp_file env (getvalue audio_buffer) _) as [[name|e] w']; run_W;
    [reflexivity|].
  by destruct (is_Exception e).
Qed.

(** C10, as amended: for every text and every outcome of the remote call,
    of the encoding and of the saving, any exception that derives from
    [Exception] included, [generate_audio_from_generated_story] returns
    [None] or the path of a file that holds a WAV container; it lets no
    exception that derives from [Exception] through. *)
Theorem generate_audio_returns_path_or_None env client story_text w :
  only_Exceptions env ->
  fst (generate_audio_from_generated_story env client story_text w) = Returned None
  \/ exists name pcm container,
       fst (generate_audio_from_generated_story env client story_text w)
       = Returned (Some name)
       /\ encode pcm = Returned container
       /\ files (snd (generate_audio_from_generated_story env client story_text w)) !! name
          = Some container.
Proof.
  intros Henv. pose proof Henv as (Hservice & _).
  specialize (Hservice (speech_request client story_text)).
  unfold generate_audio_from_generated_story. run_W.
  fold (speech_request client story_text).
  destruct (service env (speech_request client story_text)) as [response|e]; run_W.
  2:{ cbn in Hservice. rewrite Hservice. by left. }
  destruct (candidates response) as [[|candidate ?]|]; run_W; [by left| |by left].
  destruct (content candidate) as [c|]; run_W; [|by left].
  destruct (parts c) as [[|part ?]|]; run_W; [by left| |by left].
  destruct (inline_data part) as [|[blob|]]; run_W; [by left| |by left].
  destruct (wrap_in_wav (data blob)) as [audio_buffer|e] eqn:Hwrap; run_W.
  2:{ rewrite (wrap_in_wav_raises_Exception _ _ Hwrap). by left. }
  destruct (wrap_in_wav_encode _ _ Hwrap) as (pcm & _ & Hencode).
  destruct (save_to_temp_file_cases env (getvalue audio_buffer)
              (set_requests (requests w ++ [speech_request client story_text]) w) Henv)
    as [[name Hsave] | (e & w' & Hsave & He & _)]; rewrite Hsave; run_W.
  - right. exists name, pcm, (getvalue audio_buffer).
    split; [reflexivity|]. split; [assumption|]. apply lookup_insert_eq.
  - rewrite He. by left.
Qed.

Lemma generate_audio_returns_path_or_None_witness :
  only_Exceptions (calm (audio_response [Byte.x34; Byte.x12]))
  /\ (fst (generate_audio_from_generated_story (calm (audio_response [Byte.x34; Byte.x12]))
             a_client "Hello world" empty_world) = Returned None
      \/ exists name pcm container,
           fst (generate_audio_from_generated_story
                  (calm (audio_response [Byte.x34; Byte.x12])) a_client "Hello world"
                  empty_world)
           = Returned (Some name)
           /\ encode pcm = Returned container
           /\ files (snd (generate_audio_from_generated_story
                            (calm (audio_response [Byte.x34; Byte.x12])) a_client
                            "Hello world" empty_world)) !! name
              = Some container).
Proof.
  assert (Henv : only_Exceptions (calm (audio_response [Byte.x34; Byte.x12])))
    by (repeat split; intros; exact I).
  split; [exact Henv|].
  exact (generate_audio_returns_path_or_None (calm (audio_response [Byte.x34; Byte.x12]))
           a_client "Hello world" empty_world Henv).
Defined.

(** C10 as stated fails: when the request is interrupted from the
    keyboard, the exception derives from [BaseException] only, the
    [except Exception] clause does not catch it, and it reaches the
    caller. *)
Lemma generate_audio_lets_interrupt_through :
  fst (generate_audio_from_generated_story
         (with_service (calm text_only_response) (fun _ => Raised interrupt))
         a_client "Hello world" empty_world)
  = Raised interrupt.
Proof. reflexivity. Qed.

(** C4, as amended: when the service answers without inline audio,
    [generate_audio_from_generated_story] returns [None], and it returns
    the same [None] when the call fails with an exception that derives
    from [Exception], a transport failure included: its caller cannot
    tell the two apart. *)
Theorem missing_audio_gives_None_as_failure_does env client story_text w :
  (forall response,
      service env (speech_request client story_text) = Returned response ->
      audio_payload response = None ->
      fst (generate_audio_from_generated_story env client story_text w) = Returned None)
  /\ (forall e,
        service env (speech_request client story_text) = Raised e ->
        is_Exception e = true ->
        fst (generate_audio_from_generated_story env client story_text w) = Returned None).
Proof.
  split.
  - intros response Hservice Hnone. rewrite generate_audio_result, Hservice.
    unfold audio_payload in Hnone.
    destruct (candidates response) as [[|candidate ?]|]; [reflexivity| |reflexivity].
    destruct (content candidate) as [c|]; [|reflexivity].
    destruct (parts c) as [[|part ?]|]; [reflexivity| |reflexivity].
    destruct (inline_data part) as [|[blob|]]; [reflexivity| |reflexivity].
    rewrite Hnone, wrap_in_wav_None. reflexivity.
  - intros e Hservice He. by rewrite generate_audio_result, Hservice, He.
Qed.

Lemma missing_audio_gives_None_as_failure_does_witness :
  service (calm text_only_response) (speech_request a_client "Hello world")
  = Returned text_only_response
  /\ audio_payload text_only_response = None
  /\ fst (generate_audio_from_generated_story (calm text_only_response) a_client
            "Hello world" empty_world) = Returned None.
Proof.
  split; [reflexivity|]. split; [reflexivity|].
  exact (proj1 (missing_audio_gives_None_as_failure_does (calm text_only_response)
                  a_client "Hello world" empty_world)
           text_only_response eq_refl eq_refl).
Defined.

(** C4 as stated fails: for the text ["Hello world"], an answer without
    inline audio and a refused connection give the caller the same
    value, [None]; the two differ in what is printed on the console
    only. *)
Lemma missing_audio_looks_like_transport_failure :
  audio_payload text_only_response = None
  /\ fst (generate_audio_from_generated_story (calm text_only_response) a_client
            "Hello world" empty_world)
     = fst (generate_audio_from_generated_story
              (with_service (calm text_only_response) (fun _ => Raised connection_error))
              a_client "Hello world" empty_world)
  /\ fst (generate_audio_from_generated_story (calm text_only_response) a_client
            "Hello world" empty_world) = Returned None.
Proof. repeat split. Qed.

Lemma missing_audio_is_told_on_console_only :
  console (snd (generate_audio_from_generated_story (calm text_only_response) a_client
                  "Hello world" empty_world))
  = [print "❌ No inline_data found in response"]
  /\ console (snd (generate_audio_from_generated_story
                     (with_service (calm text_only_response)
                        (fun _ => Raised connection_error))
                     a_client "Hello world" empty_world))
     = [print "❌ Error generating audio: [Errno 111] Connection refused";
        print_exc connection_error].
Proof. split; reflexivity. Qed.

(** ** The credential *)

Lemma import_module_without_key env w :
  (environ w ∪ dotenv env) !! "GOOGLE_API_KEY" = None
  \/ (environ w ∪ dotenv env) !! "GOOGLE_API_KEY" = Some ""%string ->
  import_module env w
  = (Raised (ValueError "!!!API KEY NOT FOUND!!!"),
     set_environ (environ w ∪ dotenv env) w).
Proof.
  intros Hkey. unfold import_module, load_dotenv, os_getenv. run_W.
  by destruct Hkey as [-> | ->].
Qed.

Lemma script_without_key env input w :
  (environ w ∪ dotenv env) !! "GOOGLE_API_KEY" = None
  \/ (environ w ∪ dotenv env) !! "GOOGLE_API_KEY" = Some ""%string ->
  script env input w
  = (Raised (ValueError "!!!API KEY NOT FOUND!!!"),
     set_environ (environ w ∪ dotenv env) w).
Proof.
  intros Hkey. unfold script. unfold mbind at 1. unfold M_bind.
  by rewrite (import_module_without_key env w Hkey).
Qed.

(** C7: when no API key is configured, the variable being absent or
    empty once the [.env] file is loaded, the import of the module raises
    [ValueError] at once and the script stops there: no client is
    constructed and no request is sent to the service. *)
Theorem missing_credential_stops_before_any_call env input w :
  (environ w ∪ dotenv env) !! "GOOGLE_API_KEY" = None
  \/ (environ w ∪ dotenv env) !! "GOOGLE_API_KEY" = Some ""%string ->
  fst (import_module env w) = Raised (ValueError "!!!API KEY NOT FOUND!!!")
  /\ fst (script env input w) = Raised (ValueError "!!!API KEY NOT FOUND!!!")
  /\ clients (snd (script env input w)) = clients w
  /\ requests (snd (script env input w)) = requests w
  /\ ui (snd (script env input w)) = ui w
  /\ files (snd (script env input w)) = files w.
Proof.
  intros Hkey.
  rewrite (import_module_without_key env w Hkey), (script_without_key env input w Hkey).
  repeat split; reflexivity.
Qed.

Lemma missing_credential_stops_before_any_call_witness :
  ((environ empty_world ∪ dotenv (calm text_only_response)) !! "GOOGLE_API_KEY" = None
   \/ (environ empty_world ∪ dotenv (calm text_only_response)) !! "GOOGLE_API_KEY"
      = Some ""%string)
  /\ fst (script (calm text_only_response) (mk_widgets eleven_uploads "Comedy" true true)
            empty_world)
     = Raised (ValueError "!!!API KEY NOT FOUND!!!")
  /\ requests (snd (script (calm text_only_response)
                      (mk_widgets eleven_uploads "Comedy" true true) empty_world)) = [].
Proof.
  assert (Hkey : (environ empty_world ∪ dotenv (calm text_only_response))
                   !! "GOOGLE_API_KEY" = None
                 \/ (environ empty_world ∪ dotenv (calm text_only_response))
                      !! "GOOGLE_API_KEY" = Some ""%string)
    by (left; reflexivity).
  split; [exact Hkey|].
  pose proof (missing_credential_stops_before_any_call (calm text_only_response)
                (mk_widgets eleven_uploads "Comedy" true true) empty_world Hkey)
    as (_ & Hraised & _ & Hrequests & _).
  split; [exact Hraised | exact Hrequests].
Defined.

(** With a key, the import constructs the one client, with that key. *)
Lemma import_module_with_key env w key :
  (environ w ∪ dotenv env) !! "GOOGLE_API_KEY" = Some key -> key <> ""%string ->
  import_module env w
  = (Returned (mk_Client key),
     set_clients (clients w ++ [mk_Client key]) (set_environ (environ w ∪ dotenv env) w)).
Proof.
  intros Hkey Hne. unfold import_module, load_dotenv, os_getenv, genai_Client. run_W.
  rewrite Hkey. unfold truthy.
  destruct (String.eqb_spec key "") as [?|_]; [contradiction|]. reflexivity.
Qed.

(** ** The requests that leave the process *)

Section Sends.
Context (P : request -> Prop).

Lemma sends_ret {A} (a : A) (Q : A -> Prop) : Q a -> sends P (mret a) Q.
Proof.
  intros Ha w. exists []. run_W. rewrite app_nil_r.
  split; [reflexivity|]. split; [constructor|]. by intros ? [= <-].
Qed.

Lemma sends_raise {A} e (Q : A -> Prop) : sends P (raise e) Q.
Proof.
  intros w. exists []. run_W. rewrite app_nil_r.
  split; [reflexivity|]. split; [constructor|]. discriminate.
Qed.

Lemma sends_lift {A} (o : outcome A) (Q : A -> Prop) :
  (forall a, o = Returned a -> Q a) -> sends P (lift o) Q.
Proof.
  intros Ho w. exists []. run_W. rewrite app_nil_r.
  split; [reflexivity|]. split; [constructor|]. exact Ho.
Qed.

Lemma sends_quiet (f : world -> world) (Q : unit -> Prop) :
  (forall w, requests (f w) = requests w) -> Q tt -> sends P (modify f) Q.
Proof.
  intros Hf HQ w. exists []. run_W. rewrite app_nil_r, Hf.
  split; [reflexivity|]. split; [constructor|]. by intros [] _.
Qed.

Lemma sends_gets {A} (f : world -> A) : sends P (gets f) (fun _ => True).
Proof.
  intros w. exists []. run_W. rewrite app_nil_r.
  split; [reflexivity|]. split; [constructor|]. done.
Qed.

Lemma sends_weaken {A} (m : M world A) (Q Q' : A -> Prop) :
  sends P m Q -> (forall a, Q a -> Q' a) -> sends P m Q'.
Proof.
  intros Hm HQ w. destruct (Hm w) as (new & Hreq & Hnew & Hret).
  exists new. split; [assumption|]. split; [assumption|]. eauto.
Qed.

Lemma sends_bind {A B} (m : M world A) (k : A -> M world B) (R : A -> Prop)
    (Q : B -> Prop) :
  sends P m R -> (forall a, R a -> sends P (k a) Q) -> sends P (m ≫= k) Q.
Proof.
  intros Hm Hk w. destruct (Hm w) as (new & Hreq & Hnew & Hret).
  unfold mbind, M_bind. destruct (m w) as [[a|e] w']; cbn [fst snd] in *.
  - destruct (Hk a (Hret a eq_refl) w') as (new' & Hreq' & Hnew' & Hret').
    exists (new ++ new'). rewrite Hreq', Hreq, app_assoc.
    split; [reflexivity|]. split; [by apply Forall_app|]. exact Hret'.
  - exists new. split; [assumption|]. split; [assumption|]. discriminate.
Qed.

Lemma sends_try_except_Exception {A} (body : M world A) (handler : exn -> M world A)
    (Q : A -> Prop) :
  sends P body Q -> (forall e, sends P (handler e) Q) ->
  sends P (try_except_Exception body handler) Q.
Proof.
  intros Hbody Hhandler w. destruct (Hbody w) as (new & Hreq & Hnew & Hret).
  unfold try_except_Exception. destruct (body w) as [[a|e] w']; cbn [fst snd] in *.
  - exists new. by repeat split.
  - destruct (is_Exception e).
    + destruct (Hhandler e w') as (new' & Hreq' & Hnew' & Hret').
      exists (new ++ new'). rewrite Hreq', Hreq, app_assoc.
      split; [reflexivity|]. split; [by apply Forall_app|]. exact Hret'.
    + exists new. split; [assumption|]. split; [assumption|]. discriminate.
Qed.

Lemma sends_try_except_all {A} (body handler : M world A) (Q : A -> Prop) :
  sends P body Q -> sends P handler Q -> sends P (try_except_all body handler) Q.
Proof.
  intros Hbody Hhandler w. destruct (Hbody w) as (new & Hreq & Hnew & Hret).
  unfold try_except_all. destruct (body w) as [[a|e] w']; cbn [fst snd] in *.
  - exists new. by repeat split.
  - destruct (Hhandler w') as (new' & Hreq' & Hnew' & Hret').
    exists (new ++ new'). rewrite Hreq', Hreq, app_assoc.
    split; [reflexivity|]. split; [by apply Forall_app|]. exact Hret'.
Qed.

Lemma sends_generate_content env client model contents config :
  P (mk_request (client_api_key client) model contents config) ->
  sends P (generate_content env client model contents config) (fun _ => True).
Proof.
  intros Hreq w. eexists [_]. unfold generate_content. run_W.
  split; [reflexivity|]. split; [by repeat constructor|]. done.
Qed.
End Sends.

Ltac quiet :=
  repeat first
    [ apply sends_gets
    | (apply sends_ret; exact I)
    | apply sends_raise
    | (apply sends_quiet; [intros ?; reflexivity | exact I])
    | (apply sends_lift; intros; exact I)
    | (eapply sends_bind; [|intros ? _])
    | (apply sends_try_except_Exception; [|intros ?])
    | apply sends_try_except_all
    | case_match ].

Section SendsOfTheProgram.
Context (P : request -> Prop) (env : environment).

Lemma say_sends line : sends P (say line) (fun _ => True).
Proof. unfold say. quiet. Qed.

Lemma show_sends ev : sends P (show ev) (fun _ => True).
Proof. unfold show. quiet. Qed.

Lemma may_raise_sends fault : sends P (may_raise fault) (fun _ => True).
Proof. unfold may_raise. quiet. Qed.

Lemma open_all_sends uploads :
  sends P (open_all env uploads)
    (fun images => Forall2 (fun u i => Image_open env u = Returned i) uploads images).
Proof.
  induction uploads as [|u uploads IH]; cbn [open_all].
  - apply sends_ret. constructor.
  - eapply sends_bind; [apply sends_lift; intros i Hi; exact Hi|].
    intros i Hi. eapply sends_bind; [exact IH|].
    intros images Himages. apply sends_ret. by constructor.
Qed.

Lemma save_to_temp_file_sends container :
  sends P (save_to_temp_file env container) (fun _ => True).
Proof. unfold save_to_temp_file, may_raise. quiet. Qed.

Lemma import_module_sends : sends P (import_module env) (fun _ => True).
Proof. unfold import_module, load_dotenv, os_getenv, genai_Client. quiet. Qed.

Lemma limit_uploaded_images_sends uploads :
  sends P (limit_uploaded_images uploads)
    (fun limited => limited = take 10 uploads).
Proof.
  unfold limit_uploaded_images.
  destruct (negb (is_empty uploads) && (10 <? length uploads)%nat) eqn:Hmany.
  - eapply sends_bind; [apply show_sends|]. intros _ _. by apply sends_ret.
  - apply sends_ret. symmetry. apply take_ge.
    destruct uploads as [|u uploads]; cbn [length]; [lia|].
    cbn [is_empty negb andb] in Hmany. apply Nat.ltb_ge in Hmany. exact Hmany.
Qed.

Lemma generate_audio_sends client story_text :
  P (speech_request client story_text) ->
  sends P (generate_audio_from_generated_story env client story_text) (fun _ => True).
Proof.
  intros Hreq. unfold generate_audio_from_generated_story.
  apply sends_try_except_Exception.
  - eapply sends_bind; [by apply sends_generate_content|]. intros response _.
    unfold first_item.
    eapply sends_bind; [quiet|]. intros candidate _.
    eapply sends_bind; [quiet|]. intros c _.
    eapply sends_bind; [quiet|]. intros audio_part _.
    destruct (inline_data audio_part) as [|inline].
    + eapply sends_bind; [apply say_sends|]. intros _ _. by apply sends_ret.
    + eapply sends_bind; [quiet|]. intros audio_data _.
      eapply sends_bind; [quiet|]. intros audio_buffer _.
      eapply sends_bind; [apply save_to_temp_file_sends|]. intros name _.
      by apply sends_ret.
  - intros e. eapply sends_bind; [apply say_sends|]. intros _ _.
    eapply sends_bind; [unfold traceback_print_exc; quiet|]. intros _ _.
    by apply sends_ret.
Qed.
End SendsOfTheProgram.

Lemma images_of_story_request key images prompt :
  images_of (mk_request key model_name_1 [Images images; Text prompt] None) = images.
Proof. unfold images_of. cbn. apply app_nil_r. Qed.

Lemma images_of_speech_request client story_text :
  images_of (speech_request client story_text) = [].
Proof. reflexivity. Qed.

Section FirstTen.
Context (env : environment) (uploads : list upload).

Lemma story_generation_sends client story_type generate_button :
  sends (forwards_first_ten env uploads)
    (story_generation env client (take 10 uploads) story_type generate_button)
    (fun _ => True).
Proof.
  unfold story_generation. destruct generate_button; [|by apply sends_ret].
  destruct (is_empty (take 10 uploads)); [apply show_sends|].
  apply sends_try_except_Exception; [|intros e; apply show_sends].
  eapply sends_bind; [apply open_all_sends|]. intros pil_images Hopened.
  eapply sends_bind.
  - unfold generate_story_from_images.
    eapply sends_bind; [|intros response _; by apply (sends_ret _ _ (fun _ => True))].
    apply sends_generate_content. right. by rewrite images_of_story_request.
  - intros generated_story _.
    destruct generated_story as [story|]; [|apply show_sends].
    destruct (truthy (Some story)); [|apply show_sends].
    by apply sends_quiet.
Qed.

Lemma audio_generation_sends client generate_audio_button :
  sends (forwards_first_ten env uploads)
    (audio_generation env client generate_audio_button) (fun _ => True).
Proof.
  unfold audio_generation. destruct generate_audio_button; [|by apply sends_ret].
  eapply sends_bind; [apply sends_gets|]. intros w _.
  destruct (session_state w !! "generated_story") as [generated_story|];
    [|apply show_sends].
  apply sends_try_except_Exception.
  - eapply sends_bind; [apply generate_audio_sends; by left|]. intros audio_path _.
    unfold os_path_exists, os_path_getsize, read_file, play, os_unlink, may_raise, show.
    quiet.
  - intros e. unfold show. quiet.
Qed.

Lemma script_sends input :
  uploaded_images input = uploads ->
  sends (forwards_first_ten env uploads) (script env input) (fun _ => True).
Proof.
  intros Huploads. unfold script.
  eapply sends_bind; [apply import_module_sends|]. intros client _.
  eapply sends_bind; [apply limit_uploaded_images_sends|]. intros limited ->.
  rewrite Huploads.
  eapply sends_bind; [apply story_generation_sends|]. intros _ _.
  apply audio_generation_sends.
Qed.
End FirstTen.

Lemma forwards_first_ten_at_most_ten env uploads req :
  forwards_first_ten env uploads req -> length (images_of req) <= 10.
Proof.
  intros [-> | Hopened]; [cbn; lia|].
  apply Forall2_length in Hopened. rewrite <- Hopened, length_take. lia.
Qed.

(** C8: when eleven images or more are uploaded, every request that a
    run of the script sends to the service carries at most ten images,
    and a request that carries images carries the first ten uploads,
    opened in their order: the list is cut to its first ten before
    [generate_story_from_images] is called. *)
Theorem at_most_ten_images_reach_the_service env input w :
  11 <= length (uploaded_images input) ->
  exists new,
    requests (snd (script env input w)) = requests w ++ new
    /\ Forall (fun req =>
                 length (images_of req) <= 10
                 /\ forwards_first_ten env (uploaded_images input) req) new.
Proof.
  intros _.
  destruct (script_sends env (uploaded_images input) input eq_refl w)
    as (new & Hrequests & Hnew & _).
  exists new. split; [assumption|].
  eapply Forall_impl; [exact Hnew|]. intros req Hreq.
  split; [by eapply forwards_first_ten_at_most_ten | assumption].
Qed.

Lemma at_most_ten_images_reach_the_service_witness :
  11 <= length (uploaded_images (mk_widgets eleven_uploads "Comedy" true false))
  /\ exists new,
       requests (snd (script (calm text_only_response)
                        (mk_widgets eleven_uploads "Comedy" true false) keyed_world))
       = requests keyed_world ++ new
       /\ Forall (fun req =>
                    length (images_of req) <= 10
                    /\ forwards_first_ten (calm text_only_response)
                         (uploaded_images (mk_widgets eleven_uploads "Comedy" true false))
                         req) new.
Proof.
  split; [cbn; lia|].
  apply (at_most_ten_images_reach_the_service (calm text_only_response)
           (mk_widgets eleven_uploads "Comedy" true false) keyed_world).
  cbn. lia.
Defined.

(** The run of the witness does send a request, with ten images, and
    warns about the limit. *)
Lemma eleven_uploads_are_cut_to_ten :
  (fun w' => (length <$> (images_of <$> requests w'), ui w', session_state w'))
    (snd (script (calm text_only_response)
            (mk_widgets eleven_uploads "Comedy" true false) keyed_world))
  = ([10],
     [st_sidebar_warning "⚠️ You can upload a maximum of 10 images only!"],
     {["generated_story" := "Once upon a time..."%string]}).
Proof. vm_compute. reflexivity. Qed.

(** ** The temporary file *)

(** When nothing fails, the script plays the container and removes the
    file. *)
Lemma temp_file_is_removed_after_playback :
  fst (audio_run (calm (audio_response one_sample))) = Returned tt
  /\ files (snd (audio_run (calm (audio_response one_sample)))) !! temp_path = None
  /\ ui (snd (audio_run (calm (audio_response one_sample))))
     = [st_audio (wav_header 2 ++ one_sample) "audio/wav";
        st_success "✅ Audio narration generated successfully!"].
Proof. vm_compute. repeat split. Qed.

(** C9 fails on the code: the temporary file is removed on the way of
    success only. When the disk fills up while the container is written,
    [generate_audio_from_generated_story] returns [None] and the empty
    file stays; when the page fails to take the audio, the script
    reports the error and the file stays with the whole container. *)
Theorem temp_file_is_left_behind_when_a_step_fails :
  (fst (audio_run (disk_full (calm (audio_response one_sample)))) = Returned tt
   /\ files (snd (audio_run (disk_full (calm (audio_response one_sample))))) !! temp_path
      = Some []
   /\ ui (snd (audio_run (disk_full (calm (audio_response one_sample)))))
      = [st_error "⚠️ Failed to generate audio. Check the console for details."])
  /\ (fst (audio_run (player_fails (calm (audio_response one_sample)))) = Returned tt
      /\ files (snd (audio_run (player_fails (calm (audio_response one_sample)))))
           !! temp_path
         = Some (wav_header 2 ++ one_sample)).
Proof. vm_compute. repeat split. Qed.

(** The same for every run in which the samples arrive and the file is
    created: when writing the container fails, the file stays with the
    bytes that reached it, and the script goes on to its error message
    without removing it. *)
Lemma temp_file_stays_when_write_fails env client w story response pcm stem e :
  session_state w !! "generated_story" = Some story ->
  service env (speech_request client story) = Returned response ->
  audio_payload response = Some pcm ->
  (Z.of_nat (length pcm) <= max_pcm_length)%Z ->
  NamedTemporaryFile env = Returned stem ->
  write_exn env = Some e ->
  is_Exception e = true ->
  fst (audio_generation env client true w) = Returned tt
  /\ files (snd (audio_generation env client true w)) !! (stem ++ ".wav")%string
     = Some (take (flushed_before_exn env) (wav_header (Z.of_nat (length pcm)) ++ pcm)).
Proof.
  intros Hstory Hservice Hpayload Hb Hcreate Hwrite He.
  unfold audio_payload in Hpayload.
  destruct (candidates response) as [[|candidate ?]|] eqn:Hcandidates; try discriminate.
  destruct (content candidate) as [c|] eqn:Hcontent; try discriminate.
  destruct (parts c) as [[|part ?]|] eqn:Hparts; try discriminate.
  destruct (inline_data part) as [|[blob|]] eqn:Hinline; try discriminate.
  unfold audio_generation, generate_audio_from_generated_story, save_to_temp_file. run_W.
  rewrite Hstory. run_W. fold (speech_request client story).
  rewrite Hservice. run_W. rewrite Hcandidates. run_W. rewrite Hcontent. run_W.
  rewrite Hparts. run_W. rewrite Hinline. run_W. rewrite Hpayload.
  unfold max_pcm_length in Hb. rewrite wrap_in_wav_ok by lia. run_W.
  rewrite Hcreate, Hwrite. run_W. rewrite He. run_W.
  split; [reflexivity|]. apply lookup_insert_eq.
Qed.

(** * More properties *)

Import Page MoreNotions.

(** ** What a step keeps *)

Section Keeps.
Context (I : world -> Prop).

Lemma keeps_ret {A} (a : A) : keeps I (mret a).
Proof. by intros w Hw. Qed.

Lemma keeps_raise {A} e : keeps I (raise (A := A) e).
Proof. by intros w Hw. Qed.

Lemma keeps_lift {A} (o : outcome A) : keeps I (lift o).
Proof. by intros w Hw. Qed.

Lemma keeps_gets {A} (f : world -> A) : keeps I (gets f).
Proof. by intros w Hw. Qed.

Lemma keeps_get : keeps I get.
Proof. by intros w Hw. Qed.

Lemma keeps_modify (f : world -> world) :
  (forall w, I w -> I (f w)) -> keeps I (modify f).
Proof. intros Hf w Hw. by apply Hf. Qed.

Lemma keeps_bind {A B} (m : M world A) (k : A -> M world B) :
  keeps I m -> (forall a, keeps I (k a)) -> keeps I (m ≫= k).
Proof.
  intros Hm Hk w Hw. specialize (Hm w Hw).
  unfold mbind, M_bind. destruct (m w) as [[a|e] w']; cbn [snd] in *; [|assumption].
  by apply Hk.
Qed.

Lemma keeps_try_except_Exception {A} (body : M world A) (handler : exn -> M world A) :
  keeps I body -> (forall e, keeps I (handler e)) ->
  keeps I (try_except_Exception body handler).
Proof.
  intros Hbody Hhandler w Hw. specialize (Hbody w Hw).
  unfold try_except_Exception. destruct (body w) as [[a|e] w']; cbn [snd] in *;
    [assumption|].
  destruct (is_Exception e); [by apply Hhandler | assumption].
Qed.

Lemma keeps_try_except_all {A} (body handler : M world A) :
  keeps I body -> keeps I handler -> keeps I (try_except_all body handler).
Proof.
  intros Hbody Hhandler w Hw. specialize (Hbody w Hw).
  unfold try_except_all. destruct (body w) as [[a|e] w']; cbn [snd] in *;
    [assumption | by apply Hhandler].
Qed.
End Keeps.

Ltac kept :=
  repeat first
    [ apply keeps_gets
    | apply keeps_get
    | apply keeps_ret
    | apply keeps_raise
    | apply keeps_lift
    | (apply keeps_modify; intros ? ?; assumption)
    | (apply keeps_bind; [|intros ?])
    | (apply keeps_try_except_Exception; [|intros ?])
    | apply keeps_try_except_all
    | case_match ].

Ltac unfold_program :=
  unfold script, story_generation, audio_generation, generate_story_from_images,
    generate_audio_from_generated_story, generate_content, save_to_temp_file,
    import_module, load_dotenv, os_getenv, genai_Client, limit_uploaded_images,
    os_path_exists, os_path_getsize, read_file, os_unlink, play, first_item,
    may_raise, say, show, traceback_print_exc.

Lemma open_all_keeps I env uploads : keeps I (open_all env uploads).
Proof.
  induction uploads as [|u uploads IH]; cbn [open_all]; [apply keeps_ret|].
  apply keeps_bind; [apply keeps_lift|]. intros pil_image.
  apply keeps_bind; [exact IH|]. intros pil_images. apply keeps_ret.
Qed.

(** ** Speech synthesis, call by call *)

Ltac run_X :=
  run_W;
  cbn [is_Exception exn_cls TypeError AttributeError IndexError OSError ValueError
         negb andb orb fst snd environ files console clients requests session_state ui
         set_environ set_files set_console set_clients set_requests set_session_state
         set_ui].

(** All the ways through [generate_audio_from_generated_story], each
    with the equations that lead there. *)
Ltac audio_cases env client story_text :=
  unfold generate_audio_from_generated_story, save_to_temp_file; run_X;
  fold (speech_request client story_text);
  destruct (service env (speech_request client story_text)) as [response|e] eqn:Hservice;
  run_X;
  [ destruct (candidates response) as [[|candidate ?]|] eqn:Hcandidates; run_X;
    try (destruct (content candidate) as [c|] eqn:Hcontent; run_X;
         try (destruct (parts c) as [[|part ?]|] eqn:Hparts; run_X;
              try (destruct (inline_data part) as [|[blob|]] eqn:Hinline; run_X;
                   try (destruct (wrap_in_wav (data blob)) as [audio_buffer|e] eqn:Hwrap;
                        run_X;
                        [ destruct (NamedTemporaryFile env) as [stem|e] eqn:Hcreate; run_X;
                          [ destruct (write_exn env) as [e|] eqn:Hwrite; run_X;
                            [ | destruct (flush_exn env) as [e|] eqn:Hflush; run_X;
                                [ | destruct (close_exn env) as [e|] eqn:Hclose; run_X ] ]
                          | ]
                        | rewrite (wrap_in_wav_raises_Exception _ _ Hwrap); run_X ]))))
  | ];
  try (destruct (is_Exception e) eqn:He; run_X).

Lemma generate_audio_requests env client story_text w :
  requests (snd (generate_audio_from_generated_story env client story_text w))
  = requests w ++ [speech_request client story_text].
Proof. audio_cases env client story_text; reflexivity. Qed.

(** X1: every call of [generate_audio_from_generated_story] sends one
    request and no more, whatever comes back: the whole text, for the
    model [gemini-2.5-flash-preview-tts], with the modality [AUDIO] and
    the voice [Kore]. Nothing is sent again after a failure. *)
Theorem one_speech_request_per_call env client story_text w :
  requests (snd (generate_audio_from_generated_story env client story_text w))
  = requests w ++ [mk_request (client_api_key client) "gemini-2.5-flash-preview-tts"
                     [Text story_text] (Some (mk_config ["AUDIO"] "Kore"))].
Proof. apply generate_audio_requests. Qed.

Lemma audio_payload_inv response pcm :
  audio_payload response = Some pcm ->
  exists candidate candidates' c part parts' blob,
    candidates response = Some (candidate :: candidates')
    /\ content candidate = Some c
    /\ parts c = Some (part :: parts')
    /\ inline_data part = Present (Some blob)
    /\ data blob = Some pcm.
Proof.
  unfold audio_payload. intros Hpayload.
  destruct (candidates response) as [[|candidate candidates']|]; try discriminate.
  destruct (content candidate) as [c|] eqn:Hcontent; try discriminate.
  destruct (parts c) as [[|part parts']|] eqn:Hparts; try discriminate.
  destruct (inline_data part) as [|[blob|]] eqn:Hinline; try discriminate.
  by exists candidate, candidates', c, part, parts', blob.
Qed.

Lemma wrap_in_wav_fits audio_data audio_buffer :
  wrap_in_wav audio_data = Returned audio_buffer ->
  exists pcm,
    audio_data = Some pcm
    /\ (Z.of_nat (length pcm) <= max_pcm_length)%Z
    /\ getvalue audio_buffer = wav_header (Z.of_nat (length pcm)) ++ pcm.
Proof.
  destruct audio_data as [pcm|]; [|rewrite wrap_in_wav_None; discriminate].
  intros Hwrap. exists pcm. split; [reflexivity|].
  destruct (Z_le_gt_dec (Z.of_nat (length pcm)) max_pcm_length) as [Hb|Hb].
  - split; [assumption|]. unfold max_pcm_length in Hb.
    rewrite wrap_in_wav_ok in Hwrap by lia. by injection Hwrap as <-.
  - rewrite wrap_in_wav_too_long in Hwrap by lia. discriminate.
Qed.

Lemma save_to_temp_file_cleanly env container w stem :
  saves_cleanly env stem ->
  save_to_temp_file env container w
  = (Returned (temp_name stem),
     set_files (<[temp_name stem := container]> (<[temp_name stem := []]> (files w))) w).
Proof.
  intros (Hcreate & Hwrite & Hflush & Hclose).
  unfold save_to_temp_file. run_W. rewrite Hcreate, Hwrite, Hflush, Hclose. reflexivity.
Qed.

Lemma save_to_temp_file_returns env container w name :
  fst (save_to_temp_file env container w) = Returned name ->
  exists stem, saves_cleanly env stem /\ name = temp_name stem.
Proof.
  unfold save_to_temp_file, saves_cleanly. run_W.
  destruct (NamedTemporaryFile env) as [stem|e]; run_W; [|discriminate].
  destruct (write_exn env) as [e|]; run_W; [discriminate|].
  destruct (flush_exn env) as [e|]; run_W; [discriminate|].
  destruct (close_exn env) as [e|]; run_W; [discriminate|].
  intros [= <-]. by exists stem.
Qed.

Lemma generate_audio_keeps_page env client story_text w :
  session_state (snd (generate_audio_from_generated_story env client story_text w))
  = session_state w
  /\ ui (snd (generate_audio_from_generated_story env client story_text w)) = ui w
  /\ environ (snd (generate_audio_from_generated_story env client story_text w)) = environ w
  /\ clients (snd (generate_audio_from_generated_story env client story_text w)) = clients w.
Proof. audio_cases env client story_text; by repeat split. Qed.

(** The files after a call: as before, or as before but for the
    temporary file. *)
Lemma generate_audio_files env client story_text w :
  files (snd (generate_audio_from_generated_story env client story_text w)) = files w
  \/ exists stem content,
       NamedTemporaryFile env = Returned stem
       /\ files (snd (generate_audio_from_generated_story env client story_text w))
          = <[temp_name stem := content]> (<[temp_name stem := []]> (files w)).
Proof.
  audio_cases env client story_text;
    first [ by left | right; eexists _, _; split; reflexivity ].
Qed.

(** The world after a call that returned a path. *)
Lemma generate_audio_saved env client story_text w response pcm stem :
  service env (speech_request client story_text) = Returned response ->
  audio_payload response = Some pcm ->
  (Z.of_nat (length pcm) <= max_pcm_length)%Z ->
  saves_cleanly env stem ->
  generate_audio_from_generated_story env client story_text w
  = (Returned (Some (temp_name stem)),
     set_files
       (<[temp_name stem := wav_header (Z.of_nat (length pcm)) ++ pcm]>
          (<[temp_name stem := []]> (files w)))
       (set_requests (requests w ++ [speech_request client story_text]) w)).
Proof.
  intros Hservice Hpayload Hb (Hcreate & Hwrite & Hflush & Hclose).
  destruct (audio_payload_inv _ _ Hpayload)
    as (candidate & ? & c & part & ? & blob & Hcandidates & Hcontent & Hparts & Hinline
        & Hdata).
  unfold generate_audio_from_generated_story, save_to_temp_file. run_W.
  fold (speech_request client story_text).
  rewrite Hservice. run_W. rewrite Hcandidates. run_W. rewrite Hcontent. run_W.
  rewrite Hparts. run_W. rewrite Hinline. run_W. rewrite Hdata.
  unfold max_pcm_length in Hb. rewrite wrap_in_wav_ok by lia. run_W.
  rewrite Hcreate, Hwrite, Hflush, Hclose. reflexivity.
Qed.

(** ** The audio block of the page *)

Lemma is_Some_lookup_true (files : gmap string bytes) path content :
  files !! path = Some content -> bool_decide (is_Some (files !! path)) = true.
Proof. intros ->. by apply bool_decide_eq_true_2. Qed.

Lemma is_Some_lookup_false (files : gmap string bytes) path :
  files !! path = None -> bool_decide (is_Some (files !! path)) = false.
Proof. intros ->. apply bool_decide_eq_false_2. by intros [? ?]. Qed.

(** All the ways through the block once the call for the audio is
    over, with [Hgen] for the call. *)
Ltac player_cases env client story w Hstory :=
  unfold audio_generation, os_path_exists, os_path_getsize, read_file, play, os_unlink;
  run_X; rewrite Hstory; run_X;
  destruct (generate_audio_from_generated_story env client story w)
    as [[[path|]|e] w1] eqn:Hgen;
  run_X;
  [ unfold truthy; destruct (String.eqb path "") eqn:Hpath; run_X;
    [ | destruct (files w1 !! path) as [content|] eqn:Hfile;
        [ change (bool_decide (is_Some (Some content))) with true; run_X;
          destruct (getsize_exn env) as [e|] eqn:Hgetsize; run_X;
          [ | rewrite ?Hfile; run_X;
              destruct (read_exn env) as [e|] eqn:Hread; run_X;
              [ | rewrite ?Hfile; run_X;
                  destruct (st_audio_exn env) as [e|] eqn:Hplay; run_X;
                  [ | destruct (unlink_exn env) as [e|] eqn:Hunlink; run_X;
                      [ | rewrite ?Hfile; run_X ] ] ] ]
        | change (bool_decide (is_Some (@None bytes))) with false; run_X ] ]
  | | ];
  try (destruct (is_Exception e) eqn:He; run_X).

Lemma audio_generation_requests env client generate_audio_button w :
  requests (snd (audio_generation env client generate_audio_button w))
  = requests w
    ++ (if generate_audio_button
        then match session_state w !! "generated_story" with
             | Some story => [speech_request client story]
             | None => []
             end
        else []).
Proof.
  destruct generate_audio_button; [|by rewrite app_nil_r].
  destruct (session_state w !! "generated_story") as [story|] eqn:Hstory.
  - pose proof (generate_audio_requests env client story w) as Hreq.
    player_cases env client story w Hstory; cbn [snd] in Hreq; exact Hreq.
  - unfold audio_generation. run_X. rewrite Hstory. run_X. by rewrite app_nil_r.
Qed.

(** *** Names of files *)

Lemma string_length_app (s t : string) :
  String.length (s ++ t) = (String.length s + String.length t)%nat.
Proof.
  induction s as [|c s IH]; [reflexivity|].
  change (S (String.length (s ++ t)) = S (String.length s + String.length t)).
  by rewrite IH.
Qed.

Lemma substring_after (s t : string) n :
  substring (String.length s) n (s ++ t) = substring 0 n t.
Proof.
  induction s as [|c s IH]; [reflexivity|].
  change (substring (String.length s) n (s ++ t) = substring 0 n t). exact IH.
Qed.

Lemma substring_whole (t : string) : substring 0 (String.length t) t = t.
Proof.
  induction t as [|c t IH]; [reflexivity|].
  change (String c (substring 0 (String.length t) t) = String c t). by rewrite IH.
Qed.

Lemma endswith_same_length (s t suffix : string) :
  String.length t = String.length suffix ->
  endswith (s ++ t) suffix = String.eqb t suffix.
Proof.
  intros Hlen. unfold endswith. rewrite string_length_app, <- Hlen.
  replace (String.length s + String.length t - String.length t)%nat
    with (String.length s) by lia.
  rewrite substring_after, substring_whole.
  destruct (Nat.leb_spec (String.length t) (String.length s + String.length t)) as [_|?];
    [reflexivity | lia].
Qed.

Lemma temp_name_is_wav stem :
  endswith (temp_name stem) ".mp3" = false
  /\ endswith (temp_name stem) ".wav" = true
  /\ String.eqb (temp_name stem) "" = false.
Proof.
  unfold temp_name. rewrite !endswith_same_length by reflexivity.
  split; [reflexivity|]. split; [reflexivity|]. by destruct stem.
Qed.

Lemma generate_audio_path_inv env client story_text w name :
  fst (generate_audio_from_generated_story env client story_text w) = Returned (Some name) ->
  exists response pcm stem,
    service env (speech_request client story_text) = Returned response
    /\ audio_payload response = Some pcm
    /\ (Z.of_nat (length pcm) <= max_pcm_length)%Z
    /\ saves_cleanly env stem
    /\ name = temp_name stem.
Proof.
  rewrite generate_audio_result.
  destruct (service env (speech_request client story_text)) as [response|e] eqn:Hservice.
  2:{ destruct (is_Exception e); discriminate. }
  destruct (candidates response) as [[|candidate ?]|] eqn:Hcandidates; try discriminate.
  destruct (content candidate) as [c|] eqn:Hcontent; try discriminate.
  destruct (parts c) as [[|part ?]|] eqn:Hparts; try discriminate.
  destruct (inline_data part) as [|[blob|]] eqn:Hinline; try discriminate.
  destruct (wrap_in_wav (data blob)) as [audio_buffer|e] eqn:Hwrap; try discriminate.
  destruct (wrap_in_wav_fits _ _ Hwrap) as (pcm & Hdata & Hb & _).
  destruct (fst (save_to_temp_file env _ _)) as [name'|e] eqn:Hsave.
  2:{ destruct (is_Exception e); discriminate. }
  intros [= ->].
  destruct (save_to_temp_file_returns _ _ _ _ Hsave) as (stem & Hclean & ->).
  exists response, pcm, stem. split; [reflexivity|]. split; [|done].
  unfold audio_payload. by rewrite Hcandidates, Hcontent, Hparts, Hinline.
Qed.

Lemma generate_audio_returns env client story_text w :
  only_Exceptions env ->
  exists audio_path,
    fst (generate_audio_from_generated_story env client story_text w) = Returned audio_path.
Proof.
  intros (Hservice & Hcreate & Hwrite & Hflush & Hclose).
  specialize (Hservice (speech_request client story_text)).
  rewrite generate_audio_result.
  destruct (service env (speech_request client story_text)) as [response|e].
  2:{ cbn in Hservice. rewrite Hservice. by eexists. }
  destruct (candidates response) as [[|candidate ?]|]; try by eexists.
  destruct (content candidate) as [c|]; try by eexists.
  destruct (parts c) as [[|part ?]|]; try by eexists.
  destruct (inline_data part) as [|[blob|]]; try by eexists.
  destruct (wrap_in_wav (data blob)) as [audio_buffer|e]; try by eexists.
  unfold save_to_temp_file. run_W.
  destruct (NamedTemporaryFile env) as [stem|e]; run_W.
  2:{ cbn in Hcreate. rewrite Hcreate. by eexists. }
  destruct (write_exn env) as [e|]; run_W.
  { cbn in Hwrite. rewrite Hwrite. by eexists. }
  destruct (flush_exn env) as [e|]; run_W.
  { cbn in Hflush. rewrite Hflush. by eexists. }
  destruct (close_exn env) as [e|]; run_W; [|by eexists].
  cbn in Hclose. rewrite Hclose. by eexists.
Qed.

(** X2: [generate_audio_from_generated_story] returns a path exactly
    when the answer of the service carries inline samples, the samples
    fit a WAV container (at most 4294967259 bytes) and the temporary file
    is created, written, flushed and closed without a failure; the path
    is then the name of that file, which ends in [.wav]. In every other
    case a call that returns, returns [None]. *)
Theorem path_returned_exactly_when_saved env client story_text w name :
  fst (generate_audio_from_generated_story env client story_text w) = Returned (Some name)
  <-> exists response pcm stem,
        service env (speech_request client story_text) = Returned response
        /\ audio_payload response = Some pcm
        /\ (Z.of_nat (length pcm) <= max_pcm_length)%Z
        /\ saves_cleanly env stem
        /\ name = temp_name stem.
Proof.
  split; [apply generate_audio_path_inv|].
  rewrite generate_audio_result.
  intros (response & pcm & stem & -> & Hpayload & Hb & Hclean & ->).
  destruct (audio_payload_inv _ _ Hpayload)
    as (candidate & ? & c & part & ? & blob & -> & -> & -> & -> & ->).
  unfold max_pcm_length in Hb. rewrite wrap_in_wav_ok by lia.
  by rewrite (save_to_temp_file_cleanly _ _ _ stem Hclean).
Qed.


(** X3: when the audio button is pressed, the block sends one request if
    the session holds a story, for exactly that story, and none if it
    holds no story; without the button it sends nothing. *)
Theorem audio_block_sends_the_stored_story env client generate_audio_button w :
  requests (snd (audio_generation env client generate_audio_button w))
  = requests w
    ++ (if generate_audio_button
        then match session_state w !! "generated_story" with
             | Some story =>
                 [mk_request (client_api_key client) model_name_2 [Text story]
                    (Some (mk_config ["AUDIO"] "Kore"))]
             | None => []
             end
        else []).
Proof. apply audio_generation_requests. Qed.

Lemma audio_generation_after_saving env client w story response pcm stem :
  session_state w !! "generated_story" = Some story ->
  service env (speech_request client story) = Returned response ->
  audio_payload response = Some pcm ->
  (Z.of_nat (length pcm) <= max_pcm_length)%Z ->
  saves_cleanly env stem ->
  plays_cleanly env ->
  audio_generation env client true w
  = let container := wav_header (Z.of_nat (length pcm)) ++ pcm in
    let saved := <[temp_name stem := container]> (<[temp_name stem := []]> (files w)) in
    let played :=
      set_ui (ui w ++ [st_audio container "audio/wav";
                       st_success "✅ Audio narration generated successfully!"])
        (set_files saved (set_requests (requests w ++ [speech_request client story]) w)) in
    (Returned tt,
     match unlink_exn env with
     | Some _ => played
     | None => set_files (delete (temp_name stem) saved) played
     end).
Proof.
  intros Hstory Hservice Hpayload Hb Hsave (Hgetsize & Hread & Hplay).
  destruct (temp_name_is_wav stem) as (Hmp3 & Hwav & Hname).
  unfold audio_generation, os_path_exists, os_path_getsize, read_file, play, os_unlink.
  run_X. rewrite Hstory. run_X.
  rewrite (generate_audio_saved env client story w response pcm stem) by assumption.
  run_X. unfold truthy. rewrite Hname. run_X.
  rewrite lookup_insert_eq.
  change (bool_decide (is_Some (Some ?c))) with true. run_X.
  rewrite Hgetsize. run_X. rewrite lookup_insert_eq. run_X.
  rewrite Hread. run_X. rewrite lookup_insert_eq. run_X.
  rewrite Hplay, Hmp3, Hwav. run_X. rewrite <- app_assoc. cbn [app].
  destruct (unlink_exn env) as [e|]; run_X; [reflexivity|].
  rewrite lookup_insert_eq. reflexivity.
Qed.

(** X4: on the way of success (a story in the session, an answer with
    inline samples that fit a container, and no failure while the file is
    saved, read, played and removed) the audio block plays exactly the
    WAV container of the samples received, as ["audio/wav"], reports the
    success, and leaves no temporary file behind; the other files are as
    they were. *)
Theorem audio_is_played_and_file_removed env client w story response pcm stem :
  session_state w !! "generated_story" = Some story ->
  service env (speech_request client story) = Returned response ->
  audio_payload response = Some pcm ->
  (Z.of_nat (length pcm) <= max_pcm_length)%Z ->
  saves_cleanly env stem ->
  plays_cleanly env ->
  unlink_exn env = None ->
  fst (audio_generation env client true w) = Returned tt
  /\ ui (snd (audio_generation env client true w))
     = ui w ++ [st_audio (wav_header (Z.of_nat (length pcm)) ++ pcm) "audio/wav";
                st_success "✅ Audio narration generated successfully!"]
  /\ encode pcm = Returned (wav_header (Z.of_nat (length pcm)) ++ pcm)
  /\ files (snd (audio_generation env client true w)) !! temp_name stem = None
  /\ forall path, path <> temp_name stem ->
       files (snd (audio_generation env client true w)) !! path = files w !! path.
Proof.
  intros Hstory Hservice Hpayload Hb Hsave Hplay Hunlink.
  rewrite (audio_generation_after_saving env client w story response pcm stem)
    by assumption.
  rewrite Hunlink. cbv zeta. cbn [fst snd ui files set_ui set_files].
  split; [reflexivity|]. split; [reflexivity|]. split; [by apply encode_ok|].
  split; [apply lookup_delete_eq|].
  intros path Hpath. by rewrite lookup_delete_ne, !lookup_insert_ne.
Qed.

Lemma audio_is_played_and_file_removed_witness :
  fst (audio_generation (calm (audio_response one_sample)) a_client true world_with_story)
  = Returned tt
  /\ files (snd (audio_generation (calm (audio_response one_sample)) a_client true
                   world_with_story)) !! temp_name "/tmp/tmpa1b2c3" = None.
Proof.
  pose proof (audio_is_played_and_file_removed (calm (audio_response one_sample)) a_client
                world_with_story "Hello world" (audio_response one_sample) one_sample
                "/tmp/tmpa1b2c3") as H.
  destruct H as (Hreturned & _ & _ & Hremoved & _).
  - reflexivity.
  - reflexivity.
  - reflexivity.
  - vm_compute. discriminate.
  - repeat split.
  - repeat split.
  - reflexivity.
  - split; [exact Hreturned | exact Hremoved].
Defined.

(** X5: a failure of [os.unlink] is silent. With everything else as on
    the way of success, the block still returns, the page shows the
    player and the message of success and no error, and the temporary
    file stays on the disk with the whole container; this holds for any
    exception, as the clause is a bare [except]. *)
Theorem failed_unlink_is_silent env client w story response pcm stem e :
  session_state w !! "generated_story" = Some story ->
  service env (speech_request client story) = Returned response ->
  audio_payload response = Some pcm ->
  (Z.of_nat (length pcm) <= max_pcm_length)%Z ->
  saves_cleanly env stem ->
  plays_cleanly env ->
  unlink_exn env = Some e ->
  fst (audio_generation env client true w) = Returned tt
  /\ ui (snd (audio_generation env client true w))
     = ui w ++ [st_audio (wav_header (Z.of_nat (length pcm)) ++ pcm) "audio/wav";
                st_success "✅ Audio narration generated successfully!"]
  /\ files (snd (audio_generation env client true w)) !! temp_name stem
     = Some (wav_header (Z.of_nat (length pcm)) ++ pcm).
Proof.
  intros Hstory Hservice Hpayload Hb Hsave Hplay Hunlink.
  rewrite (audio_generation_after_saving env client w story response pcm stem)
    by assumption.
  rewrite Hunlink. cbv zeta. cbn [fst snd ui files set_ui set_files].
  split; [reflexivity|]. split; [reflexivity|]. apply lookup_insert_eq.
Qed.

Lemma failed_unlink_is_silent_witness :
  fst (audio_generation (unlink_refused (calm (audio_response one_sample))) a_client true
         world_with_story) = Returned tt
  /\ files (snd (audio_generation (unlink_refused (calm (audio_response one_sample)))
                   a_client true world_with_story)) !! temp_name "/tmp/tmpa1b2c3"
     = Some (wav_header (Z.of_nat (length one_sample)) ++ one_sample).
Proof.
  pose proof (failed_unlink_is_silent (unlink_refused (calm (audio_response one_sample)))
                a_client world_with_story "Hello world" (audio_response one_sample)
                one_sample "/tmp/tmpa1b2c3" (OSError "[Errno 13] Permission denied")) as H.
  destruct H as (Hreturned & _ & Hstays).
  - reflexivity.
  - reflexivity.
  - reflexivity.
  - vm_compute. discriminate.
  - repeat split.
  - repeat split.
  - reflexivity.
  - split; [exact Hreturned | exact Hstays].
Defined.

(** *** What the blocks leave alone *)

Ltac kept_by :=
  repeat first
    [ apply keeps_gets
    | apply keeps_get
    | apply keeps_ret
    | apply keeps_raise
    | apply keeps_lift
    | (apply keeps_modify; intros ? ?; by eauto)
    | (apply keeps_bind; [|intros ?])
    | (apply keeps_try_except_Exception; [|intros ?])
    | apply keeps_try_except_all
    | case_match ].

Section KeepsOfTheProgram.
Context (I : world -> Prop) (env : environment).

Lemma generate_audio_keeps client story_text :
  (forall w v, I w -> I (set_requests v w)) ->
  (forall w v, I w -> I (set_console v w)) ->
  (forall w v, I w -> I (set_files v w)) ->
  keeps I (generate_audio_from_generated_story env client story_text).
Proof. intros Hrequests Hconsole Hfiles. unfold_program. kept_by. Qed.

Lemma audio_generation_keeps client generate_audio_button :
  (forall w v, I w -> I (set_requests v w)) ->
  (forall w v, I w -> I (set_console v w)) ->
  (forall w v, I w -> I (set_files v w)) ->
  (forall w v, I w -> I (set_ui v w)) ->
  keeps I (audio_generation env client generate_audio_button).
Proof.
  intros Hrequests Hconsole Hfiles Hui. unfold audio_generation.
  destruct generate_audio_button; [|apply keeps_ret].
  apply keeps_bind; [apply keeps_get|]. intros w0.
  destruct (session_state w0 !! "generated_story") as [story|];
    [|unfold show; kept_by].
  apply keeps_try_except_Exception; [|intros e; unfold show; kept_by].
  apply keeps_bind; [by apply generate_audio_keeps|]. intros audio_path.
  unfold os_path_exists, os_path_getsize, read_file, play, os_unlink, may_raise, show.
  kept_by.
Qed.

Lemma story_generation_keeps client uploads story_type generate_button :
  (forall w v, I w -> I (set_requests v w)) ->
  (forall w v, I w -> I (set_ui v w)) ->
  (forall w story, story <> ""%string -> I w ->
     I (set_session_state (<["generated_story" := story]> (session_state w)) w)) ->
  keeps I (story_generation env client uploads story_type generate_button).
Proof.
  intros Hrequests Hui Hstore. unfold story_generation.
  destruct generate_button; [|apply keeps_ret].
  destruct (is_empty uploads); [unfold show; kept_by|].
  apply keeps_try_except_Exception; [|intros e; unfold show; kept_by].
  apply keeps_bind; [apply open_all_keeps|]. intros pil_images.
  apply keeps_bind;
    [unfold generate_story_from_images, generate_content; kept_by|].
  intros [story|]; [|unfold show; kept_by].
  unfold truthy. destruct (String.eqb_spec story "") as [->|Hstory]; cbn [negb];
    [unfold show; kept_by|].
  apply keeps_modify. intros w Hw. by apply Hstore.
Qed.

Lemma script_keeps input :
  (forall w v, I w -> I (set_environ v w)) ->
  (forall w v, I w -> I (set_clients v w)) ->
  (forall w v, I w -> I (set_requests v w)) ->
  (forall w v, I w -> I (set_console v w)) ->
  (forall w v, I w -> I (set_files v w)) ->
  (forall w v, I w -> I (set_ui v w)) ->
  (forall w story, story <> ""%string -> I w ->
     I (set_session_state (<["generated_story" := story]> (session_state w)) w)) ->
  keeps I (script env input).
Proof.
  intros Henviron Hclients Hrequests Hconsole Hfiles Hui Hstore. unfold script.
  apply keeps_bind;
    [unfold import_module, load_dotenv, os_getenv, genai_Client; kept_by|].
  intros client.
  apply keeps_bind; [unfold limit_uploaded_images, show; kept_by|].
  intros limited.
  apply keeps_bind; [by apply story_generation_keeps|]. intros _.
  by apply audio_generation_keeps.
Qed.
End KeepsOfTheProgram.

(** X6: the audio block never changes the session, the environment
    variables or the clients: whatever happens to the request and to the
    file, the story stays in the session for another try. *)
Theorem audio_block_keeps_the_session env client generate_audio_button w :
  session_state (snd (audio_generation env client generate_audio_button w))
  = session_state w
  /\ environ (snd (audio_generation env client generate_audio_button w)) = environ w
  /\ clients (snd (audio_generation env client generate_audio_button w)) = clients w.
Proof.
  by apply (audio_generation_keeps
              (fun w' => session_state w' = session_state w
                         /\ environ w' = environ w /\ clients w' = clients w)).
Qed.


(** X8: the session never comes to hold an empty story: a run of the
    script stores a story only when the service returned a text that is
    not empty, and nothing else writes to the session. *)
Theorem session_never_holds_an_empty_story env input w :
  stored_story_is_nonempty w ->
  stored_story_is_nonempty (snd (script env input w)).
Proof.
  apply (script_keeps stored_story_is_nonempty); try by intros.
  intros w0 story Hstory _. unfold stored_story_is_nonempty. cbn.
  rewrite lookup_insert_eq. by intros [= ->].
Qed.

Lemma session_never_holds_an_empty_story_witness :
  stored_story_is_nonempty
    (snd (script (calm text_only_response)
            (mk_widgets three_uploads "Comedy" true false) keyed_world)).
Proof.
  apply (session_never_holds_an_empty_story (calm text_only_response)
           (mk_widgets three_uploads "Comedy" true false) keyed_world).
  unfold stored_story_is_nonempty. vm_compute. discriminate.
Defined.

(** X9: the audio block touches no file but the temporary file of the
    call: a path that is not the name given by [NamedTemporaryFile]
    holds after the block what it held before, on every way through the
    block. *)
Theorem audio_block_touches_only_its_temp_file env client generate_audio_button w other :
  (forall stem, NamedTemporaryFile env = Returned stem -> other <> temp_name stem) ->
  files (snd (audio_generation env client generate_audio_button w)) !! other
  = files w !! other.
Proof.
  intros Hother.
  destruct generate_audio_button; [|reflexivity].
  destruct (session_state w !! "generated_story") as [story|] eqn:Hstory.
  2:{ unfold audio_generation. run_X. by rewrite Hstory. }
  assert (Hsaved : files (snd (generate_audio_from_generated_story env client story w))
                     !! other = files w !! other).
  { destruct (generate_audio_files env client story w)
      as [-> | (stem & content & Hcreate & ->)]; [reflexivity|].
    by rewrite !lookup_insert_ne by (symmetry; by apply Hother). }
  pose proof (generate_audio_path_inv env client story w) as Hinv.
  player_cases env client story w Hstory; cbn [fst snd] in Hsaved, Hinv; try exact Hsaved.
  destruct (Hinv path eq_refl) as (? & ? & stem & _ & _ & _ & (Hcreate & _) & ->).
  by rewrite lookup_delete_ne by (symmetry; by apply Hother).
Qed.

Lemma audio_block_touches_only_its_temp_file_witness :
  files (snd (audio_generation (calm (audio_response one_sample)) a_client true
                world_with_story)) !! "/etc/hosts"%string
  = files world_with_story !! "/etc/hosts"%string.
Proof.
  apply (audio_block_touches_only_its_temp_file (calm (audio_response one_sample))
           a_client true world_with_story "/etc/hosts").
  intros stem [= <-]. discriminate.
Defined.

(** X10: whenever the audio block draws a player, it gives it the format
    ["audio/wav"]: the path comes from a temporary file with the suffix
    [.wav], so the branch for [.mp3] is never taken. *)
Theorem audio_is_always_played_as_wav env client generate_audio_button w :
  exists new,
    ui (snd (audio_generation env client generate_audio_button w)) = ui w ++ new
    /\ Forall plays_as_wav new.
Proof.
  destruct generate_audio_button; [|exists []; by rewrite app_nil_r].
  destruct (session_state w !! "generated_story") as [story|] eqn:Hstory.
  2:{ unfold audio_generation. run_X. rewrite Hstory. run_X.
      eexists. split; [reflexivity|]. by repeat constructor. }
  pose proof (generate_audio_keeps_page env client story w) as (_ & Hui & _).
  pose proof (generate_audio_path_inv env client story w) as Hinv.
  player_cases env client story w Hstory; cbn [fst snd] in Hui, Hinv;
    rewrite ?Hui, <- ?app_assoc;
    try (eexists; split; [reflexivity|]; by repeat constructor);
    try (exists []; by rewrite app_nil_r).
  all: destruct (Hinv path eq_refl) as (? & ? & stem & _ & _ & _ & _ & ->);
    destruct (temp_name_is_wav stem) as (Hmp3 & Hwav & _); rewrite Hmp3, Hwav;
    eexists; split; [reflexivity|]; by repeat constructor.
Qed.

(** X11: when every failure of the environment is an exception that
    derives from [Exception], pressing the audio button always gets an
    answer on the page: the block returns, and it has drawn at least one
    thing, a warning, an error, or the player with the message of
    success. *)
Theorem audio_button_always_gets_an_answer env client w :
  page_raises_only_Exception env ->
  fst (audio_generation env client true w) = Returned tt
  /\ exists ev rest, ui (snd (audio_generation env client true w)) = ui w ++ ev :: rest.
Proof.
  intros (Henv & _ & Hgetsize' & Hread' & Hplay').
  destruct (session_state w !! "generated_story") as [story|] eqn:Hstory.
  2:{ unfold audio_generation. run_X. rewrite Hstory. run_X.
      split; [reflexivity|]. by eexists _, _. }
  pose proof (generate_audio_keeps_page env client story w) as (_ & Hui & _).
  destruct (generate_audio_returns env client story w Henv) as [audio_path Hreturns].
  player_cases env client story w Hstory; cbn [fst snd] in Hui, Hreturns;
    try discriminate;
    rewrite ?Hui, <- ?app_assoc;
    try (split; [reflexivity|]; by eexists _, _).
  all: cbn in Hgetsize', Hread', Hplay'; congruence.
Qed.

Lemma audio_button_always_gets_an_answer_witness :
  fst (audio_generation (disk_full (calm (audio_response one_sample))) a_client true
         world_with_story) = Returned tt
  /\ exists ev rest,
       ui (snd (audio_generation (disk_full (calm (audio_response one_sample))) a_client
                  true world_with_story))
       = ui world_with_story ++ ev :: rest.
Proof.
  apply (audio_button_always_gets_an_answer (disk_full (calm (audio_response one_sample)))
           a_client world_with_story).
  repeat split; intros; exact I.
Defined.

(** ** The story block of the page *)

Lemma open_all_opens env uploads images w :
  opens env uploads images -> open_all env uploads w = (Returned images, w).
Proof.
  intros Hopens. revert w.
  induction Hopens as [|u i uploads images Hu _ IH]; intros w; cbn [open_all];
    [reflexivity|].
  run_W. rewrite Hu. run_W. rewrite IH. by run_W.
Qed.

Lemma open_all_cases env uploads w :
  (exists images, opens env uploads images
                  /\ open_all env uploads w = (Returned images, w))
  \/ (exists u e, u ∈ uploads /\ Image_open env u = Raised e
                  /\ open_all env uploads w = (Raised e, w)).
Proof.
  induction uploads as [|u uploads IH]; cbn [open_all].
  - left. exists []. split; [constructor | reflexivity].
  - run_W. destruct (Image_open env u) as [i|e] eqn:Hu; run_W.
    + destruct IH as [(images & Hopens & ->) | (u' & e & Hin & Hu' & ->)]; run_W.
      * left. exists (i :: images). split; [by constructor | reflexivity].
      * right. exists u', e. split; [by constructor|]. by split.
    + right. exists u, e. split; [by constructor|]. by split.
Qed.

Lemma opens_unique env uploads images images' :
  opens env uploads images -> opens env uploads images' -> images = images'.
Proof.
  intros Hopens. revert images'.
  induction Hopens as [|u i uploads images Hu _ IH]; intros images' Hopens';
    inversion Hopens' as [|? i' ? images'' Hu' Hrest]; subst; [reflexivity|].
  rewrite Hu in Hu'. injection Hu' as <-. f_equal. by apply IH.
Qed.

Lemma opens_fails env uploads images u e :
  opens env uploads images -> u ∈ uploads -> Image_open env u = Raised e -> False.
Proof.
  intros Hopens Hin Hu. unfold opens in Hopens.
  apply (Forall2_Forall_l _ (fun u => exists i, Image_open env u = Returned i)) in Hopens.
  - rewrite Forall_forall in Hopens. destruct (Hopens u Hin) as [i Hi]. congruence.
  - apply Forall_true. intros i u' Hu'. by exists i.
Qed.

(** The story block as far as the answer of the service, when every
    upload opens. *)
Ltac story_cases env client uploads images story_type Hopens :=
  unfold story_generation, generate_story_from_images, generate_content, show;
  destruct uploads as [|first_upload more_uploads]; [done|];
  cbn [is_empty]; run_X;
  rewrite (open_all_opens env _ images _ Hopens); run_X;
  fold (story_request client images story_type).

(** X12: when every upload opens and the service answers the request
    with a text that is not empty, the story block sends that one
    request, with all the images in the order of the uploads and the
    prompt of the genre, stores the text under ["generated_story"], and
    shows neither a warning nor an error. *)
Theorem story_is_stored_when_the_service_answers
    env client uploads images story_type response story w :
  uploads <> [] ->
  opens env uploads images ->
  service env (story_request client images story_type) = Returned response ->
  text response = Some story ->
  story <> ""%string ->
  story_generation env client uploads story_type true w
  = (Returned tt,
     set_session_state (<["generated_story" := story]> (session_state w))
       (sent (story_request client images story_type) w)).
Proof.
  intros Hsome Hopens Hservice Htext Hstory.
  story_cases env client uploads images story_type Hopens.
  rewrite Hservice. run_X. rewrite Htext. unfold truthy.
  destruct (String.eqb_spec story "") as [?|_]; [done|]. by run_X.
Qed.

Lemma story_is_stored_when_the_service_answers_witness :
  story_generation (calm text_only_response) a_client three_uploads "Comedy" true
    keyed_world
  = (Returned tt,
     set_session_state
       (<["generated_story" := "Once upon a time..."%string]> (session_state keyed_world))
       (sent (story_request a_client (mk_image <$> three_uploads) "Comedy") keyed_world)).
Proof.
  apply (story_is_stored_when_the_service_answers (calm text_only_response) a_client
           three_uploads (mk_image <$> three_uploads) "Comedy" text_only_response
           "Once upon a time..." keyed_world).
  - discriminate.
  - repeat constructor.
  - reflexivity.
  - reflexivity.
  - discriminate.
Defined.

(** X13: when the service answers without a text, or with an empty one,
    the story block says that no story was generated and stores
    nothing: a story of an earlier run stays in the session. *)
Theorem empty_answer_is_reported_and_not_stored
    env client uploads images story_type response w :
  uploads <> [] ->
  opens env uploads images ->
  service env (story_request client images story_type) = Returned response ->
  text response = None \/ text response = Some ""%string ->
  story_generation env client uploads story_type true w
  = (Returned tt,
     set_ui (ui w ++ [st_error "⚠️ No story generated. Please try again."])
       (sent (story_request client images story_type) w)).
Proof.
  intros Hsome Hopens Hservice Htext.
  story_cases env client uploads images story_type Hopens.
  rewrite Hservice. run_X. by destruct Htext as [-> | ->].
Qed.

Lemma empty_answer_is_reported_and_not_stored_witness :
  story_generation (calm (audio_response one_sample)) a_client three_uploads "Comedy" true
    world_with_story
  = (Returned tt,
     set_ui (ui world_with_story
               ++ [st_error "⚠️ No story generated. Please try again."])
       (sent (story_request a_client (mk_image <$> three_uploads) "Comedy")
          world_with_story)).
Proof.
  apply (empty_answer_is_reported_and_not_stored (calm (audio_response one_sample))
           a_client three_uploads (mk_image <$> three_uploads) "Comedy"
           (audio_response one_sample) world_with_story).
  - discriminate.
  - repeat constructor.
  - reflexivity.
  - by left.
Defined.

(** X14: when the call to the service raises an exception that derives
    from [Exception], the story block shows its message on the page and
    returns; the request was sent, and the session is as before. *)
Theorem failed_story_request_is_shown_on_the_page
    env client uploads images story_type e w :
  uploads <> [] ->
  opens env uploads images ->
  service env (story_request client images story_type) = Raised e ->
  is_Exception e = true ->
  story_generation env client uploads story_type true w
  = (Returned tt,
     set_ui (ui w ++ [st_error ("❌ An error occurred during story generation:"
                                  ++ nl ++ nl ++ "**" ++ exn_str e ++ "**")])
       (sent (story_request client images story_type) w)).
Proof.
  intros Hsome Hopens Hservice He.
  story_cases env client uploads images story_type Hopens.
  rewrite Hservice. run_X. rewrite He. by run_X.
Qed.

Lemma failed_story_request_is_shown_on_the_page_witness :
  story_generation (with_service (calm text_only_response)
                      (fun _ => Raised connection_error))
    a_client three_uploads "Comedy" true keyed_world
  = (Returned tt,
     set_ui (ui keyed_world
               ++ [st_error ("❌ An error occurred during story generation:"
                               ++ nl ++ nl ++ "**" ++ exn_str connection_error ++ "**")])
       (sent (story_request a_client (mk_image <$> three_uploads) "Comedy") keyed_world)).
Proof.
  apply (failed_story_request_is_shown_on_the_page
           (with_service (calm text_only_response) (fun _ => Raised connection_error))
           a_client three_uploads (mk_image <$> three_uploads) "Comedy" connection_error
           keyed_world).
  - discriminate.
  - repeat constructor.
  - reflexivity.
  - reflexivity.
Defined.

(** The requests of the story block: none, or the one for the story
    with the images of all the uploads. *)
Lemma story_generation_requests env client uploads story_type generate_button w :
  requests (snd (story_generation env client uploads story_type generate_button w))
  = requests w
  \/ exists images,
       opens env uploads images
       /\ requests (snd (story_generation env client uploads story_type generate_button w))
          = requests w ++ [story_request client images story_type].
Proof.
  destruct generate_button; [|by left].
  destruct uploads as [|first_upload more_uploads]; [by left|].
  destruct (open_all_cases env (first_upload :: more_uploads) w)
    as [(images & Hopens & Hopen) | (u & e & _ & _ & Hopen)].
  - right. exists images. split; [assumption|].
    unfold story_generation, generate_story_from_images, generate_content, show.
    cbn [is_empty]. run_X. rewrite Hopen. run_X.
    fold (story_request client images story_type).
    destruct (service env (story_request client images story_type)) as [response|e];
      run_X.
    + destruct (text response) as [story|]; [|by run_X].
      destruct (truthy (Some story)); by run_X.
    + destruct (is_Exception e); by run_X.
  - left. unfold story_generation. cbn [is_empty]. run_X. rewrite Hopen. run_X.
    destruct (is_Exception e); by run_X.
Qed.

(** X15: one upload that does not open stops the story: the block
    sends no request, whatever the other uploads are, and the session is
    as before. *)
Theorem broken_image_stops_the_story_before_any_request
    env client uploads story_type generate_button u e w :
  u ∈ uploads ->
  Image_open env u = Raised e ->
  requests (snd (story_generation env client uploads story_type generate_button w))
  = requests w
  /\ session_state (snd (story_generation env client uploads story_type generate_button w))
     = session_state w.
Proof.
  intros Hin Hu.
  destruct generate_button; [|by split].
  destruct uploads as [|first_upload more_uploads]; [by split|].
  destruct (open_all_cases env (first_upload :: more_uploads) w)
    as [(images & Hopens & _) | (u' & e' & _ & _ & Hopen)].
  - by destruct (opens_fails env _ images u e Hopens Hin Hu).
  - unfold story_generation. cbn [is_empty]. run_X. rewrite Hopen. run_X.
    destruct (is_Exception e'); by run_X.
Qed.

Lemma broken_image_stops_the_story_before_any_request_witness :
  requests (snd (story_generation (no_image_opens (calm text_only_response)) a_client
                   three_uploads "Comedy" true keyed_world))
  = requests keyed_world
  /\ session_state (snd (story_generation (no_image_opens (calm text_only_response))
                           a_client three_uploads "Comedy" true keyed_world))
     = session_state keyed_world.
Proof.
  apply (broken_image_stops_the_story_before_any_request
           (no_image_opens (calm text_only_response)) a_client three_uploads "Comedy" true
           (mk_upload "b.png" []) (mk_exn (Exception_subclass "UnidentifiedImageError")
                                     "cannot identify image file") keyed_world).
  - unfold three_uploads. by repeat constructor.
  - reflexivity.
Defined.

(** X16: when every failure of the environment is an exception that
    derives from [Exception], pressing the story button always gets an
    answer: the block returns, and either it has drawn one message and
    left the session as it was, or it has drawn nothing and stored a
    story that is not empty. *)
Theorem story_button_always_gets_an_answer env client uploads story_type w :
  (forall u, raises_only_Exception (outcome_exn (Image_open env u))) ->
  (forall req, raises_only_Exception (outcome_exn (service env req))) ->
  fst (story_generation env client uploads story_type true w) = Returned tt
  /\ ((exists ev,
         ui (snd (story_generation env client uploads story_type true w)) = ui w ++ [ev]
         /\ session_state (snd (story_generation env client uploads story_type true w))
            = session_state w)
      \/ (exists story,
            story <> ""%string
            /\ ui (snd (story_generation env client uploads story_type true w)) = ui w
            /\ session_state (snd (story_generation env client uploads story_type true w))
               = <["generated_story" := story]> (session_state w))).
Proof.
  intros Himages Hservice.
  destruct uploads as [|first_upload more_uploads].
  { split; [reflexivity|]. left. by eexists. }
  destruct (open_all_cases env (first_upload :: more_uploads) w)
    as [(images & Hopens & Hopen) | (u & e & _ & Hu & Hopen)];
    unfold story_generation, generate_story_from_images, generate_content, show;
    cbn [is_empty]; run_X; rewrite Hopen; run_X.
  - fold (story_request client images story_type).
    specialize (Hservice (story_request client images story_type)).
    destruct (service env (story_request client images story_type)) as [response|e];
      run_X.
    + destruct (text response) as [story|]; run_X;
        [|split; [reflexivity|]; left; by eexists].
      unfold truthy. destruct (String.eqb_spec story "") as [->|Hstory]; run_X.
      * split; [reflexivity|]. left. by eexists.
      * split; [reflexivity|]. right. by exists story.
    + cbn in Hservice. rewrite Hservice. run_X.
      split; [reflexivity|]. left. by eexists.
  - specialize (Himages u). rewrite Hu in Himages. cbn in Himages. rewrite Himages.
    run_X. split; [reflexivity|]. left. by eexists.
Qed.

Lemma story_button_always_gets_an_answer_witness :
  fst (story_generation (no_image_opens (calm text_only_response)) a_client three_uploads
         "Comedy" true keyed_world) = Returned tt
  /\ ((exists ev,
         ui (snd (story_generation (no_image_opens (calm text_only_response)) a_client
                    three_uploads "Comedy" true keyed_world)) = ui keyed_world ++ [ev]
         /\ session_state (snd (story_generation (no_image_opens (calm text_only_response))
                                  a_client three_uploads "Comedy" true keyed_world))
            = session_state keyed_world)
      \/ (exists story,
            story <> ""%string
            /\ ui (snd (story_generation (no_image_opens (calm text_only_response)) a_client
                          three_uploads "Comedy" true keyed_world)) = ui keyed_world
            /\ session_state (snd (story_generation
                                     (no_image_opens (calm text_only_response)) a_client
                                     three_uploads "Comedy" true keyed_world))
               = <["generated_story" := story]> (session_state keyed_world))).
Proof.
  apply (story_button_always_gets_an_answer (no_image_opens (calm text_only_response))
           a_client three_uploads "Comedy" keyed_world).
  - intros u. reflexivity.
  - intros req. exact I.
Defined.

(** X17: the narration speaks the story that was generated: when the
    story block has stored the answer of the service, the audio block
    that runs after it, in the same run or in a later one, asks for the
    speech of exactly that text. *)
Theorem narration_speaks_the_generated_story
    env client uploads images story_type response story w :
  uploads <> [] ->
  opens env uploads images ->
  service env (story_request client images story_type) = Returned response ->
  text response = Some story ->
  story <> ""%string ->
  requests (snd (audio_generation env client true
                   (snd (story_generation env client uploads story_type true w))))
  = requests w ++ [story_request client images story_type; speech_request client story].
Proof.
  intros Hsome Hopens Hservice Htext Hstory.
  rewrite audio_generation_requests.
  story_cases env client uploads images story_type Hopens.
  rewrite Hservice. run_X. rewrite Htext. unfold truthy.
  destruct (String.eqb_spec story "") as [?|_]; [done|]. run_X.
  rewrite lookup_insert_eq. by rewrite <- app_assoc.
Qed.

Lemma narration_speaks_the_generated_story_witness :
  requests (snd (audio_generation (calm text_only_response) a_client true
                   (snd (story_generation (calm text_only_response) a_client three_uploads
                           "Comedy" true keyed_world))))
  = requests keyed_world
    ++ [story_request a_client (mk_image <$> three_uploads) "Comedy";
        speech_request a_client "Once upon a time..."].
Proof.
  apply (narration_speaks_the_generated_story (calm text_only_response) a_client
           three_uploads (mk_image <$> three_uploads) "Comedy" text_only_response
           "Once upon a time..." keyed_world).
  - discriminate.
  - repeat constructor.
  - reflexivity.
  - reflexivity.
  - discriminate.
Defined.

(** ** A run of the script *)

(** X18: a variable of the process wins over the [.env] file, even
    when it is empty: the import uses the value of [GOOGLE_API_KEY] in
    the process if there is one, and the value of the file only if there
    is none; an empty variable of the process makes the import fail
    although the file has a key. *)
Theorem process_environment_wins_over_dotenv env w :
  fst (import_module env w)
  = client_for (match environ w !! "GOOGLE_API_KEY" with
                | Some value => Some value
                | None => dotenv env !! "GOOGLE_API_KEY"
                end).
Proof.
  assert (Hkey : (environ w ∪ dotenv env) !! "GOOGLE_API_KEY"
                 = match environ w !! "GOOGLE_API_KEY" with
                   | Some value => Some value
                   | None => dotenv env !! "GOOGLE_API_KEY"
                   end).
  { rewrite lookup_union. by destruct (environ w !! "GOOGLE_API_KEY"),
      (dotenv env !! "GOOGLE_API_KEY"). }
  rewrite <- Hkey. unfold client_for.
  destruct ((environ w ∪ dotenv env) !! "GOOGLE_API_KEY") as [key|] eqn:Hfound.
  - destruct (String.eqb_spec key "") as [->|Hne].
    + by rewrite import_module_without_key by by right.
    + by rewrite (import_module_with_key env w key).
  - by rewrite import_module_without_key by by left.
Qed.

Lemma limit_uploaded_images_result uploads w :
  exists w',
    limit_uploaded_images uploads w = (Returned (take 10 uploads), w')
    /\ requests w' = requests w.
Proof.
  unfold limit_uploaded_images.
  destruct (negb (is_empty uploads) && (10 <? length uploads)%nat) eqn:Hmany; run_X.
  - by eexists.
  - exists w. split; [|reflexivity]. rewrite take_ge; [reflexivity|].
    destruct uploads as [|u uploads]; cbn [length]; [lia|].
    cbn [is_empty negb andb] in Hmany. apply Nat.ltb_ge in Hmany. exact Hmany.
Qed.

(** X19: with a key configured, a run of the script sends at most two
    requests, both with the configured key: first, if any, the request
    for the story, with the images of the first ten uploads, then, if
    any, the request for the speech. *)
Theorem run_sends_at_most_a_story_and_a_speech_request env input w key :
  configured_key env w = Some key ->
  key <> ""%string ->
  exists story_part audio_part,
    requests (snd (script env input w)) = requests w ++ story_part ++ audio_part
    /\ (story_part = []
        \/ exists images,
             opens env (take 10 (uploaded_images input)) images
             /\ story_part = [story_request (mk_Client key) images (story_type input)])
    /\ (audio_part = []
        \/ exists story, audio_part = [speech_request (mk_Client key) story]).
Proof.
  intros Hkey Hne. unfold script. unfold mbind at 1. unfold M_bind.
  rewrite (import_module_with_key env w key Hkey Hne).
  set (w1 := set_clients _ _).
  destruct (limit_uploaded_images_result (uploaded_images input) w1) as (w2 & Hlimit & Hw2).
  unfold mbind at 1. unfold M_bind. rewrite Hlimit.
  assert (Hw1 : requests w2 = requests w) by (by rewrite Hw2).
  clearbody w1. clear Hlimit Hw2.
  pose proof (story_generation_requests env (mk_Client key)
                (take 10 (uploaded_images input)) (story_type input)
                (generate_button input) w2) as Hstory.
  unfold mbind, M_bind.
  destruct (story_generation env (mk_Client key) (take 10 (uploaded_images input))
              (story_type input) (generate_button input) w2) as [[[]|e] w3];
    cbn [fst snd] in *.
  - rewrite audio_generation_requests.
    set (audio_part := if generate_audio_button input then _ else _).
    assert (Haudio : audio_part = []
                     \/ exists story,
                          audio_part = [speech_request (mk_Client key) story]).
    { subst audio_part. destruct (generate_audio_button input); [|by left].
      destruct (session_state w3 !! "generated_story") as [story|]; [|by left].
      right. by exists story. }
    destruct Hstory as [-> | (images & Hopens & ->)].
    + exists [], audio_part. rewrite Hw1. split; [reflexivity|]. split; [by left|done].
    + exists [story_request (mk_Client key) images (story_type input)], audio_part.
      rewrite Hw1, <- app_assoc. split; [reflexivity|].
      split; [right; by exists images | done].
  - destruct Hstory as [-> | (images & Hopens & ->)].
    + exists [], []. rewrite Hw1, app_nil_r. split; [reflexivity|]. split; by left.
    + exists [story_request (mk_Client key) images (story_type input)], [].
      rewrite Hw1, app_nil_r. split; [reflexivity|].
      split; [right; by exists images | by left].
Qed.

Lemma run_sends_at_most_a_story_and_a_speech_request_witness :
  exists story_part audio_part,
    requests (snd (script (calm text_only_response)
                     (mk_widgets eleven_uploads "Comedy" true true) keyed_world))
    = requests keyed_world ++ story_part ++ audio_part
    /\ (story_part = []
        \/ exists images,
             opens (calm text_only_response)
               (take 10 (uploaded_images (mk_widgets eleven_uploads "Comedy" true true)))
               images
             /\ story_part
                = [story_request (mk_Client "key") images
                     (story_type (mk_widgets eleven_uploads "Comedy" true true))])
    /\ (audio_part = []
        \/ exists story, audio_part = [speech_request (mk_Client "key") story]).
Proof.
  apply (run_sends_at_most_a_story_and_a_speech_request (calm text_only_response)
           (mk_widgets eleven_uploads "Comedy" true true) keyed_world "key").
  - reflexivity.
  - discriminate.
Defined.

(** ** The prompt and the labels of the page *)

Lemma string_app_inv_head (s x y : string) : (s ++ x = s ++ y)%string -> x = y.
Proof.
  induction s as [|c s IH]; [done|].
  change (String c (s ++ x) = String c (s ++ y) -> x = y)%string.
  intros [= Heq]. by apply IH.
Qed.

Lemma string_app_inv_tail (s x y : string) : (x ++ s = y ++ s)%string -> x = y.
Proof.
  revert y. induction x as [|c x IH]; intros [|d y] Heq.
  - reflexivity.
  - apply (f_equal String.length) in Heq.
    change ("" ++ s)%string with s in Heq.
    change (String d y ++ s)%string with (String d (y ++ s)%string) in Heq.
    cbn [String.length] in Heq. rewrite string_length_app in Heq. lia.
  - apply (f_equal String.length) in Heq.
    change ("" ++ s)%string with s in Heq.
    change (String c x ++ s)%string with (String c (x ++ s)%string) in Heq.
    cbn [String.length] in Heq. rewrite string_length_app in Heq. lia.
  - change (String c (x ++ s) = String d (y ++ s))%string in Heq.
    injection Heq as -> Heq. f_equal. by apply IH.
Qed.

(** X20: different genres get different prompts: the prompt determines
    the value of [story_type] it was made for. *)
Theorem different_genres_get_different_prompts (genre genre' : string) :
  genre <> genre' -> story_prompt genre <> story_prompt genre'.
Proof.
  intros Hne Heq. apply Hne. unfold story_prompt in Heq.
  apply string_app_inv_head in Heq. by apply string_app_inv_tail in Heq.
Qed.

Lemma different_genres_get_different_prompts_witness :
  story_prompt "Comedy" <> story_prompt "Horror".
Proof.
  apply (different_genres_get_different_prompts "Comedy" "Horror"). discriminate.
Defined.

Lemma starts_with_complete sub after : starts_with sub (sub ++ after) = true.
Proof.
  induction sub as [|c sub IH]; [by destruct after|].
  change (String c sub ++ after)%string with (String c (sub ++ after)%string).
  cbn [starts_with]. by rewrite Ascii.eqb_refl, IH.
Qed.

Lemma occurs_in_complete sub s : contains s sub -> occurs_in sub s = true.
Proof.
  intros (before & after & ->).
  induction before as [|c before IH].
  - change ("" ++ sub ++ after)%string with (sub ++ after)%string.
    destruct (sub ++ after)%string eqn:Hs; cbn [occurs_in];
      rewrite <- Hs, starts_with_complete; reflexivity.
  - change (String c before ++ sub ++ after)%string
      with (String c (before ++ sub ++ after)%string).
    cbn [occurs_in]. rewrite IH. apply orb_true_r.
Qed.

Lemma contains_prefix s a b : contains s (a ++ b)%string -> contains s a.
Proof.
  intros (before & after & ->). exists before, (b ++ after)%string.
  by rewrite string_app_assoc.
Qed.

(** X21: of the ten labels that the page offers, eight have a line in
    the prompt that sets their tone; ["Adventurous"] and ["Mysterious"]
    have none, the prompt has lines for Adventure and Mystery instead: a
    story of one of these two labels is asked for without words for its
    tone. *)
Theorem two_labels_have_no_tone_line :
  Forall (fun label =>
            (exists tone, contains (story_prompt label) (tone_line label tone))
            <-> label ∉ ["Adventurous"; "Mysterious"]%string)
    story_types.
Proof.
  assert (Hhas : forall label tone,
             (label, tone) ∈ tones ->
             label ∉ ["Adventurous"; "Mysterious"]%string ->
             (exists tone, contains (story_prompt label) (tone_line label tone))
             <-> label ∉ ["Adventurous"; "Mysterious"]%string).
  { intros label tone Hin Hnot. split; [done|]. intros _. exists tone.
    apply story_prompt_has_tail.
    pose proof tone_lines_in_prompt as Hlines. rewrite Forall_forall in Hlines.
    by destruct (Hlines _ Hin). }
  assert (Hhas_not : forall label,
             occurs_in (tone_line_start label) (story_prompt label) = false ->
             label ∈ ["Adventurous"; "Mysterious"]%string ->
             (exists tone, contains (story_prompt label) (tone_line label tone))
             <-> label ∉ ["Adventurous"; "Mysterious"]%string).
  { intros label Hnone Hin. split; [|done]. intros [tone Htone]. exfalso.
    unfold tone_line in Htone.
    assert (Hstart : contains (story_prompt label) (tone_line_start label)).
    { apply (contains_prefix _ _ tone). unfold tone_line_start.
      by rewrite !string_app_assoc. }
    apply occurs_in_complete in Hstart. congruence. }
  unfold story_types.
  repeat apply Forall_cons_2; try apply Forall_nil_2.
  - apply (Hhas _ "light and funny"); [|apply (bool_decide_unpack _); reflexivity].
    apply (bool_decide_unpack _); reflexivity.
  - apply (Hhas _ "full of suspense"); apply (bool_decide_unpack _); reflexivity.
  - apply (Hhas _ "gives a life lesson"); apply (bool_decide_unpack _); reflexivity.
  - apply (Hhas _ "spooky and mysterious"); apply (bool_decide_unpack _); reflexivity.
  - apply (Hhas _ "touching and heartfelt"); apply (bool_decide_unpack _); reflexivity.
  - apply Hhas_not; [vm_compute; reflexivity | apply (bool_decide_unpack _); reflexivity].
  - apply (Hhas _ "fast and powerful"); apply (bool_decide_unpack _); reflexivity.
  - apply Hhas_not; [vm_compute; reflexivity | apply (bool_decide_unpack _); reflexivity].
  - apply (Hhas _ "magical and creative"); apply (bool_decide_unpack _); reflexivity.
  - apply (Hhas _ "simple and dreamlike"); apply (bool_decide_unpack _); reflexivity.
Qed.

(** ** What the page draws *)

Lemma draw_from_columns uploads : forall idx cols,
  length cols = 5 ->
  exists cols',
    draw_from idx cols uploads = Returned cols'
    /\ length cols' = 5
    /\ forall k, cols' !! k = (fun col => col ++ every_fifth idx k uploads) <$> cols !! k.
Proof.
  induction uploads as [|img rest IH]; intros idx cols Hcols; cbn [draw_from every_fifth].
  - exists cols. split; [reflexivity|]. split; [assumption|]. intros k.
    destruct (cols !! k); cbn; [by rewrite app_nil_r | reflexivity].
  - assert (Hlt : idx mod 5 < length cols).
    { rewrite Hcols. apply Nat.mod_upper_bound. lia. }
    destruct (lookup_lt_is_Some_2 cols _ Hlt) as [col Hcol].
    unfold draw_in_column. rewrite Hcol. unfold mbind, outcome_bind. cbv beta iota.
    destruct (IH (S idx) (<[idx mod 5 := col ++ [img]]> cols)) as (cols' & -> & Hlen & Hat).
    { by rewrite length_insert. }
    exists cols'. split; [reflexivity|]. split; [assumption|]. intros k.
    rewrite Hat. destruct (decide (idx mod 5 = k)) as [<-|Hne].
    + rewrite list_lookup_insert_eq by assumption. rewrite Hcol. cbn.
      by rewrite <- app_assoc.
    + by rewrite list_lookup_insert_ne.
Qed.

(** X22: the grid of the uploaded images has five columns and fills
    them in turn: indexing the columns never goes past their end, and
    column [k] holds, from top to bottom, the uploads at the positions
    [k], [k + 5], [k + 10] and so on. *)
Theorem image_grid_fills_five_columns_in_turn uploads :
  uploads <> [] ->
  exists cols,
    show_uploaded_images uploads = Returned (Some cols)
    /\ length cols = 5
    /\ forall k, k < 5 -> cols !! k = Some (every_fifth 0 k uploads).
Proof.
  intros Hsome. unfold show_uploaded_images.
  destruct uploads as [|img rest]; [done|]. cbn [is_empty].
  destruct (draw_from_columns (img :: rest) 0 (replicate 5 [])) as (cols & -> & Hlen & Hat);
    [reflexivity|].
  exists cols. split; [reflexivity|]. split; [assumption|]. intros k Hk.
  rewrite Hat, lookup_replicate_2 by assumption. reflexivity.
Qed.

Lemma image_grid_fills_five_columns_in_turn_witness :
  exists cols,
    show_uploaded_images eleven_uploads = Returned (Some cols)
    /\ length cols = 5
    /\ forall k, k < 5 -> cols !! k = Some (every_fifth 0 k eleven_uploads).
Proof.
  apply (image_grid_fills_five_columns_in_turn eleven_uploads). discriminate.
Defined.

Lemma every_fifth_length uploads k : forall idx,
  k < 5 ->
  length (every_fifth idx k uploads) * 5 + (k + 5 - idx mod 5) mod 5
  <= length uploads + 4.
Proof.
  intros idx Hk. revert idx.
  induction uploads as [|u rest IH]; intros idx; cbn [every_fifth length].
  - pose proof (Nat.mod_upper_bound (k + 5 - idx mod 5) 5). lia.
  - specialize (IH (S idx)).
    replace (S idx mod 5) with (S (idx mod 5) mod 5) in IH
      by (change (S idx) with (1 + idx); change (S (idx mod 5)) with (1 + idx mod 5);
          by rewrite Nat.Div0.add_mod_idemp_r).
    pose proof (Nat.mod_upper_bound idx 5) as Hr.
    destruct (idx mod 5) as [|[|[|[|[|r]]]]]; [| | | | |lia];
      destruct k as [|[|[|[|[|k]]]]]; try lia;
      destruct (decide _) as [Heq|Hne]; try discriminate; try done;
      cbn [length] in *; cbn in IH |- *; lia.
Qed.

(** X23: once the uploads are cut to ten, the grid has at most two
    rows: none of the five columns holds more than two images. *)
Theorem limited_grid_has_at_most_two_rows uploads :
  uploads <> [] ->
  exists cols,
    show_uploaded_images (take 10 uploads) = Returned (Some cols)
    /\ Forall (fun col => length col <= 2) cols.
Proof.
  intros Hsome. unfold show_uploaded_images.
  destruct uploads as [|img rest]; [done|]. cbn [take is_empty].
  destruct (draw_from_columns (img :: take 9 rest) 0 (replicate 5 []))
    as (cols & -> & Hlen & Hat); [reflexivity|].
  exists cols. split; [reflexivity|].
  apply Forall_lookup_2. intros k col Hcol.
  assert (Hk : k < 5) by (rewrite <- Hlen; by eapply lookup_lt_Some).
  rewrite Hat, lookup_replicate_2 in Hcol by assumption.
  injection Hcol as <-.
  change (length (every_fifth 0 k (img :: take 9 rest)) <= 2).
  pose proof (every_fifth_length (img :: take 9 rest) k 0 Hk) as Hbound.
  cbn [length] in Hbound. rewrite length_take in Hbound.
  set (n := length (every_fifth 0 k (img :: take 9 rest))) in *.
  set (d := (k + 5 - 0 mod 5) mod 5) in *. clearbody n d. lia.
Qed.

Lemma limited_grid_has_at_most_two_rows_witness :
  exists cols,
    show_uploaded_images (take 10 eleven_uploads) = Returned (Some cols)
    /\ Forall (fun col => length col <= 2) cols.
Proof.
  apply (limited_grid_has_at_most_two_rows eleven_uploads). discriminate.
Defined.

Lemma replace_newlines_free story :
  newline_free story = true -> replace_newlines story = story.
Proof.
  induction story as [|c story IH]; [reflexivity|]. cbn [newline_free replace_newlines].
  destruct (Ascii.eqb c (ascii_of_nat 10)); [discriminate|].
  cbn [negb andb]. intros Hfree. by rewrite IH.
Qed.

(** X24: the card of the story has no newline of the story left: each is
    replaced by a break, and the text before and after it is treated in
    the same way. *)
Theorem story_card_turns_every_newline_into_a_break (before after : string) :
  newline_free (replace_newlines before) = true
  /\ replace_newlines (before ++ nl ++ after)
     = (replace_newlines before ++ "<br>" ++ replace_newlines after)%string.
Proof.
  split.
  - induction before as [|c before IH]; [reflexivity|]. cbn [replace_newlines].
    destruct (Ascii.eqb c (ascii_of_nat 10)) eqn:Hc.
    + exact IH.
    + cbn [newline_free]. by rewrite Hc, IH.
  - induction before as [|c before IH]; [reflexivity|].
    change (String c before ++ nl ++ after)%string
      with (String c (before ++ nl ++ after)%string).
    cbn [replace_newlines]. rewrite IH.
    destruct (Ascii.eqb c (ascii_of_nat 10)); [|reflexivity].
    by rewrite string_app_assoc.
Qed.

(** X25: the story goes to the page as it is, markup included: for a
    stored story without newline, the card that is drawn with
    [unsafe_allow_html=True] holds the text of the story unchanged,
    between the paragraph tags. *)
Theorem story_is_shown_unescaped story_type story w :
  session_state w !! "generated_story" = Some story ->
  newline_free story = true ->
  show_story story_type w
  = Some (card_head ++ story_type ++ card_mid ++ story ++ card_tail)%string.
Proof.
  intros Hstory Hfree. unfold show_story, story_card.
  rewrite Hstory. cbn [fmap option_fmap option_map]. by rewrite replace_newlines_free.
Qed.

Lemma story_is_shown_unescaped_witness :
  show_story "Comedy"
    (set_session_state {["generated_story" := "<script>alert(1)</script>"%string]}
       empty_world)
  = Some (card_head ++ "Comedy" ++ card_mid ++ "<script>alert(1)</script>"
            ++ card_tail)%string.
Proof.
  apply (story_is_shown_unescaped "Comedy" "<script>alert(1)</script>"
           (set_session_state {["generated_story" := "<script>alert(1)</script>"%string]}
              empty_world)).
  - reflexivity.
  - reflexivity.
Defined.

(** ** The length limit of the container, in the program *)

(** X26: the encoder in one equation: a buffer of at most 4294967259
    bytes, of even or odd length, gets the header of 44 bytes followed
    by the buffer unchanged, and a longer one gets [struct.error],
    because the header has 32 bits for its lengths. *)
Theorem encoder_fails_exactly_on_long_buffers (pcm : bytes) :
  encode pcm
  = if decide (Z.of_nat (length pcm) <= max_pcm_length)%Z
    then Returned (wav_header (Z.of_nat (length pcm)) ++ pcm)
    else Raised struct_L_range.
Proof.
  destruct (decide (Z.of_nat (length pcm) <= max_pcm_length)%Z) as [Hfits|Hlong].
  - by apply encode_ok.
  - apply encode_too_long. lia.
Qed.

(** X27: audio that is too long for a container is dropped without a
    file: when the service returns more than 4294967259 bytes of
    samples, [generate_audio_from_generated_story] returns [None], tells
    the [struct.error] on the console, and creates no temporary file. *)
Theorem too_long_audio_gives_None_and_no_file env client story_text w response pcm :
  service env (speech_request client story_text) = Returned response ->
  audio_payload response = Some pcm ->
  (max_pcm_length < Z.of_nat (length pcm))%Z ->
  generate_audio_from_generated_story env client story_text w
  = (Returned None,
     set_console (console w
                    ++ [print ("❌ Error generating audio: " ++ exn_str struct_L_range);
                        print_exc struct_L_range])
       (sent (speech_request client story_text) w)).
Proof.
  intros Hservice Hpayload Hlong.
  destruct (audio_payload_inv _ _ Hpayload)
    as (candidate & ? & c & part & ? & blob & Hcandidates & Hcontent & Hparts & Hinline
        & Hdata).
  unfold generate_audio_from_generated_story, save_to_temp_file. run_W.
  fold (speech_request client story_text).
  rewrite Hservice. run_W. rewrite Hcandidates. run_W. rewrite Hcontent. run_W.
  rewrite Hparts. run_W. rewrite Hinline. run_W. rewrite Hdata.
  rewrite wrap_in_wav_too_long by assumption. run_X.
  change (is_Exception struct_L_range) with true. cbv iota.
  by rewrite <- app_assoc.
Qed.

Lemma too_long_audio_gives_None_and_no_file_witness :
  generate_audio_from_generated_story (calm (audio_response (silence 4294967260)))
    a_client "Hello world" world_with_story
  = (Returned None,
     set_console (console world_with_story
                    ++ [print ("❌ Error generating audio: " ++ exn_str struct_L_range);
                        print_exc struct_L_range])
       (sent (speech_request a_client "Hello world") world_with_story)).
Proof.
  apply (too_long_audio_gives_None_and_no_file
           (calm (audio_response (silence 4294967260))) a_client "Hello world"
           world_with_story (audio_response (silence 4294967260))
           (silence 4294967260)).
  - reflexivity.
  - reflexivity.
  - rewrite length_silence by lia. unfold max_pcm_length. lia.
Defined.

(** X28: the page sends the user to the console, and the console has
    something to read: a call that returns [None] has printed at least
    one line, and a call that returns a path has printed nothing. *)
Theorem None_is_always_explained_on_the_console env client story_text w :
  match fst (generate_audio_from_generated_story env client story_text w) with
  | Returned None =>
      exists line rest,
        console (snd (generate_audio_from_generated_story env client story_text w))
        = console w ++ line :: rest
  | Returned (Some _) =>
      console (snd (generate_audio_from_generated_story env client story_text w))
      = console w
  | Raised _ => True
  end.
Proof.
  audio_cases env client story_text; rewrite <- ?app_assoc;
    first [ done | by eexists _, _ ].
Qed.
